(* ===== verification/_CoqProject ===== *)
-Q . S2P
Prelude.v
Double.v
StdMap.v
Statistics.v
SampleStore.v
ReadMachine.v
Aggregator.v
Selector.v
Exporter.v
Simulation.v
Topology.v
Experiment.v
ResultsFile.v
Pipeline.v
