(* ===== verification/Prelude.v ===== *)
(** * Verification of streamnow's statistics and bitrate-selection engine

    ** The program

    The repository holds two C++ programs.  [src/src/onoffRouting.cc] runs
    one ns-3 simulation of a video-streaming network for a number of users
    and a bottleneck bitrate and appends one record
    [num_usuarios bitrate loss delay jitter] to [results.dat]: it splits
    the users into two regions and three video classes, creates a traffic
    source for 40% of the users of every class, runs the simulator and
    summarises the flow monitor's statistics.
    [src/src/plot-results.cc] reads all those records and is the engine
    the spec describes:
    + the read loop of [main] (lines 97-112) groups the records into
      [std::map<int, std::map<double, MetricSamples>>], one bucket per
      (user count, bitrate) with the loss, delay and jitter samples;
    + for every bucket it computes the mean and the 95% margin of error of
      each metric with [CalculateMean], [CalculateStdDev] and
      [CalculateMarginOfError] (lines 45-80), into a [ProcessedPoint];
      the points of one user count form a tier (lines 115-141);
    + an empty result is an error exit; otherwise every tier is sorted by
      bitrate while the global bitrate range is tracked (143-165);
    + every tier is scanned for the first point meeting the QoS thresholds
      (delay <= 20 ms, jitter <= 8 ms, loss <= 0.5 %), with a [-1]
      sentinel for "none" (167-182);
    + the processed points are written to [sim_precision.dat] (184-200),
      and the decision summary is printed, feeding the final plot (372-424).

    ** Files and what they model

    - [Prelude] (this file): the notation scope [streamnow_scope]
      ([v <+ x] is [push_back]), the hint databases [streamnow] and
      [streamnow_rw], the tactics [inv] and [bool_simpl], and the list
      lemmas the components share (search in a list, strict sortedness and
      its uniqueness, folds over filtered lists, composition of [Forall2])
      and [check_range], the
      boolean check of a property on every integer of a range, whose
      [vm_compute] evaluation proves the bounded statements of [Simulation].
    - [Double]: C++ [double] as Rocq's primitive binary64 [float]; the
      implicit conversions [size_t -> double], [size_t -> int] (two's
      complement narrowing, [int32_wrap]) and [int -> double]; sign lemmas
      for [+ * / sqrt]; the order of non-NaN doubles ([ltb_trans],
      [ltb_incomparable]) through a lexicographic rank of [SpecFloat].
    - [StdMap]: [std::map] as a sorted association list whose comparator
      is the interface [KeyOrder]/[KeyOrderLaws] (a strict weak order on
      [key_ok] keys), with the instances for [int] and [double];
      [StdMap.update] is [m[k]] followed by a change of the mapped value,
      [StdMap.wf] the map invariant, and its lemmas (lookup after update,
      keys, lengths, preservation of [wf]).
    - [Statistics], [Module StatisticsEngine]: the three functions, with
      [std::accumulate] as a left fold and [std::pow(x, 2)] as [x * x].
    - [SampleStore], [Module SampleStore]: [RawSample], [MetricSamples],
      the loop body [record_sample] as its three [operator[]] statements,
      and [read_loop] over the stream of records ([Some r] when the five
      extractions succeed, [None] where one fails).
    - [ReadMachine], [Module ReadMachine]: the same loop as a small-step
      machine whose program counter [Pc] stands at the [while] test, before
      one of the three [push_back] statements, or after [inFile.close()];
      [step] has one rule per statement and [next] computes it.
    - [Aggregator], [Module Aggregator]: [process_point], [process_tier],
      [process_all], the sort ([insertion sort] for [std::sort]) with the
      range tracking [sort_tiers], and [aggregate], which returns the
      sorted tiers and the range or [EmptyDataset] (the exit code 1).
    - [Selector], [Module BitrateSelector]: [qualifies], the scan with its
      [break], [select_tier] with the [-1] sentinel, [finalResults], the
      summary's [decode], and the spec's tagged contract [select_spec].
    - [Exporter], [Module ResultExporter]: the text of [sim_precision.dat]
      and the console summary as a step function over the state
      ([finalDataset], [validResultsCount], the format flags of
      [std::cout], the printed lines).  The text of one number is a
      parameter ([show_int], [show_double]) of [Section Exporter].
    - [Simulation], [Module OnOffRouting]: the computations of
      [onoffRouting.cc] around the simulator: [user_split] with its
      binary64 products and [double -> uint32_t] truncations, the source
      loops [class_loop] with their [double] bounds and the address index
      [GetAddress(user_idx + 1)] of every source ([region_sources]), the
      flow statistics loop [flow_summary], [lossRatio], the record
      [run_record] and [bitrate_val] ([find], [substr] and [std::stod] on
      its decimal fast path).  The simulator's execution is not modelled:
      its statistics enter as [FlowStats] values, and [Average::Mean] is a
      parameter.
    - [Topology], [Module Topology]: the network [onoffRouting.cc] builds
      (lines 79-131, 165, 176) as data threaded statement by statement
      through the helpers' state: [CsmaHelper]'s data rate ([set_rate],
      [install] of a channel), [Ipv4AddressHelper]'s base and next host
      ([set_base], [assign]), the interface containers ([get_iface] is
      [GetAddress]), the packet sinks and [allNodes] ([all_nodes]);
      [build_network] is the whole block and [walk] the paths through the
      channels.
    - [Experiment], [Module Experiment]: [main] of [onoffRouting.cc] after
      [cmd.Parse], as the list of its effects ([Log] of the [NS_LOG_*]
      lines, [SetSeed], [Run] of the [Experiment] handed to ns-3,
      [AppendResults] of the record, [Destroy]) and its [Outcome] ([Exit]
      or [Terminate] on the uncaught [std::invalid_argument] of
      [std::stod]); the applications with their random on/off times
      ([source_app], [sink_apps]) and their schedule ([set_start],
      [set_stop]) in microseconds ([Time::US]).  The flow statistics ns-3
      returns ([simulate]) and [Average::Mean] are variables of
      [Section Main].
    - [ResultsFile], [Module ResultsFile]: the file between the two
      programs.  The writer: line 209 of [onoffRouting.cc] ([record_line]),
      [operator<<] of [uint32_t] ([show_uint]) and of [double] at the
      default precision 6, i.e. [%g] ([show_double]: [round6] rounds
      exactly on integers, [g6_numeral] picks fixed or scientific
      notation, trailing zeros removed, [inf]/[nan]), [std::endl], and the
      appends of successive runs ([campaign], from [Experiment.main]).  The
      reader: the [while] test of line 107 of [plot-results.cc]
      ([read_record]: [num_get<int>] failing on overflow, [num_get<double>]
      with the [strtod] rounding [decimal_to_float], no [inf] or [nan]) and
      the loop up to the first failure ([read_records], [read_file]), the
      stream [SampleStore.read_loop] consumes.
    - [Pipeline], [Module PlotResults]: [main] of [plot-results.cc] as the
      ordered list of its effects ([system()] commands, files written,
      plots handed to Gnuplot, lines printed) and its exit code, composing
      the components above; a plot is the data given to [ns3::Gnuplot]
      (output file, title, datasets of points).

    ** What is proved

    - Ingestion ([SampleStore]): after the loop, every bucket holds exactly
      the metrics of the records with its key, in input order, with
      equivalent bitrate keys merged ([read_loop_buckets]); the three
      statements of the loop body act as one append ([record_sample_one_bucket]);
      the loop stops at the first failed extraction ([read_loop_stops]).
    - The read loop, statement by statement ([ReadMachine]): the machine
      implements [read_loop] ([read_machine_refines], through a denotation
      every step preserves); in every reachable state the store is
      well-formed and balanced except the current record's bucket, one
      statement ahead ([read_machine_invariant], rule induction on
      [reachable]); from every state every execution closes the file
      ([read_machine_live], an inductive [eventually]).
    - Statistics: mean, standard deviation and margin of error never
      compare below [0.0] under the stated inputs, and a bucket of 2^31 to
      2^32+1 samples gets margin [0.0] through the [size_t -> int]
      narrowing ([margin_of_error_narrowing]).
    - Aggregation: an error exactly on empty input ([aggregate_empty]); on
      success the tiers are exactly the processed buckets, strictly sorted,
      so [std::sort] reorders nothing ([aggregate_tiers], [aggregate_points]),
      and form a well-formed map of non-empty tiers ([aggregate_result_wf]);
      margins are not negative and [0.0] below two samples
      ([aggregate_margins]); the tracked range bounds every bitrate
      ([aggregate_range]) but stays at its start value [1e9] when every
      bitrate is above it ([aggregate_min_sentinel]).
    - Selection: the sentinel encoding refines the tagged contract exactly
      when the qualifying bitrate is positive ([decode_select],
      [sentinel_conflation]); on a sorted tier the selection is the minimal
      qualifying bitrate ([select_minimal]); under monotone metrics it
      splits the tier into failing and qualifying points ([select_monotone]).
    - Export: [sim_precision.dat] reads back as the header and the fields
      of every point in map order ([csv_roundtrip]); the summary's lines,
      final dataset, count and plot decision ([summary_lines],
      [summary_count]), including the [std::fixed] flag that stays set on
      [std::cout] after the first valid line.
    - The whole run ([Pipeline]): exit code 1 exactly when the input cannot
      be opened or its first record not extracted, after the directories
      are created ([main_exit_code]); a malformed record only cuts the
      input short ([main_stops_at_malformed]); a successful run produces
      exactly the reference effects built from the components'
      specifications ([main_success]); the six plots of the tiers show, in
      order, the delay, jitter and loss means of every tier with their
      thresholds from [minBitrate] to [maxBitrate], then the three margins
      of error, stated against a per-metric reference written apart from
      [main]'s plot blocks ([tier_plots]); every tier curve is sorted and
      within the threshold segment ([tier_curves]).
    - Simulation: the split's conversions are defined and lose fewer than
      six users ([user_split_bounds]) but drop a user at 500 users
      ([user_split_500]); every loop terminates after [ceil(2c/5)]
      iterations ([class_loop_terminates]); every source addresses a
      distinct existing user of its LAN ([sources_addresses]); the flow
      loop's updates and totals in closed form ([flow_summary_spec]), with
      short flows ignored ([short_flows_ignored]) and a loss ratio that is
      never negative ([lossRatio_not_neg]); the recorded bitrate of
      [<digits>Mbps] is exact ([bitrate_val_mbps]), and digits followed by
      any other unit are recorded as the bare number, whatever the unit
      ([bitrate_val_units]).
    - Network ([Topology]): the link at the bitrate under test is the only
      channel at that rate (the other backbone links run at 1Gbps, the
      LANs at 100Mbps) and the only path from the server to the Valencia users, while the Baleares users
      are reached around it ([bottleneck_separates], a cut argument on
      [walk]); every source sends to a user of its region with a sink on
      its port, at the address [Assign] gave it ([sources_reach_sinks],
      composing [Simulation]'s sources with the network); the Valencia
      users all get host addresses of their /22 LAN exactly up to 1461
      users ([valencia_lan_capacity]); the nodes the channels join are
      exactly [allNodes], which received the internet stack ([network_nodes]).
    - One simulation run ([Experiment]): an accepted run simulates once and
      appends [run_record] of that simulation, under a schedule where every
      source runs from exactly 10 s to 40 s (stop at 45 s) with its on and
      off times, and the sink of its target listens from exactly 10 s
      ([main_run], composing [Simulation], [Topology] and the schedule);
      it exits 0 exactly when [std::stod] reads the bitrate and otherwise
      terminates without a record ([main_outcome]); logging changes only
      the console output ([main_logs_neutral]), and without
      [--enableLogs] nothing is printed, not even the summary the comment
      says is always printed ([main_silent]); the debug lines print the
      addresses of the nodes they name ([address_msgs_spec]).
    - The file between the programs ([ResultsFile]): what the writer prints
      the reader extracts again, rounded to six significant digits, in
      order, then the loop's test fails at the end ([results_roundtrip],
      from [read_record_line]: each [operator>>] reads back what the
      matching [operator<<] wrote); a line with a user count beyond
      [INT_MAX] or an [inf]/[nan] metric silently ends the reading
      ([results_stop]); user counts and integral bitrates below 10000 come
      back exact, while bitrates of more than six digits merge
      ([results_keys_exact]); a campaign of runs of [onoffRouting] reaches
      [plot-results] as one record per run, in order, with the run's key
      ([runs_to_plot], composing [Experiment.main_shape] with the round trip).

    ** Modelling choices and bounds

    - [size_t] is [N] (its values below 2^64 are all the theorems need);
      [int] is [Z] with two's-complement narrowing written out; [double]
      is binary64, so every rounding is the real one; the literals ([2.262],
      [0.5], [1e9], ...) are their nearest doubles, as the compiler makes them.
    - No loop of the engine needs fuel: every loop of [plot-results.cc]
      iterates over a finite container or the finite input, and is a
      structural recursion here.  The source loops of [onoffRouting.cc]
      run while [i < c * 0.4] on doubles; [class_loop] has fuel [S c], and
      [class_loop_terminates] shows it is enough and the result is the
      loop's.
    - Without a library of rounding lemmas, the facts about binary64
      rounding in [Simulation] (the [uint32_t -> double] embedding is
      increasing, [i < c * 0.4] holds exactly below [ceil(2c/5)], the six
      products of the split truncate within the exact shares) are checked
      by evaluation for every user count up to [max_users] = 65535; larger
      counts are not covered (the LANs overflow long before, from 1462
      users, [valencia_lan_capacity]).  The capacity theorem evaluates the
      split for every count below 1468 and bounds the Valencia share from
      below above it; the host numbers of the /22 LAN are checked for every
      value up to 65537.
    - An address is [network + host]: [Assign] numbers hosts from 1 in
      device order, which is [network | host] while the host fits the
      mask; that is exactly the range [valencia_lan_capacity] delimits.
    - The decimal-binary conversions of the file are computed on integers
      ([Z]), so the rounding is exact by construction; that [reread] of an
      integral double below 10000 is the double itself is checked by
      evaluation for every such value ([integral_check]).  The read loop
      over a text [s] gets [length s + 1] tests as fuel: every successful
      extraction consumes at least one character, and the theorems give
      the whole result, the final failure included.
    - [std::sort] is not specified to be stable or to be a particular
      algorithm; on the tiers the engine builds every sorted permutation
      coincides ([sorted_unique]), so the insertion sort stands for any.

    ** Not modelled

    - The text of one number in [sim_precision.dat] and the console summary
      ([std::fixed], [std::setprecision(2)]) stays a parameter of the
      exporter ([show_int], [show_double] of [Section Exporter]); the
      numbers of [results.dat] are modelled in full ([ResultsFile]).  Of
      [num_get<double>], hexadecimal floats and [inf]/[nan] spellings are
      not modelled: the writer never produces the former, and libstdc++
      rejects the latter.
    - The text [ns3::Gnuplot] writes into the [.plt] files, the pictures,
      and what the [system()] commands do: external rendering.  The
      commands and the plotted data are modelled.
    - The execution of the ns-3 simulator (devices, queues, the internet
      stack, RIP and static routing, TCP, the random on/off times, the
      flow monitor) and [ns3::Average]: an external simulator, which the
      spec treats as the upstream data producer.  Of its configuration the
      nodes, channels, addresses and sinks are modelled ([Topology]), and
      [main]'s effects, logs and application schedule ([Experiment]); not
      modelled are [CommandLine::Parse] (the model starts from the parsed
      [Params]), ns-3's parsing of [DataRate(bitrate_str)] (taken to
      accept the string), the [NS_LOG] environment variable (taken as
      unset) and the text of the routing tables printed at 11 s.
    - The opening of the files and the file system itself: [results.dat]
      holds exactly the lines the runs appended ([campaign_text]); a file
      edited or truncated in between is outside the model. *)

From Stdlib Require Import List ZArith Lia Bool Sorted Permutation.
Import ListNotations.

(** ** Notation scope of the development *)

Declare Scope streamnow_scope.
Delimit Scope streamnow_scope with sn.

(** [std::vector::push_back]: append at the back. *)
Definition push_back {A : Type} (v : list A) (x : A) : list A := v ++ [x].

Notation "v <+ x" := (push_back v x) (at level 50, left associativity) : streamnow_scope.
Open Scope streamnow_scope.

(** ** Hint database shared by every component *)

Create HintDb streamnow.
Create Rewrite HintDb streamnow_rw.

(** ** Tactics *)

Ltac inv H := inversion H; subst; clear H.

(** Split every boolean conjunction/disjunction hypothesis and goal into its parts. *)
Ltac bool_simpl :=
  repeat match goal with
  | H : (_ && _)%bool = true |- _ => apply andb_true_iff in H as [? ?]
  | H : (_ || _)%bool = false |- _ => apply orb_false_iff in H as [? ?]
  | H : negb _ = true |- _ => apply negb_true_iff in H
  | H : negb _ = false |- _ => apply negb_false_iff in H
  | |- (_ && _)%bool = true => apply andb_true_iff; split
  | |- negb _ = true => apply negb_true_iff
  end.

(** ** Lists: push_back *)

Lemma length_push_back {A : Type} (v : list A) (x : A) :
  length (v <+ x) = S (length v).
Proof. unfold push_back. rewrite length_app. simpl. lia. Qed.

Lemma In_push_back {A : Type} (v : list A) (x y : A) :
  In y (v <+ x) <-> In y v \/ y = x.
Proof. unfold push_back. rewrite in_app_iff. simpl. intuition. Qed.

Lemma map_push_back {A B : Type} (f : A -> B) (v : list A) (x : A) :
  map f (v <+ x) = map f v <+ f x.
Proof. unfold push_back. now rewrite map_app. Qed.

#[export] Hint Rewrite @length_push_back @map_push_back : streamnow_rw.

(** ** Lists: first match *)

(** [find] returns the first element satisfying the test, or [None]. *)
Lemma find_first {A : Type} (f : A -> bool) (l : list A) (x : A) :
  find f l = Some x ->
  exists pre post, l = pre ++ x :: post /\ f x = true /\ Forall (fun y => f y = false) pre.
Proof.
  induction l as [|a l IH]; simpl; [discriminate|].
  destruct (f a) eqn:Ha.
  - intros [= <-]. exists [], l. auto.
  - intros H. destruct (IH H) as (pre & post & -> & Hx & Hpre).
    exists (a :: pre), post. auto.
Qed.

Lemma find_none_forall {A : Type} (f : A -> bool) (l : list A) :
  find f l = None <-> Forall (fun y => f y = false) l.
Proof.
  induction l as [|a l IH]; simpl; [split; auto|].
  destruct (f a) eqn:Ha; split; intros H.
  - discriminate.
  - inv H; congruence.
  - constructor; auto. now apply IH.
  - inv H. now apply IH.
Qed.

(** ** Lists: strict sortedness *)

Lemma StronglySorted_app_inv {A : Type} (R : A -> A -> Prop) (l1 l2 : list A) :
  StronglySorted R (l1 ++ l2) ->
  StronglySorted R l1 /\ StronglySorted R l2 /\
  (forall x y, In x l1 -> In y l2 -> R x y).
Proof.
  induction l1 as [|a l1 IH]; simpl; intros H.
  - split; [constructor|split; [exact H|intros ? ? []]].
  - apply StronglySorted_inv in H as [H HF].
    destruct (IH H) as (H1 & H2 & H12).
    rewrite Forall_forall in HF.
    split; [|split]; auto.
    + constructor; auto. apply Forall_forall. intros; apply HF, in_or_app; auto.
    + intros x y [<-|Hx] Hy; auto. apply HF, in_or_app; auto.
Qed.

(** Two strictly sorted permutations of each other are the same list: the
    result of any sort is determined when no two elements are equivalent. *)
Lemma sorted_unique {A : Type} (R : A -> A -> Prop) (l1 l2 : list A) :
  (forall x y, In x l1 -> In y l1 -> R x y -> R y x -> False) ->
  StronglySorted R l1 -> StronglySorted R l2 -> Permutation l1 l2 -> l1 = l2.
Proof.
  revert l2. induction l1 as [|a l1 IH]; intros l2 Hasym H1 H2 Hp.
  - now apply Permutation_nil in Hp.
  - destruct l2 as [|b l2]; [apply Permutation_sym, Permutation_nil in Hp; discriminate|].
    apply StronglySorted_inv in H1 as [H1 F1]. apply StronglySorted_inv in H2 as [H2 F2].
    rewrite Forall_forall in F1, F2.
    assert (a = b) as <-.
    { destruct (Permutation_in b (Permutation_sym Hp) (in_eq _ _)) as [->|Hb]; auto.
      destruct (Permutation_in a Hp (in_eq _ _)) as [->|Ha]; auto.
      exfalso. apply (Hasym a b); [left; reflexivity|right; exact Hb|auto|auto]. }
    f_equal. apply IH; [|exact H1|exact H2|exact (Permutation_cons_inv Hp)].
    intros x y Hx Hy. apply Hasym; right; assumption.
Qed.

Lemma StronglySorted_map {A B : Type} (R : B -> B -> Prop) (f : A -> B) (l : list A) :
  StronglySorted (fun x y => R (f x) (f y)) l -> StronglySorted R (map f l).
Proof.
  induction 1 as [|a l Hs IH Hf]; simpl; constructor; auto.
  rewrite Forall_forall in *. intros y Hy. apply in_map_iff in Hy as (x & <- & Hx). auto.
Qed.

Lemma StronglySorted_impl {A : Type} (R S : A -> A -> Prop) (l : list A) :
  (forall x y, R x y -> S x y) -> StronglySorted R l -> StronglySorted S l.
Proof.
  intros HRS. induction 1 as [|a l Hs IH Hf]; constructor; auto.
  revert Hf. apply Forall_impl. auto.
Qed.

(** The default of [last] is irrelevant on a non-empty list. *)
Lemma last_indep {A : Type} (l : list A) (d d' : A) : l <> [] -> last l d = last l d'.
Proof.
  induction l as [|a l IH]; intros H; [congruence|].
  destruct l as [|b l]; [reflexivity|]. apply IH. discriminate.
Qed.

Lemma last_cons_In {A : Type} (a : A) (l : list A) : In (last (a :: l) a) (a :: l).
Proof.
  revert a. induction l as [|b l IH]; intros a; [left; reflexivity|].
  right. change (last (a :: b :: l) a) with (last (b :: l) a).
  rewrite (last_indep _ a b) by discriminate. apply IH.
Qed.

(** ** Exhaustive checks over an integer range *)

(** [P z && P (z + 1) && ... && P (z + n - 1)], evaluated by [vm_compute]
    to prove a property of every integer of a bounded range. *)
Fixpoint check_range (P : Z -> bool) (n : nat) (z : Z) : bool :=
  match n with
  | O => true
  | S n' => P z && check_range P n' (z + 1)
  end.

Lemma check_range_spec P n z :
  check_range P n z = true -> forall x, (z <= x < z + Z.of_nat n)%Z -> P x = true.
Proof.
  revert z. induction n as [|n IH]; simpl; intros z H x Hx; [lia|].
  apply andb_true_iff in H as [H1 H2].
  destruct (Z.eq_dec x z) as [->|Hne]; [exact H1|].
  apply (IH (z + 1)%Z); [exact H2|lia].
Qed.

(** ** Folds *)

(** A fold whose step leaves the state unchanged on the elements [p]
    rejects is the fold over the elements [p] keeps. *)
Lemma fold_left_filter {A B : Type} (step : B -> A -> B) (p : A -> bool) (l : list A) (st : B) :
  (forall st x, p x = false -> step st x = st) ->
  fold_left step l st = fold_left step (filter p l) st.
Proof.
  intros Hskip. revert st. induction l as [|x l IH]; intros st; simpl; [reflexivity|].
  destruct (p x) eqn:Hp; simpl; [apply IH|]. rewrite Hskip by assumption. apply IH.
Qed.

Lemma filter_none {A : Type} (p : A -> bool) (l : list A) :
  (forall x, In x l -> p x = false) -> filter p l = [].
Proof.
  induction l as [|x l IH]; intros H; simpl; [reflexivity|].
  rewrite (H x (or_introl eq_refl)). apply IH. intros y Hy. apply H. now right.
Qed.

Lemma Forall2_compose {A B C : Type} (R : A -> B -> Prop) (S : B -> C -> Prop) (T : A -> C -> Prop)
  (xs : list A) (ys : list B) (zs : list C) :
  (forall x y z, R x y -> S y z -> T x z) -> Forall2 R xs ys -> Forall2 S ys zs -> Forall2 T xs zs.
Proof.
  intros HT H1. revert zs. induction H1 as [|x y xs ys Hxy _ IH]; intros zs H2; inversion H2; subst;
    constructor; eauto.
Qed.

Lemma Forall2_Forall_l {A B : Type} (R : A -> B -> Prop) (P : B -> Prop) (xs : list A) (ys : list B) :
  (forall x y, R x y -> P y) -> Forall2 R xs ys -> Forall P ys.
Proof. intros H. induction 1; constructor; eauto. Qed.
