(* ===== verification/Double.v ===== *)
(** * C++ [double] as IEEE-754 binary64

    The source computes with [double]; Rocq's primitive [float] is the same
    IEEE-754 binary64 type with round-to-nearest-even, and its operations are
    specified by [SpecFloat] through the kernel's [FloatAxioms]
    ([add_spec], [mul_spec], [div_spec], [sqrt_spec], [ltb_spec], ...).
    This file holds what the statistics need of them:
    - the conversions the source performs implicitly: [size_t] to [double]
      (in [CalculateMean] and [CalculateStdDev]), [size_t] to [int] (the
      argument of [CalculateMarginOfError]) and [int] to [double] (its
      [std::sqrt(sampleSize)]);
    - sign lemmas: which results can never compare below [0.0] with the
      C++ operator [<] (NaN included, since [NaN < 0.0] is false);
    - the order of non-NaN doubles: [<] is a strict total order up to the
      identification of [+0.0] and [-0.0], which is what [std::map<double,_>]
      and [std::sort] rely on. *)

From Stdlib Require Import List ZArith Lia Bool Floats Uint63.
From S2P Require Import Prelude.

Local Open Scope Z_scope.

(** ** Implicit conversions of the source *)

(** [v.size()]: a [size_t], kept as a binary natural number.  Vectors held
    in memory have far fewer than [2^63] elements. *)
Definition size {A : Type} (v : list A) : N := N.of_nat (length v).

(** [size_t] to [double]: exact below [2^53]; [Uint63.of_Z] would wrap only
    at [2^63]. *)
Definition double_of_size (n : N) : float := PrimFloat.of_uint63 (Uint63.of_Z (Z.of_N n)).

(** [size_t] to [int] (32-bit): the value modulo [2^32], read as two's
    complement (implementation-defined before C++20, the rule since C++20
    and what GCC and Clang do). *)
Definition int32_wrap (z : Z) : Z :=
  let r := z mod 2 ^ 32 in if r <? 2 ^ 31 then r else r - 2 ^ 32.

Definition int_of_size (n : N) : Z := int32_wrap (Z.of_N n).

(** [int] to [double]: exact for every 32-bit value. *)
Definition double_of_int (z : Z) : float :=
  if z <? 0 then PrimFloat.opp (PrimFloat.of_uint63 (Uint63.of_Z (- z)))
  else PrimFloat.of_uint63 (Uint63.of_Z z).

(** ** Sign classes of specification floats *)

(** Never below zero for the C++ [<]: a NaN, a zero of either sign, or a
    positive number. *)
Definition sf_not_neg (f : spec_float) : bool :=
  match f with
  | S754_finite true _ _ | S754_infinity true => false
  | _ => true
  end.

(** Sign bit clear (or NaN): what a divisor must be for the quotient of a
    non-negative value to stay non-negative ([1.0 / -0.0] is [-inf]). *)
Definition sf_sign_clear (f : spec_float) : bool :=
  match f with
  | S754_nan => true
  | S754_zero s | S754_infinity s | S754_finite s _ _ => negb s
  end.

Lemma sign_clear_not_neg f : sf_sign_clear f = true -> sf_not_neg f = true.
Proof. destruct f as [[]|[]| |[]]; simpl; congruence. Qed.

(** Rounding keeps the sign it is given. *)
Lemma round_aux_sign_clear prec emax mx ex lx :
  sf_sign_clear (binary_round_aux prec emax false mx ex lx) = true.
Proof.
  unfold binary_round_aux.
  destruct (shr_fexp prec emax mx ex lx) as [m1 e1].
  destruct (shr_fexp prec emax _ e1 loc_Exact) as [m2 e2].
  destruct (shr_m m2); simpl; auto.
  destruct (e2 <=? emax - prec); reflexivity.
Qed.

Lemma binary_round_sign_clear prec emax mx ex :
  sf_sign_clear (binary_round prec emax false mx ex) = true.
Proof.
  unfold binary_round. destruct (shl_align mx ex _). apply round_aux_sign_clear.
Qed.

#[export] Hint Resolve sign_clear_not_neg round_aux_sign_clear binary_round_sign_clear : streamnow.

(** Case analysis on the signs and classes of the operands, then on the
    intermediate results the operations compute before rounding. *)
Ltac sf_cases :=
  repeat match goal with
  | s : bool |- _ => destruct s
  | f : spec_float |- _ => destruct f
  end; simpl in *; try discriminate;
  repeat match goal with
  | |- context [let '(_, _) := ?e in _] => destruct e
  end; simpl; auto with streamnow.

Lemma SFmul_not_neg prec emax x y :
  sf_not_neg x = true -> sf_not_neg y = true -> sf_not_neg (SFmul prec emax x y) = true.
Proof. intros Hx Hy. destruct x as [[]|[]| |[]], y as [[]|[]| |[]]; sf_cases. Qed.

Lemma SFmul_square_not_neg prec emax x : sf_not_neg (SFmul prec emax x x) = true.
Proof. destruct x as [[]|[]| |[]]; sf_cases. Qed.

Lemma SFdiv_not_neg prec emax x y :
  sf_not_neg x = true -> sf_sign_clear y = true -> sf_not_neg (SFdiv prec emax x y) = true.
Proof.
  intros Hx Hy. destruct x as [[]|[]| |[] mx ex], y as [[]|[]| |[] my ey]; sf_cases.
Qed.

Lemma SFsqrt_not_neg prec emax x : sf_not_neg (SFsqrt prec emax x) = true.
Proof.
  destruct x as [[]|[]| |[] mx ex]; sf_cases.
Qed.

Lemma SFsqrt_sign_clear prec emax x :
  sf_sign_clear x = true -> sf_sign_clear (SFsqrt prec emax x) = true.
Proof.
  destruct x as [[]|[]| |[] mx ex]; sf_cases.
Qed.

Lemma SFadd_not_neg prec emax x y :
  sf_not_neg x = true -> sf_not_neg y = true -> sf_not_neg (SFadd prec emax x y) = true.
Proof.
  intros Hx Hy. destruct x as [[]|[]| |[] mx ex], y as [[]|[]| |[] my ey]; sf_cases.
Qed.

(** ** The same on [float], through the kernel's specification axioms *)

(** [x < 0.0] is false exactly for the non-negative classes. *)
Lemma ltb_zero_false_iff x :
  (x <? 0)%float = false <-> sf_not_neg (Prim2SF x) = true.
Proof.
  rewrite FloatAxioms.ltb_spec. change (Prim2SF 0%float) with (S754_zero false).
  unfold SFltb. destruct (Prim2SF x) as [[]|[]| |[]]; simpl; split; congruence.
Qed.

Definition sign_clear (x : float) : Prop := sf_sign_clear (Prim2SF x) = true.

Lemma mul_not_neg x y :
  (x <? 0)%float = false -> (y <? 0)%float = false -> (x * y <? 0)%float = false.
Proof. rewrite !ltb_zero_false_iff, FloatAxioms.mul_spec. apply SFmul_not_neg. Qed.

Lemma square_not_neg x : (x * x <? 0)%float = false.
Proof. rewrite ltb_zero_false_iff, FloatAxioms.mul_spec. apply SFmul_square_not_neg. Qed.

Lemma add_not_neg x y :
  (x <? 0)%float = false -> (y <? 0)%float = false -> (x + y <? 0)%float = false.
Proof. rewrite !ltb_zero_false_iff, FloatAxioms.add_spec. apply SFadd_not_neg. Qed.

Lemma div_not_neg x y :
  (x <? 0)%float = false -> sign_clear y -> (x / y <? 0)%float = false.
Proof. unfold sign_clear. rewrite !ltb_zero_false_iff, FloatAxioms.div_spec. apply SFdiv_not_neg. Qed.

Lemma sqrt_not_neg x : (PrimFloat.sqrt x <? 0)%float = false.
Proof. rewrite ltb_zero_false_iff, FloatAxioms.sqrt_spec. apply SFsqrt_not_neg. Qed.

Lemma sqrt_sign_clear x : sign_clear x -> sign_clear (PrimFloat.sqrt x).
Proof. unfold sign_clear. rewrite FloatAxioms.sqrt_spec. apply SFsqrt_sign_clear. Qed.

(** A divisor compared above [0.0] has its sign clear. *)
Lemma pos_sign_clear x : (0 <? x)%float = true -> sign_clear x.
Proof.
  unfold sign_clear. rewrite FloatAxioms.ltb_spec. change (Prim2SF 0%float) with (S754_zero false).
  unfold SFltb. destruct (Prim2SF x) as [[]|[]| |[]]; simpl; congruence.
Qed.

Lemma zero_not_neg : (0 <? 0)%float = false.
Proof. reflexivity. Qed.

Lemma of_uint63_sign_clear n : sign_clear (PrimFloat.of_uint63 n).
Proof.
  unfold sign_clear. rewrite FloatAxioms.of_uint63_spec.
  pose proof (to_Z_bounded n) as Hb.
  destruct (to_Z n) as [|p|p] eqn:E; simpl; auto with streamnow. lia.
Qed.

Lemma double_of_size_sign_clear n : sign_clear (double_of_size n).
Proof. apply of_uint63_sign_clear. Qed.

Lemma double_of_int_sign_clear z : 0 <= z -> sign_clear (double_of_int z).
Proof.
  intros Hz. unfold double_of_int.
  destruct (Z.ltb_spec z 0); [lia|]. apply of_uint63_sign_clear.
Qed.

#[export] Hint Resolve mul_not_neg square_not_neg add_not_neg div_not_neg sqrt_not_neg
  sqrt_sign_clear zero_not_neg double_of_size_sign_clear double_of_int_sign_clear : streamnow.

(** ** Wrap-around of [size_t] to [int] *)

Lemma int32_wrap_small z : 0 <= z < 2 ^ 31 -> int32_wrap z = z.
Proof.
  intros Hz. unfold int32_wrap. rewrite Z.mod_small by lia.
  destruct (Z.ltb_spec z (2 ^ 31)); lia.
Qed.

Lemma int32_wrap_range z : - 2 ^ 31 <= int32_wrap z < 2 ^ 31.
Proof.
  unfold int32_wrap. pose proof (Z.mod_pos_bound z (2 ^ 32)) as H.
  destruct (Z.ltb_spec (z mod 2 ^ 32) (2 ^ 31)); lia.
Qed.

Lemma int32_wrap_high z : 2 ^ 31 <= z < 2 ^ 32 -> int32_wrap z = z - 2 ^ 32.
Proof.
  intros Hz. unfold int32_wrap. rewrite Z.mod_small by lia.
  destruct (Z.ltb_spec z (2 ^ 31)); lia.
Qed.

(** ** Order of non-NaN doubles *)

(** A rank into [Z * Z * Z], ordered lexicographically, that the comparison
    of non-NaN specification floats follows: negative infinity, negative
    numbers (larger exponent, then larger mantissa, first), both zeros,
    positive numbers, positive infinity. *)
Definition sf_rank (f : spec_float) : Z * Z * Z :=
  match f with
  | S754_infinity true => (0, 0, 0)
  | S754_finite true m e => (1, - e, Zneg m)
  | S754_zero _ | S754_nan => (2, 0, 0)
  | S754_finite false m e => (3, e, Zpos m)
  | S754_infinity false => (4, 0, 0)
  end.

Definition lex_lt (a b : Z * Z * Z) : Prop :=
  let '(a1, a2, a3) := a in
  let '(b1, b2, b3) := b in
  a1 < b1 \/ a1 = b1 /\ (a2 < b2 \/ a2 = b2 /\ a3 < b3).

Ltac cmp_cases :=
  repeat match goal with
  | |- context [Pos.compare_cont Eq ?a ?b] =>
      change (Pos.compare_cont Eq a b) with (Pos.compare a b)
  end;
  repeat match goal with
  | |- context [Z.compare ?a ?b] => destruct (Z.compare_spec a b)
  | |- context [Pos.compare ?a ?b] => destruct (Pos.compare_spec a b)
  end; simpl.

Lemma SFltb_rank x y :
  x <> S754_nan -> y <> S754_nan ->
  SFltb x y = true <-> lex_lt (sf_rank x) (sf_rank y).
Proof.
  intros Hx Hy. unfold SFltb, SFcompare.
  destruct x as [[]|[]| |[] mx ex], y as [[]|[]| |[] my ey];
    try congruence; simpl; cmp_cases; split; intros; try lia; try discriminate; auto.
Qed.

Lemma SFcompare_refl x : x <> S754_nan -> SFcompare x x = Some Eq.
Proof.
  intros Hx. destruct x as [[]|[]| |[] mx ex]; try congruence; simpl; auto;
    rewrite Z.compare_refl, Pos.compare_cont_refl; reflexivity.
Qed.

(** A double is a NaN exactly when its specification is. *)
Lemma is_nan_false_iff x : PrimFloat.is_nan x = false <-> Prim2SF x <> S754_nan.
Proof.
  unfold PrimFloat.is_nan. rewrite FloatAxioms.eqb_spec. unfold SFeqb.
  split.
  - intros H E. rewrite E in H. discriminate.
  - intros H. now rewrite SFcompare_refl.
Qed.

Definition frank (x : float) : Z * Z * Z := sf_rank (Prim2SF x).

Lemma ltb_rank x y :
  PrimFloat.is_nan x = false -> PrimFloat.is_nan y = false ->
  (x <? y)%float = true <-> lex_lt (frank x) (frank y).
Proof.
  rewrite !is_nan_false_iff. intros. rewrite FloatAxioms.ltb_spec. now apply SFltb_rank.
Qed.

Lemma leb_ltb x y :
  PrimFloat.is_nan x = false -> PrimFloat.is_nan y = false ->
  (x <=? y)%float = negb (y <? x)%float.
Proof.
  rewrite !is_nan_false_iff. intros Hx Hy.
  rewrite FloatAxioms.leb_spec, FloatAxioms.ltb_spec. unfold SFleb, SFltb, SFcompare.
  destruct (Prim2SF x) as [[]|[]| |[] mx ex], (Prim2SF y) as [[]|[]| |[] my ey];
    try congruence; simpl; cmp_cases; reflexivity || lia.
Qed.

(** [<] on doubles is irreflexive, also on NaN. *)
Lemma ltb_irrefl x : (x <? x)%float = false.
Proof.
  rewrite FloatAxioms.ltb_spec. unfold SFltb.
  destruct (Prim2SF x) eqn:E; try reflexivity;
    rewrite SFcompare_refl; congruence.
Qed.

Lemma lex_lt_trans a b c : lex_lt a b -> lex_lt b c -> lex_lt a c.
Proof. destruct a as [[a1 a2] a3], b as [[b1 b2] b3], c as [[c1 c2] c3]; simpl; lia. Qed.

Lemma lex_trichotomy a b : lex_lt a b \/ a = b \/ lex_lt b a.
Proof.
  destruct a as [[a1 a2] a3], b as [[b1 b2] b3]; simpl.
  destruct (Z.lt_trichotomy a1 b1) as [|[<-|]]; [left; lia| |right; right; lia].
  destruct (Z.lt_trichotomy a2 b2) as [|[<-|]]; [left; lia| |right; right; lia].
  destruct (Z.lt_trichotomy a3 b3) as [|[<-|]]; [left; lia|now right; left|right; right; lia].
Qed.

Lemma lex_lt_irrefl a : ~ lex_lt a a.
Proof. destruct a as [[a1 a2] a3]; simpl; lia. Qed.

Lemma lex_not_lt_trans a b c : ~ lex_lt b a -> ~ lex_lt c b -> ~ lex_lt c a.
Proof. destruct a as [[a1 a2] a3], b as [[b1 b2] b3], c as [[c1 c2] c3]; simpl; lia. Qed.

(** The non-NaN hypotheses of the order lemmas. *)
Abbreviation nn x := (PrimFloat.is_nan x = false).

Lemma ltb_trans x y z : nn x -> nn y -> nn z ->
  (x <? y)%float = true -> (y <? z)%float = true -> (x <? z)%float = true.
Proof. intros. rewrite ltb_rank in * by assumption. eapply lex_lt_trans; eauto. Qed.

(** Neither [x < y] nor [y < x]: the two have the same rank, i.e. they are
    equal or both zeros. *)
Lemma ltb_incomparable x y : nn x -> nn y ->
  (x <? y)%float = false -> (y <? x)%float = false -> frank x = frank y.
Proof.
  intros Hx Hy H1 H2. destruct (lex_trichotomy (frank x) (frank y)) as [H|[H|H]]; auto.
  - apply ltb_rank in H; congruence.
  - apply ltb_rank in H; congruence.
Qed.

Lemma ltb_rank_eq x y z : nn x -> nn y -> nn z -> frank x = frank y ->
  (x <? z)%float = (y <? z)%float /\ (z <? x)%float = (z <? y)%float.
Proof.
  intros Hx Hy Hz E.
  split; apply Bool.eq_true_iff_eq; rewrite !ltb_rank by assumption; now rewrite E.
Qed.

Lemma leb_rank x y : nn x -> nn y ->
  (x <=? y)%float = true <-> ~ lex_lt (frank y) (frank x).
Proof.
  intros Hx Hy. rewrite leb_ltb by assumption. rewrite <- ltb_rank by assumption.
  destruct (y <? x)%float; simpl; split; congruence.
Qed.

Lemma leb_trans x y z : nn x -> nn y -> nn z ->
  (x <=? y)%float = true -> (y <=? z)%float = true -> (x <=? z)%float = true.
Proof. intros. rewrite leb_rank in * by assumption. eapply lex_not_lt_trans; eauto. Qed.
