(* ===== verification/StdMap.v ===== *)
(** * [std::map<K, V>] as a sorted association list

    The source keeps its samples in [std::map<int, std::map<double,
    MetricSamples>>] and its processed points in [std::map<int,
    std::vector<ProcessedPoint>>].  A [std::map] orders its keys with [<]
    and identifies two keys when neither is below the other; iteration
    visits the keys in ascending order.  It is modelled here as the list of
    its entries in iteration order, and [m[k]] followed by a change of the
    mapped value as [update]: the walk finds the entry whose key is
    equivalent to [k] (keeping the key already stored), or inserts
    [(k, V())] at its sorted position.

    The key order is an interface, [KeyOrder] with its laws
    [KeyOrderLaws]: a boolean [<] and the domain [key_ok] on which it is a
    strict weak order, as the C++ standard requires of a map's comparator.
    [int] ([Z], every value) and [double] (every non-NaN value) implement
    it. *)

From Stdlib Require Import List ZArith Lia Bool Sorted Floats.
From S2P Require Import Prelude Double.
Import ListNotations.

Class KeyOrder (K : Type) := {
  key_lt : K -> K -> bool;
  key_ok : K -> bool
}.

Class KeyOrderLaws (K : Type) `{KeyOrder K} := {
  key_lt_irrefl : forall x, key_lt x x = false;
  key_lt_trans : forall x y z, key_ok x = true -> key_ok y = true -> key_ok z = true ->
    key_lt x y = true -> key_lt y z = true -> key_lt x z = true;
  (** incomparable keys are interchangeable *)
  key_incomparable : forall x y z, key_ok x = true -> key_ok y = true -> key_ok z = true ->
    key_lt x y = false -> key_lt y x = false ->
    key_lt x z = key_lt y z /\ key_lt z x = key_lt z y
}.

(** ** Instances: [int] and [double] keys *)

#[export] Instance int_key_order : KeyOrder Z := {| key_lt := Z.ltb; key_ok := fun _ => true |}.

#[export] Instance int_key_laws : KeyOrderLaws Z.
Proof.
  split; simpl; intros.
  - apply Z.ltb_irrefl.
  - rewrite Z.ltb_lt in *. lia.
  - rewrite Z.ltb_ge in *. assert (x = y) by lia. subst. auto.
Qed.

#[export] Instance double_key_order : KeyOrder float :=
  {| key_lt := PrimFloat.ltb; key_ok := fun x => negb (PrimFloat.is_nan x) |}.

#[export] Instance double_key_laws : KeyOrderLaws float.
Proof.
  split; simpl; intros; rewrite ?negb_true_iff in *.
  - apply ltb_irrefl.
  - now apply (ltb_trans x y z).
  - apply ltb_rank_eq; auto. apply ltb_incomparable; auto.
Qed.

(** On [int] keys, equivalence is equality. *)
Lemma int_lt_eqb (u u' : Z) : (negb (u <? u') && negb (u' <? u))%Z%bool = (u =? u')%Z.
Proof.
  destruct (Z.ltb_spec u u'), (Z.ltb_spec u' u), (Z.eqb_spec u u'); simpl; auto; lia.
Qed.

Module StdMap.
Section StdMap.
Context {K V : Type} `{KeyOrderLaws K}.

Definition equiv (k k' : K) : bool := negb (key_lt k k') && negb (key_lt k' k).

(** [m[k]] then [f] applied to the mapped value. *)
Fixpoint update (k : K) (dflt : V) (f : V -> V) (m : list (K * V)) : list (K * V) :=
match m with
| [] => [(k, f dflt)]
| (k', v) :: m' =>
    if key_lt k k' then (k, f dflt) :: m
    else if key_lt k' k then (k', v) :: update k dflt f m'
    else (k', f v) :: m'
end.

(** [m.find(k)]: the value of the entry equivalent to [k]. *)
Fixpoint find (k : K) (m : list (K * V)) : option V :=
match m with
| [] => None
| (k', v) :: m' =>
    if key_lt k k' then None
    else if key_lt k' k then find k m'
    else Some v
end.

Definition keys (m : list (K * V)) : list K := map fst m.

Definition key_before (a b : K * V) : Prop := key_lt (fst a) (fst b) = true.

(** The map's invariant: keys in the comparator's domain, strictly
  ascending. *)
Definition wf (m : list (K * V)) : Prop :=
Forall (fun e => key_ok (fst e) = true) m /\ StronglySorted key_before m.

(** *** The comparator's laws, as used on map keys *)

Lemma equiv_refl k : equiv k k = true.
Proof. unfold equiv. now rewrite key_lt_irrefl. Qed.

Lemma equiv_sym k j : equiv k j = equiv j k.
Proof. unfold equiv. apply andb_comm. Qed.

Lemma equiv_lt k j x : key_ok k = true -> key_ok j = true -> key_ok x = true ->
equiv k j = true -> key_lt k x = key_lt j x /\ key_lt x k = key_lt x j.
Proof.
unfold equiv. intros ? ? ? E. bool_simpl. now apply key_incomparable.
Qed.

Lemma equiv_trans k j x : key_ok k = true -> key_ok j = true -> key_ok x = true ->
equiv k j = true -> equiv j x = true -> equiv k x = true.
Proof.
intros Hk Hj Hx E1 E2. destruct (equiv_lt k j x Hk Hj Hx E1) as [A B].
unfold equiv in *. now rewrite A, B.
Qed.

Lemma lt_not_equiv k j : key_lt k j = true -> equiv k j = false.
Proof. unfold equiv. intros ->. reflexivity. Qed.

(** *** The invariant *)

Lemma wf_nil : wf (@nil (K * V)).
Proof. split; constructor. Qed.

Lemma wf_cons_inv k v m :
wf ((k, v) :: m) ->
key_ok k = true /\ wf m /\ Forall (fun e => key_lt k (fst e) = true) m.
Proof.
intros [Hok Hs]. inv Hok. apply StronglySorted_inv in Hs as [Hs Hf]. repeat split; auto.
Qed.

Lemma wf_cons k v m :
key_ok k = true -> wf m -> Forall (fun e => key_lt k (fst e) = true) m -> wf ((k, v) :: m).
Proof. intros Hk [Hok Hs] Hf. split; constructor; auto. Qed.

Lemma update_keys k d f m x :
In x (keys (update k d f m)) -> x = k \/ In x (keys m).
Proof.
induction m as [|[k' v] m IH]; simpl.
- intuition.
- destruct (key_lt k k'), (key_lt k' k); simpl; intuition.
Qed.

Lemma Forall_keys (P : K -> Prop) (m : list (K * V)) :
Forall (fun e => P (fst e)) m <-> (forall x, In x (keys m) -> P x).
Proof.
unfold keys. rewrite Forall_forall. split.
- intros Hf x Hx. apply in_map_iff in Hx as (e & <- & He). auto.
- intros Hf e He. apply Hf, in_map; auto.
Qed.

Lemma update_Forall_keys (P : K -> Prop) k d f m :
P k -> Forall (fun e => P (fst e)) m -> Forall (fun e => P (fst e)) (update k d f m).
Proof.
rewrite !Forall_keys. intros Hk Hm x Hx. destruct (update_keys _ _ _ _ _ Hx) as [->|]; auto.
Qed.

Lemma wf_key_ok m e : wf m -> In e m -> key_ok (fst e) = true.
Proof. intros [Hok _] He. rewrite Forall_forall in Hok. auto. Qed.

(** [m[k]] keeps the map sorted. *)
Lemma wf_update k d f m : key_ok k = true -> wf m -> wf (update k d f m).
Proof.
intros Hk. induction m as [|[k' v] m IH]; simpl; intros Hm.
- apply wf_cons; auto using wf_nil.
- destruct (wf_cons_inv _ _ _ Hm) as (Hk' & Hm' & Hf).
  destruct (key_lt k k') eqn:E1; [|destruct (key_lt k' k) eqn:E2].
  + apply wf_cons; auto. constructor; auto.
    rewrite Forall_forall in *. intros e He.
    apply (key_lt_trans k k' (fst e)); eauto using wf_key_ok.
  + apply wf_cons; auto. apply (update_Forall_keys (fun x => key_lt k' x = true)); auto.
  + apply wf_cons; auto.
Qed.

(** *** Lookups after [m[k]] *)

Definition value_or (d : V) (o : option V) : V := match o with Some v => v | None => d end.

(** [m[k]] then [f]: the entry of [k] now holds [f] of its old value, or of
  [V()] when it was absent. *)
Lemma find_update_eq k d f m : find k (update k d f m) = Some (f (value_or d (find k m))).
Proof.
induction m as [|[k' v] m IH]; simpl; rewrite ?key_lt_irrefl; auto.
destruct (key_lt k k') eqn:E1; [|destruct (key_lt k' k) eqn:E2];
  simpl; rewrite ?key_lt_irrefl, ?E1, ?E2; auto.
Qed.

Lemma not_equiv_cases k j : equiv k j = false -> key_lt k j = true \/ key_lt j k = true.
Proof. unfold equiv. destruct (key_lt k j), (key_lt j k); simpl; auto. Qed.

(** The other entries are untouched. *)
Lemma find_update_neq k j d f m :
wf m -> key_ok k = true -> key_ok j = true -> equiv k j = false ->
find j (update k d f m) = find j m.
Proof.
intros Hm Hk Hj Hkj. induction m as [|[k' v] m IH]; simpl.
- destruct (not_equiv_cases _ _ Hkj) as [E|E]; rewrite E; auto.
  now destruct (key_lt j k).
- destruct (wf_cons_inv _ _ _ Hm) as (Hk' & Hm' & Hf).
  destruct (key_lt k k') eqn:E1; [|destruct (key_lt k' k) eqn:E2]; simpl.
  + destruct (key_lt j k) eqn:F1.
    * now rewrite (key_lt_trans j k k').
    * destruct (not_equiv_cases _ _ Hkj) as [E|E]; [now rewrite E|congruence].
  + destruct (key_lt j k'), (key_lt k' j); auto.
  + assert (Hkk' : equiv k k' = true) by (unfold equiv; now rewrite E1, E2).
    destruct (key_lt j k') eqn:F1, (key_lt k' j) eqn:F2; auto.
    assert (equiv k j = true); [|congruence].
    apply (equiv_trans k k' j); auto. unfold equiv. now rewrite F1, F2.
Qed.

Lemma find_In k m v : find k m = Some v -> exists k', In (k', v) m /\ equiv k k' = true.
Proof.
induction m as [|[k' w] m IH]; simpl; [discriminate|].
destruct (key_lt k k') eqn:E1; [discriminate|]. destruct (key_lt k' k) eqn:E2.
- intros Hf. destruct (IH Hf) as (x & Hx & Ex). eauto.
- intros [= <-]. exists k'. split; auto. unfold equiv. now rewrite E1, E2.
Qed.

Lemma In_find k v m : wf m -> In (k, v) m -> find k m = Some v.
Proof.
induction m as [|[k' w] m IH]; simpl; [contradiction|]. intros Hm Hin.
destruct (wf_cons_inv _ _ _ Hm) as (Hk' & Hm' & Hf).
destruct Hin as [[= <- <-]|Hin].
- now rewrite key_lt_irrefl.
- rewrite Forall_forall in Hf. specialize (Hf _ Hin). simpl in Hf.
  rewrite Hf. destruct (key_lt k k') eqn:E.
  + exfalso. assert (Hok : key_ok k = true) by apply (wf_key_ok _ _ Hm' Hin).
    pose proof (key_lt_trans k k' k Hok Hk' Hok E Hf) as T.
    now rewrite key_lt_irrefl in T.
  + auto.
Qed.

(** The number of entries grows by one exactly when the key was absent. *)
Lemma length_update k d f m :
length (update k d f m) = match find k m with Some _ => length m | None => S (length m) end.
Proof.
induction m as [|[k' v] m IH]; simpl; auto.
destruct (key_lt k k'); [reflexivity|]. destruct (key_lt k' k); simpl; auto.
rewrite IH. now destruct (find k m).
Qed.

(** *** Composition of updates *)

(** Two [m[k]] changes in a row are one change by their composition. *)
Lemma update_update k d f g m :
update k d f (update k d g m) = update k d (fun v => f (g v)) m.
Proof.
induction m as [|[k' v] m IH]; simpl; rewrite ?key_lt_irrefl; auto.
destruct (key_lt k k') eqn:E1; [|destruct (key_lt k' k) eqn:E2];
  simpl; rewrite ?key_lt_irrefl, ?E1, ?E2, ?IH; auto.
Qed.

Lemma update_ext k d f g m : (forall v, f v = g v) -> update k d f m = update k d g m.
Proof.
intros Hfg. induction m as [|[k' v] m IH]; simpl; rewrite ?Hfg; auto.
destruct (key_lt k k'); [|destruct (key_lt k' k)]; rewrite ?Hfg, ?IH; auto.
Qed.

(** A property of the mapped values that [f] preserves, and that [f] of
  the default has, holds of every value after [m[k]]. *)
Lemma update_Forall_values (P : V -> Prop) k d f m :
P (f d) -> (forall v, P v -> P (f v)) ->
Forall (fun e => P (snd e)) m -> Forall (fun e => P (snd e)) (update k d f m).
Proof.
intros Hd Hf. induction m as [|[k' v] m IH]; simpl; intros Hm; [constructor; auto|].
pose proof Hm as Hm0. inv Hm.
destruct (key_lt k k'); [|destruct (key_lt k' k)]; constructor; simpl; auto.
Qed.

(** Equivalent keys find the same entry. *)
Lemma find_equiv k k' m :
wf m -> key_ok k = true -> key_ok k' = true -> equiv k k' = true -> find k m = find k' m.
Proof.
intros Hm Hk Hk' E. induction m as [|[j v] m IH]; simpl; auto.
destruct (wf_cons_inv _ _ _ Hm) as (Hj & Hm' & _).
destruct (equiv_lt k k' j Hk Hk' Hj E) as [-> ->]. now rewrite IH.
Qed.

(** A key above every key of the map goes at the end. *)
Lemma update_above k d f m :
  key_ok k = true -> Forall (fun e => key_ok (fst e) = true /\ key_lt (fst e) k = true) m ->
  update k d f m = m ++ [(k, f d)].
Proof.
  intros Hk. induction m as [|[k' v] m IH]; simpl; auto. intros Hf.
  inversion Hf as [|? ? [Hk' Hlt] Hf']; subst; simpl in Hlt, Hk'.
  destruct (key_lt k k') eqn:E.
  - pose proof (key_lt_trans k k' k Hk Hk' Hk E Hlt) as T. now rewrite key_lt_irrefl in T.
  - rewrite Hlt, IH; auto.
Qed.

End StdMap.

(** Lookup in a map whose values are all transformed by [g]. *)
Lemma find_map_values {K V W : Type} `{KeyOrder K} (g : V -> W) (k : K) (m : list (K * V)) :
  find k (map (fun e => (fst e, g (snd e))) m) = option_map g (find k m).
Proof.
  induction m as [|[k' v] m IH]; simpl; auto.
  destruct (key_lt k k'); [|destruct (key_lt k' k)]; auto.
Qed.

Lemma int_equiv (u u' : Z) : equiv u u' = (u =? u')%Z.
Proof. apply int_lt_eqb. Qed.
End StdMap.
