(* ===== verification/Statistics.v ===== *)
(** * StatisticsEngine: [CalculateMean], [CalculateStdDev], [CalculateMarginOfError]

    The three pure functions of [src/src/plot-results.cc] (lines 45-80),
    on IEEE doubles.  [std::accumulate(b, e, 0.0)] is a left fold of [+]
    from [0.0]; [std::pow(s - mean, 2)] is [(s - mean) * (s - mean)], which
    is what GCC and Clang compile it to (both are the correctly rounded
    square); the [size_t] and [int] conversions are those of [Double]. *)

From Stdlib Require Import List ZArith Lia Bool Floats.
From S2P Require Import Prelude Double.
Import ListNotations.

Module StatisticsEngine.

(** [const double T_VALUE_95_10_SAMPLES = 2.262;] (the nearest double). *)
Definition T_VALUE_95_10_SAMPLES : float := 2.262%float.

(** [std::accumulate(samples.begin(), samples.end(), 0.0)] *)
Definition accumulate (samples : list float) (init : float) : float :=
  fold_left (fun acc s => (acc + s)%float) samples init.

Definition CalculateMean (samples : list float) : float :=
  match samples with
  | [] => 0%float
  | _ :: _ =>
      let sum := accumulate samples 0%float in
      (sum / double_of_size (size samples))%float
  end.

Definition CalculateStdDev (samples : list float) (mean : float) : float :=
  if (size samples <? 2)%N then 0%float
  else
    let sq_sum := fold_left (fun acc s => (acc + (s - mean) * (s - mean))%float) samples 0%float in
    PrimFloat.sqrt (sq_sum / double_of_size (size samples - 1))%float.

Definition CalculateMarginOfError (stdDev : float) (sampleSize : Z) : float :=
  if (sampleSize <? 2)%Z then 0%float
  else (T_VALUE_95_10_SAMPLES * stdDev / PrimFloat.sqrt (double_of_int sampleSize))%float.


(** ** Signs *)

Lemma accumulate_not_neg samples acc :
  (acc <? 0)%float = false -> Forall (fun x => (x <? 0)%float = false) samples ->
  (accumulate samples acc <? 0)%float = false.
Proof.
  unfold accumulate. revert acc.
  induction samples as [|x l IH]; simpl; intros acc Ha Hl; auto.
  inv Hl. auto with streamnow.
Qed.

Lemma sq_sum_not_neg samples mean acc :
  (acc <? 0)%float = false ->
  (fold_left (fun acc s => (acc + (s - mean) * (s - mean))%float) samples acc <? 0)%float = false.
Proof.
  revert acc. induction samples as [|x l IH]; simpl; intros acc Ha; auto with streamnow.
Qed.

Lemma std_dev_not_neg samples mean :
  (CalculateStdDev samples mean <? 0)%float = false.
Proof.
  unfold CalculateStdDev. destruct (size samples <? 2)%N; auto with streamnow.
Qed.

(** The standard deviation never compares below [0.0]. *)
Theorem CalculateStdDev_not_neg samples mean :
  (CalculateStdDev samples mean <? 0)%float = false.
Proof. exact (std_dev_not_neg samples mean). Qed.

Lemma margin_of_error_not_neg stdDev sampleSize :
  (stdDev <? 0)%float = false -> (CalculateMarginOfError stdDev sampleSize <? 0)%float = false.
Proof.
  intros Hsd. unfold CalculateMarginOfError.
  destruct (Z.ltb_spec sampleSize 2); [reflexivity|].
  apply div_not_neg; [apply mul_not_neg; [reflexivity|exact Hsd]|].
  apply sqrt_sign_clear, double_of_int_sign_clear. lia.
Qed.

(** The margin of error of a standard deviation that is not negative
    is not negative, whatever the sample size passed to it. *)
Theorem CalculateMarginOfError_not_neg stdDev sampleSize :
  (stdDev <? 0)%float = false -> (CalculateMarginOfError stdDev sampleSize <? 0)%float = false.
Proof. exact (margin_of_error_not_neg stdDev sampleSize). Qed.

(** The mean of samples none of which is negative is not negative. *)
Theorem CalculateMean_not_neg samples :
  Forall (fun x => (x <? 0)%float = false) samples -> (CalculateMean samples <? 0)%float = false.
Proof.
  intros Hs. destruct samples as [|x l]; [reflexivity|].
  apply div_not_neg; auto using accumulate_not_neg, double_of_size_sign_clear.
Qed.


(** ** Bounds of the sample count *)

(** Below [2^31] samples the [int] argument is the true count. *)
Lemma int_of_size_small (n : N) : (n < 2 ^ 31)%N -> int_of_size n = Z.of_N n.
Proof. intros Hn. apply int32_wrap_small. lia. Qed.

(** C26: the [size_t] to [int] narrowing of the call sites: a bucket of
    [2^31] up to [2^32 + 1] samples reaches [CalculateMarginOfError] as a
    count below 2 (negative, then 0 and 1), and its margin of error is
    [0.0], as if it had fewer than two samples. *)
Theorem margin_of_error_narrowing stdDev (n : N) :
  (2 ^ 31 <= n < 2 ^ 32 + 2)%N -> CalculateMarginOfError stdDev (int_of_size n) = 0%float.
Proof.
  intros Hn. unfold CalculateMarginOfError, int_of_size.
  destruct (N.ltb_spec n (2 ^ 32)) as [Hlt|Hge].
  - rewrite int32_wrap_high by lia. destruct (Z.ltb_spec (Z.of_N n - 2 ^ 32) 2); [reflexivity|lia].
  - unfold int32_wrap. rewrite <- (Z.mod_unique (Z.of_N n) (2 ^ 32) 1 (Z.of_N n - 2 ^ 32)) by lia.
    destruct (Z.ltb_spec (Z.of_N n - 2 ^ 32) (2 ^ 31)); [|lia].
    destruct (Z.ltb_spec (Z.of_N n - 2 ^ 32) 2); [reflexivity|lia].
Qed.

(** ** Witnesses *)

Lemma CalculateMarginOfError_not_neg_witness :
  (1.5 <? 0)%float = false /\ (CalculateMarginOfError 1.5 10 <? 0)%float = false.
Proof. split; [reflexivity|apply CalculateMarginOfError_not_neg; reflexivity]. Defined.

Lemma CalculateMean_not_neg_witness :
  Forall (fun x => (x <? 0)%float = false) [2.0; 0.5]%float /\
  (CalculateMean [2.0; 0.5]%float <? 0)%float = false.
Proof.
  split; [repeat constructor|apply CalculateMean_not_neg; repeat constructor].
Defined.

Lemma margin_of_error_narrowing_witness :
  (2 ^ 31 <= 2 ^ 31 < 2 ^ 32 + 2)%N /\ CalculateMarginOfError 1.5 (int_of_size (2 ^ 31)) = 0%float.
Proof. split; [lia|apply margin_of_error_narrowing; lia]. Defined.

End StatisticsEngine.
