(* ===== verification/SampleStore.v ===== *)
(** * SampleStore: the read loop of [main] filling [dataByUsersAndBitrate]

    [src/src/plot-results.cc] lines 15-21 ([struct MetricSamples]) and
    97-112: [std::map<int, std::map<double, MetricSamples>>
    dataByUsersAndBitrate], filled by
    [while (inFile >> numUsers >> tempBitrate >> tempLoss >> tempDelay >> tempJitter)]
    with three statements, each of which looks the bucket up again with
    [operator[]] and appends one metric.

    The input stream is modelled as the sequence of its records as the
    extraction chain sees them: [Some r] when the five extractions succeed,
    [None] at the first one that fails (a malformed or short record, or
    end of file), after which the loop stops.  The character-level parsing
    of [operator>>] is libstdc++'s and not modelled; it never yields a NaN,
    which is why the record's bitrate is assumed non-NaN where the
    [std::map<double, _>] invariant needs it. *)

From Stdlib Require Import List ZArith Lia Bool Floats Sorted.
From S2P Require Import Prelude Double StdMap.
Import ListNotations.

Module SampleStore.

(** One extracted record: the five variables of the loop. *)
Record RawSample := {
  numUsers : Z;
  tempBitrate : float;
  tempLoss : float;
  tempDelay : float;
  tempJitter : float
}.

Record MetricSamples := {
  lossSamples : list float;
  delaySamples : list float;
  jitterSamples : list float
}.

(** [MetricSamples()]: three empty vectors. *)
Definition empty_samples : MetricSamples := {| lossSamples := []; delaySamples := []; jitterSamples := [] |}.

Definition push_loss (x : float) (ms : MetricSamples) : MetricSamples :=
  {| lossSamples := lossSamples ms <+ x; delaySamples := delaySamples ms; jitterSamples := jitterSamples ms |}.
Definition push_delay (x : float) (ms : MetricSamples) : MetricSamples :=
  {| lossSamples := lossSamples ms; delaySamples := delaySamples ms <+ x; jitterSamples := jitterSamples ms |}.
Definition push_jitter (x : float) (ms : MetricSamples) : MetricSamples :=
  {| lossSamples := lossSamples ms; delaySamples := delaySamples ms; jitterSamples := jitterSamples ms <+ x |}.

Abbreviation BitrateMap := (list (float * MetricSamples)).
Abbreviation DataMap := (list (Z * list (float * MetricSamples))).

(** [dataByUsersAndBitrate[u][b]] followed by a change [f] of the bucket. *)
Definition at_bucket (u : Z) (b : float) (f : MetricSamples -> MetricSamples) (d : DataMap) : DataMap :=
  StdMap.update u [] (StdMap.update b empty_samples f) d.

(** The loop body, its three statements in order. *)
Definition record_sample (r : RawSample) (d : DataMap) : DataMap :=
  let d := at_bucket (numUsers r) (tempBitrate r) (push_loss (tempLoss r)) d in
  let d := at_bucket (numUsers r) (tempBitrate r) (push_delay (tempDelay r)) d in
  at_bucket (numUsers r) (tempBitrate r) (push_jitter (tempJitter r)) d.

(** [while (inFile >> ...) { body }]: stops at the first failed extraction. *)
Fixpoint read_loop (input : list (option RawSample)) (d : DataMap) : DataMap :=
  match input with
  | [] => d
  | None :: _ => d
  | Some r :: rest => read_loop rest (record_sample r d)
  end.

(** The bucket of [(u, b)], if the maps have one. *)
Definition bucket (d : DataMap) (u : Z) (b : float) : option MetricSamples :=
  match StdMap.find u d with
  | Some bm => StdMap.find b bm
  | None => None
  end.

(** The store's invariant: both levels are well-formed [std::map]s. *)
Definition store_wf (d : DataMap) : Prop :=
  StdMap.wf d /\ Forall (fun e => StdMap.wf (snd e)) d.

(** Every bucket holds as many loss as delay and jitter samples. *)
Definition balanced (ms : MetricSamples) : Prop :=
  length (lossSamples ms) = length (delaySamples ms) /\
  length (delaySamples ms) = length (jitterSamples ms).

Definition all_balanced (d : DataMap) : Prop :=
  Forall (fun e => Forall (fun b => balanced (snd b)) (snd e)) d.


(** The whole record appended to its bucket. *)
Definition push_sample (r : RawSample) (ms : MetricSamples) : MetricSamples :=
  push_jitter (tempJitter r) (push_delay (tempDelay r) (push_loss (tempLoss r) ms)).

(** The extraction never yields a NaN bitrate. *)
Definition bitrate_ok (r : RawSample) : bool := negb (PrimFloat.is_nan (tempBitrate r)).

Definition input_ok (input : list (option RawSample)) : Prop :=
  Forall (fun o => match o with Some r => bitrate_ok r = true | None => True end) input.

(** Does record [r] belong to the bucket [(u, b)]: same user count, and a
    bitrate neither below nor above [b]. *)
Definition matches (u : Z) (b : float) (r : RawSample) : bool :=
  (numUsers r =? u)%Z && StdMap.equiv (tempBitrate r) b.

(** The bucket built from records, in order. *)
Definition samples_of (rs : list RawSample) : MetricSamples :=
  {| lossSamples := map tempLoss rs; delaySamples := map tempDelay rs;
     jitterSamples := map tempJitter rs |}.

Definition append_samples (ms : MetricSamples) (rs : list RawSample) : MetricSamples :=
  fold_left (fun acc r => push_sample r acc) rs ms.

(** ** Lemmas *)

(** The inner maps are never empty: each was created with a bucket. *)
Definition inner_nonempty (d : DataMap) : Prop := Forall (fun e => snd e <> []) d.

(** Two trial batches of 100 users at 8 Mbps and one at 10 Mbps: the two
    at 8 Mbps share one bucket. *)
Definition trials : list RawSample :=
  [ {| numUsers := 100; tempBitrate := 8; tempLoss := 1.0; tempDelay := 25; tempJitter := 9 |};
    {| numUsers := 100; tempBitrate := 10; tempLoss := 0.2; tempDelay := 15; tempJitter := 4 |};
    {| numUsers := 100; tempBitrate := 8; tempLoss := 3.0; tempDelay := 27; tempJitter := 7 |} ]%float.

Lemma at_bucket_twice u b f g d :
  at_bucket u b f (at_bucket u b g d) = at_bucket u b (fun v => f (g v)) d.
Proof.
  unfold at_bucket. rewrite StdMap.update_update.
  apply StdMap.update_ext. intros. apply StdMap.update_update.
Qed.

Lemma at_bucket_wf u b f d : key_ok b = true -> store_wf d -> store_wf (at_bucket u b f d).
Proof.
  intros Hb [Hd Hin]. split.
  - now apply StdMap.wf_update.
  - apply (StdMap.update_Forall_values StdMap.wf); auto.
    + apply StdMap.wf_update; [exact Hb|apply StdMap.wf_nil].
    + intros v Hv. now apply StdMap.wf_update.
Qed.

Lemma store_inner_wf d u : store_wf d -> StdMap.wf (StdMap.value_or [] (StdMap.find u d)).
Proof.
  intros [_ Hin]. destruct (StdMap.find u d) as [bm|] eqn:E; simpl; [|apply StdMap.wf_nil].
  apply StdMap.find_In in E as (u' & Hu' & _).
  rewrite Forall_forall in Hin. exact (Hin _ Hu').
Qed.

Lemma find_value_or {K V} `{KeyOrder K} (k : K) (o : option (list (K * V))) :
  StdMap.find k (StdMap.value_or [] o) = match o with Some m => StdMap.find k m | None => None end.
Proof. now destruct o. Qed.

(** A bucket change reaches exactly the buckets of equivalent keys. *)
Lemma bucket_at_bucket u b f d u' b' :
  store_wf d -> key_ok b = true -> key_ok b' = true ->
  bucket (at_bucket u b f d) u' b' =
    if (u =? u')%Z && StdMap.equiv b b'
    then Some (f (StdMap.value_or empty_samples (bucket d u' b')))
    else bucket d u' b'.
Proof.
  intros Hd Hb Hb'. unfold bucket, at_bucket. destruct (Z.eqb_spec u u') as [<-|Hne]; simpl.
  - rewrite StdMap.find_update_eq. pose proof (store_inner_wf d u Hd) as Hw.
    destruct (StdMap.equiv b b') eqn:E.
    + rewrite <- (StdMap.find_equiv b b'), StdMap.find_update_eq, (StdMap.find_equiv b b');
        auto; [now rewrite find_value_or|now apply StdMap.wf_update].
    + rewrite StdMap.find_update_neq by auto. now rewrite find_value_or.
  - rewrite StdMap.find_update_neq; auto. destruct Hd as [Hd _]; auto.
    rewrite StdMap.int_equiv. now apply Z.eqb_neq.
Qed.

Lemma append_samples_cons ms r rs :
  append_samples ms (r :: rs) = append_samples (push_sample r ms) rs.
Proof. reflexivity. Qed.

Lemma append_samples_spec ms rs :
  append_samples ms rs =
    {| lossSamples := lossSamples ms ++ map tempLoss rs;
       delaySamples := delaySamples ms ++ map tempDelay rs;
       jitterSamples := jitterSamples ms ++ map tempJitter rs |}.
Proof.
  revert ms. induction rs as [|r rs IH]; intros ms.
  - destruct ms; simpl. now rewrite !app_nil_r.
  - rewrite append_samples_cons, IH. destruct ms; simpl. unfold push_back. now rewrite <- !app_assoc.
Qed.

Lemma store_wf_nil : store_wf [].
Proof. split; [apply StdMap.wf_nil|constructor]. Qed.

Lemma balanced_push_sample r ms : balanced ms -> balanced (push_sample r ms).
Proof. unfold balanced. destruct ms; simpl. autorewrite with streamnow_rw. lia. Qed.

Lemma store_wf_record_sample r d :
  bitrate_ok r = true -> store_wf d -> store_wf (record_sample r d).
Proof. intros Hr Hd. unfold record_sample. now repeat apply at_bucket_wf. Qed.

(** ** Theorems *)

Lemma record_sample_append r d :
  record_sample r d = at_bucket (numUsers r) (tempBitrate r) (push_sample r) d.
Proof. unfold record_sample. now rewrite !at_bucket_twice. Qed.

(** The loop body looks the bucket up three times; the three
    statements amount to appending the whole record to one bucket. *)
Theorem record_sample_one_bucket r d :
  record_sample r d = at_bucket (numUsers r) (tempBitrate r) (push_sample r) d.
Proof. exact (record_sample_append r d). Qed.

(** After every iteration of the loop, each bucket holds as many loss
    as delay and jitter samples. *)
Theorem read_loop_balanced input d : all_balanced d -> all_balanced (read_loop input d).
Proof.
  revert d. induction input as [|[r|] input IH]; simpl; auto. intros d Hd. apply IH.
  rewrite record_sample_append. unfold all_balanced, at_bucket.
  apply (StdMap.update_Forall_values (fun bm => Forall (fun b => balanced (snd b)) bm)); auto;
    intros; apply (StdMap.update_Forall_values balanced); auto using balanced_push_sample.
  all: apply balanced_push_sample; split; reflexivity.
Qed.

Lemma read_loop_wf input d : input_ok input -> store_wf d -> store_wf (read_loop input d).
Proof.
  revert d. induction input as [|[r|] input IH]; simpl; auto. intros d Hi Hd. inv Hi.
  auto using store_wf_record_sample.
Qed.

(** Reading stops at the first record that fails to extract; nothing
    after it is read. *)
Theorem read_loop_stops pre post d :
  read_loop (map Some pre ++ None :: post) d = read_loop (map Some pre) d.
Proof. revert d. induction pre as [|r pre IH]; simpl; auto. Qed.

Lemma bucket_read_loop rs d u b :
  store_wf d -> Forall (fun r => bitrate_ok r = true) rs -> key_ok b = true ->
  bucket (read_loop (map Some rs) d) u b =
    match filter (matches u b) rs with
    | [] => bucket d u b
    | ms => Some (append_samples (StdMap.value_or empty_samples (bucket d u b)) ms)
    end.
Proof.
  revert d. induction rs as [|r rs IH]; intros d Hd Hrs Hb; simpl; auto. inv Hrs.
  rewrite IH by auto using store_wf_record_sample.
  rewrite record_sample_append, bucket_at_bucket by auto.
  change ((numUsers r =? u)%Z && StdMap.equiv (tempBitrate r) b)%bool with (matches u b r).
  destruct (matches u b r); destruct (filter (matches u b) rs); reflexivity.
Qed.

Lemma read_loop_bucket_records rs u b :
  Forall (fun r => bitrate_ok r = true) rs -> key_ok b = true ->
  bucket (read_loop (map Some rs) []) u b =
    match filter (matches u b) rs with
    | [] => None
    | ms => Some (samples_of ms)
    end.
Proof.
  intros Hrs Hb. rewrite bucket_read_loop by auto using store_wf_nil.
  destruct (filter (matches u b) rs); auto. now rewrite append_samples_spec.
Qed.

(** C1: the store's contract.  After the loop has read records [rs] into
    the empty map, the bucket of user count [u] and bitrate [b] holds the
    loss, delay and jitter values of exactly the records with that user
    count and a bitrate equivalent to [b] under [<], in input order:
    duplicates are all kept, records of one key are merged into one
    bucket, and there is no bucket when no record has the key. *)
Theorem read_loop_buckets rs u b :
  Forall (fun r => bitrate_ok r = true) rs -> key_ok b = true ->
  bucket (read_loop (map Some rs) []) u b =
    match filter (matches u b) rs with
    | [] => None
    | ms => Some (samples_of ms)
    end.
Proof. exact (read_loop_bucket_records rs u b). Qed.


Lemma update_nonempty {K V} `{KeyOrder K} (k : K) (dflt : V) f (m : list (K * V)) :
  StdMap.update k dflt f m <> [].
Proof. destruct m as [|[k' v] m]; simpl; [|destruct (key_lt k k'), (key_lt k' k)]; discriminate. Qed.

Lemma read_loop_inner_nonempty input d : inner_nonempty d -> inner_nonempty (read_loop input d).
Proof.
  revert d. induction input as [|[r|] input IH]; simpl; auto. intros d Hd. apply IH.
  unfold record_sample, at_bucket.
  repeat apply (StdMap.update_Forall_values (fun bm => bm <> [])); auto using update_nonempty.
Qed.

Lemma read_loop_not_nil input d : d <> [] -> read_loop input d <> [].
Proof.
  revert d. induction input as [|[r|] input IH]; simpl; auto. intros d _.
  apply IH. unfold record_sample, at_bucket. apply update_nonempty.
Qed.

(** The store the loop builds from the empty map satisfies both invariants. *)
Lemma read_loop_store input :
  input_ok input -> store_wf (read_loop input []) /\ inner_nonempty (read_loop input []).
Proof.
  intros Hi. split; [apply read_loop_wf; auto using store_wf_nil|apply read_loop_inner_nonempty; constructor].
Qed.

(** ** Witnesses *)

Lemma read_loop_buckets_witness :
  Forall (fun r => bitrate_ok r = true) trials /\ key_ok 8%float = true /\
  bucket (read_loop (map Some trials) []) 100 8%float =
    Some {| lossSamples := [1.0; 3.0]; delaySamples := [25; 27]; jitterSamples := [9; 7] |}%float.
Proof.
  split; [repeat constructor|split; [reflexivity|]].
  rewrite read_loop_buckets; [reflexivity|repeat constructor|reflexivity].
Defined.

Lemma read_loop_balanced_witness :
  all_balanced [] /\ all_balanced (read_loop (map Some trials ++ [None]) []).
Proof. split; [constructor|apply read_loop_balanced; constructor]. Defined.

End SampleStore.
