(* ===== verification/ReadMachine.v ===== *)
(** * ReadMachine: the read loop of [main] statement by statement

    [src/src/plot-results.cc] lines 104-112:
<<
    while (inFile >> numUsers >> tempBitrate >> tempLoss >> tempDelay >> tempJitter)
    {
        dataByUsersAndBitrate[numUsers][tempBitrate].lossSamples.push_back(tempLoss);
        dataByUsersAndBitrate[numUsers][tempBitrate].delaySamples.push_back(tempDelay);
        dataByUsersAndBitrate[numUsers][tempBitrate].jitterSamples.push_back(tempJitter);
    }
    inFile.close();
>>
    [SampleStore.read_loop] runs one whole iteration at a time.  Here the
    loop is a small-step machine whose program counter stands at the
    [while] test or before one of the three statements, so that the states
    between two statements exist: there the current bucket has one sample
    more in some vectors than in others.  The step relation [step] has one
    rule per statement; [next] computes it.

    - [read_machine_invariant]: every reachable state has a well-formed
      store whose buckets are balanced, except the bucket of the record
      being stored, which is exactly one statement ahead (rule induction
      on [reachable]).
    - [read_machine_live]: from every state the machine eventually closes
      the file ([eventually], as coqutil's omni-semantics combinators).
    - [read_machine_refines]: a closed state reached from the start holds
      the store [read_loop] computes, through a denotation every step
      preserves. *)

From Stdlib Require Import List ZArith Lia Bool Floats.
From S2P Require Import Prelude Double StdMap SampleStore.
Import ListNotations.
Import SampleStore.

Module ReadMachine.

(** Where the loop stands: at the [while] test, before the loss, delay
    or jitter statement of the record just extracted, or after
    [inFile.close()]. *)
Inductive Pc :=
| AtTest
| AtLoss (r : RawSample)
| AtDelay (r : RawSample)
| AtJitter (r : RawSample)
| Closed.

Record State := mkState {
  pc : Pc;
  input : list (option RawSample);
  store : DataMap
}.

Definition init (inp : list (option RawSample)) : State := mkState AtTest inp [].

Definition halted (s : State) : Prop := pc s = Closed.

Inductive step : State -> State -> Prop :=
| step_extract r rest d :
    step (mkState AtTest (Some r :: rest) d) (mkState (AtLoss r) rest d)
| step_fail rest d :
    step (mkState AtTest (None :: rest) d) (mkState Closed rest d)
| step_eof d :
    step (mkState AtTest [] d) (mkState Closed [] d)
| step_loss r inp d :
    step (mkState (AtLoss r) inp d)
         (mkState (AtDelay r) inp (at_bucket (numUsers r) (tempBitrate r) (push_loss (tempLoss r)) d))
| step_delay r inp d :
    step (mkState (AtDelay r) inp d)
         (mkState (AtJitter r) inp (at_bucket (numUsers r) (tempBitrate r) (push_delay (tempDelay r)) d))
| step_jitter r inp d :
    step (mkState (AtJitter r) inp d)
         (mkState AtTest inp (at_bucket (numUsers r) (tempBitrate r) (push_jitter (tempJitter r)) d)).

(** The step as a function: [None] once the file is closed. *)
Definition next (s : State) : option State :=
  match pc s, input s with
  | AtTest, Some r :: rest => Some (mkState (AtLoss r) rest (store s))
  | AtTest, None :: rest => Some (mkState Closed rest (store s))
  | AtTest, [] => Some (mkState Closed [] (store s))
  | AtLoss r, inp =>
      Some (mkState (AtDelay r) inp (at_bucket (numUsers r) (tempBitrate r) (push_loss (tempLoss r)) (store s)))
  | AtDelay r, inp =>
      Some (mkState (AtJitter r) inp (at_bucket (numUsers r) (tempBitrate r) (push_delay (tempDelay r)) (store s)))
  | AtJitter r, inp =>
      Some (mkState AtTest inp (at_bucket (numUsers r) (tempBitrate r) (push_jitter (tempJitter r)) (store s)))
  | Closed, _ => None
  end.

Fixpoint run (fuel : nat) (s : State) : State :=
  match fuel with
  | O => s
  | S f => match next s with Some s' => run f s' | None => s end
  end.

Inductive reachable (inp : list (option RawSample)) : State -> Prop :=
| reach_init : reachable inp (init inp)
| reach_step s s' : reachable inp s -> step s s' -> reachable inp s'.

Inductive star : State -> State -> Prop :=
| star_refl s : star s s
| star_step s s' s'' : step s s' -> star s' s'' -> star s s''.

(** The machine eventually reaches [P]: now, or it can step and every
    step leads to a state that eventually reaches [P]. *)
Inductive eventually (P : State -> Prop) (s : State) : Prop :=
| eventually_done : P s -> eventually P s
| eventually_step : (exists s', step s s') -> (forall s', step s s' -> eventually P s') -> eventually P s.

(** The record the state is storing, if any. *)
Definition current (p : Pc) : option RawSample :=
  match p with AtLoss r | AtDelay r | AtJitter r => Some r | _ => None end.

(** What a bucket looks like at program point [p]: balanced, except the
    bucket of the record being stored, which exists and is one or two
    [push_back]s ahead in its loss (and delay) vector. *)
Definition bucket_ok (p : Pc) (u : Z) (b : float) (o : option MetricSamples) : Prop :=
  match p with
  | AtDelay r =>
      if matches u b r then
        exists ms, o = Some ms /\ length (lossSamples ms) = S (length (delaySamples ms)) /\
                   length (delaySamples ms) = length (jitterSamples ms)
      else forall ms, o = Some ms -> balanced ms
  | AtJitter r =>
      if matches u b r then
        exists ms, o = Some ms /\ length (lossSamples ms) = length (delaySamples ms) /\
                   length (delaySamples ms) = S (length (jitterSamples ms))
      else forall ms, o = Some ms -> balanced ms
  | _ => forall ms, o = Some ms -> balanced ms
  end.

Definition inv (s : State) : Prop :=
  store_wf (store s) /\ input_ok (input s) /\
  match current (pc s) with Some r => bitrate_ok r = true | None => True end /\
  forall u b, key_ok b = true -> bucket_ok (pc s) u b (bucket (store s) u b).

(** The store the loop ends with, from any state: the rest of the
    current iteration, then [read_loop] on the rest of the input. *)
Definition denote (s : State) : DataMap :=
  let d := store s in
  match pc s with
  | AtTest => read_loop (input s) d
  | AtLoss r => read_loop (input s) (record_sample r d)
  | AtDelay r =>
      read_loop (input s)
        (at_bucket (numUsers r) (tempBitrate r) (push_jitter (tempJitter r))
           (at_bucket (numUsers r) (tempBitrate r) (push_delay (tempDelay r)) d))
  | AtJitter r => read_loop (input s) (at_bucket (numUsers r) (tempBitrate r) (push_jitter (tempJitter r)) d)
  | Closed => d
  end.

(** ** The step relation and its function *)

Lemma next_step s s' : step s s' <-> next s = Some s'.
Proof.
  split.
  - intros H. destruct H; reflexivity.
  - destruct s as [[|r|r|r|] [|[r'|] rest] d]; simpl; intros H; inv H; constructor.
Qed.

Lemma step_det s s1 s2 : step s s1 -> step s s2 -> s1 = s2.
Proof. rewrite !next_step. congruence. Qed.

Lemma reachable_star inp s : reachable inp s -> star (init inp) s.
Proof.
  assert (Hsnoc : forall a b c, star a b -> step b c -> star a c).
  { induction 1; intros Hs; [econstructor; [exact Hs|constructor]|econstructor; eauto]. }
  induction 1; [constructor|eauto].
Qed.

Lemma star_reachable inp s s' : reachable inp s -> star s s' -> reachable inp s'.
Proof. intros Hr Hs. revert Hr. induction Hs; eauto using reachable. Qed.

Lemma reachable_run inp n s : reachable inp s -> reachable inp (run n s).
Proof.
  revert s. induction n as [|n IH]; intros s Hr; simpl; [exact Hr|].
  destruct (next s) as [s'|] eqn:E; [|exact Hr]. apply IH. apply (reach_step _ s); [exact Hr|].
  now apply next_step.
Qed.

(** ** Refinement: every step keeps the denotation *)

Lemma denote_step s s' : step s s' -> denote s' = denote s.
Proof. destruct 1; reflexivity. Qed.

Lemma denote_star s s' : star s s' -> denote s' = denote s.
Proof. induction 1; [reflexivity|]. rewrite IHstar. now apply denote_step. Qed.

(** ** Liveness *)

Ltac ev_step :=
  apply eventually_step; [eexists; constructor|intros ? Hs; inversion Hs; subst; clear Hs].

Lemma eventually_test inp d : eventually halted (mkState AtTest inp d).
Proof.
  revert d. induction inp as [|[r|] rest IH]; intros d.
  - ev_step. now apply eventually_done.
  - ev_step. ev_step. ev_step. ev_step. apply IH.
  - ev_step. now apply eventually_done.
Qed.

Lemma eventually_star P s : eventually P s -> exists s', star s s' /\ P s'.
Proof.
  induction 1 as [s Hp|s [s1 H1] _ IH].
  - exists s. split; [constructor|exact Hp].
  - destruct (IH s1 H1) as (s2 & Hs & Hp). exists s2. split; [econstructor; eauto|exact Hp].
Qed.

(** ** The invariant *)

Lemma inv_init inp : input_ok inp -> inv (init inp).
Proof.
  intros Hi. split; [apply store_wf_nil|]. split; [exact Hi|]. split; [exact I|].
  intros u b _ ms E. unfold bucket in E. discriminate.
Qed.

(** One statement on the bucket of [r]: the condition of
    [bucket_at_bucket] is [matches u b r]. *)
Lemma bucket_stmt r f d u b :
  store_wf d -> bitrate_ok r = true -> key_ok b = true ->
  bucket (at_bucket (numUsers r) (tempBitrate r) f d) u b =
    if matches u b r then Some (f (StdMap.value_or empty_samples (bucket d u b))) else bucket d u b.
Proof. intros Hd Hr Hb. unfold matches. apply bucket_at_bucket; assumption. Qed.

Lemma inv_step s s' : inv s -> step s s' -> inv s'.
Proof.
  intros (Hw & Hi & Hc & Hb) Hs. destruct Hs; simpl in *.
  - inv Hi. exact (conj Hw (conj H2 (conj H1 Hb))).
  - inv Hi. exact (conj Hw (conj H2 (conj I Hb))).
  - exact (conj Hw (conj Hi (conj I Hb))).
  - split; [now apply at_bucket_wf|]. split; [exact Hi|]. split; [exact Hc|].
    intros u b Hk. specialize (Hb u b Hk). simpl. rewrite bucket_stmt by assumption.
    destruct (matches u b r); [|exact Hb].
    eexists; split; [reflexivity|].
    destruct (bucket d u b) as [ms|]; simpl; [|auto].
    destruct (Hb ms eq_refl) as [L1 L2]. rewrite length_push_back. lia.
  - split; [now apply at_bucket_wf|]. split; [exact Hi|]. split; [exact Hc|].
    intros u b Hk. specialize (Hb u b Hk). simpl in *. rewrite bucket_stmt by assumption.
    destruct (matches u b r); [|exact Hb].
    destruct Hb as (ms & -> & L1 & L2). eexists; split; [reflexivity|]. simpl.
    rewrite length_push_back. lia.
  - split; [now apply at_bucket_wf|]. split; [exact Hi|]. split; [exact I|].
    intros u b Hk. specialize (Hb u b Hk). simpl in *. rewrite bucket_stmt by assumption.
    destruct (matches u b r); [|exact Hb].
    destruct Hb as (ms & -> & L1 & L2). intros ms' E. injection E as <-.
    split; simpl; rewrite ?length_push_back; lia.
Qed.

(** ** Theorems *)

(** C18: in every state the loop reaches on an input whose bitrates are
    not NaN, the store is a well-formed map of maps and every bucket has
    as many loss, delay and jitter samples, except the bucket of the
    record being stored: after its loss statement it has one loss sample
    more, after its delay statement one jitter sample less. *)
Theorem read_machine_invariant inp s : input_ok inp -> reachable inp s -> inv s.
Proof.
  intros Hi Hr. induction Hr as [|s s' _ IH Hs]; [now apply inv_init|]. exact (inv_step s s' IH Hs).
Qed.

(** From any state, whatever the rest of the input, the loop
    eventually closes the file: every record takes four steps and the
    first failed extraction or the end of the input ends the loop. *)
Theorem read_machine_live s : eventually halted s.
Proof.
  destruct s as [[|r|r|r|] inp d].
  - apply eventually_test.
  - ev_step. ev_step. ev_step. apply eventually_test.
  - ev_step. ev_step. apply eventually_test.
  - ev_step. apply eventually_test.
  - now apply eventually_done.
Qed.

(** The statement-level loop implements [read_loop]: it reaches a
    closed state from the start, and every closed state it reaches holds
    the store [read_loop] computes. *)
Theorem read_machine_refines inp :
  (exists s, reachable inp s /\ halted s) /\
  forall s, reachable inp s -> halted s -> store s = read_loop inp [].
Proof.
  split.
  - destruct (eventually_star _ _ (eventually_test inp [])) as (s & Hs & Hh).
    exists s. split; [exact (star_reachable inp (init inp) s (reach_init inp) Hs)|exact Hh].
  - intros s Hr Hh. pose proof (denote_star _ _ (reachable_star _ _ Hr)) as E.
    unfold denote in E. rewrite Hh in E. exact E.
Qed.

(** ** Witnesses *)

(** After the loss statement of the third trial (ten steps). *)
Lemma read_machine_invariant_witness :
  input_ok (map Some trials) /\ inv (run 10 (init (map Some trials))).
Proof.
  assert (Hi : input_ok (map Some trials)) by (repeat constructor).
  split; [exact Hi|]. apply (read_machine_invariant (map Some trials)); [exact Hi|].
  apply reachable_run. constructor.
Defined.

(** The whole input of the trials, run to the end. *)
Lemma read_machine_refines_witness :
  halted (run 100 (init (map Some trials))) /\
  store (run 100 (init (map Some trials))) = read_loop (map Some trials) [].
Proof.
  assert (Hh : halted (run 100 (init (map Some trials)))) by (vm_compute; reflexivity).
  split; [exact Hh|]. apply (proj2 (read_machine_refines (map Some trials))); [|exact Hh].
  apply reachable_run. constructor.
Defined.

End ReadMachine.
