(* ===== verification/Aggregator.v ===== *)
(** * Aggregator: from buckets to sorted tiers of processed points

    [src/src/plot-results.cc] lines 24-33 ([struct ProcessedPoint]) and
    115-165 of [main]: for every bucket, in the map's order, a
    [ProcessedPoint] built from the three metrics independently and
    appended to [processedDataByUserCount[users]]; the run fails when no
    point was produced; then each tier is sorted by bitrate with
    [std::sort] while the smallest front and largest back bitrates are
    tracked from [1e9] and [0].

    [std::sort] only promises a permutation sorted by the comparator; it is
    modelled by an insertion sort, and [sorted_unique] shows that on lists
    without two equivalent bitrates every sorted permutation is the same
    list, so the choice does not matter on the tiers the aggregation
    builds. *)

From Stdlib Require Import List ZArith Lia Bool Floats Sorted Permutation.
From S2P Require Import Prelude Double StdMap Statistics SampleStore.
Import ListNotations.
Import StatisticsEngine SampleStore.

Module Aggregator.

Record ProcessedPoint := {
  bitrate : float;
  lossMean : float;
  lossMarginOfError : float;
  delayMean : float;
  delayMarginOfError : float;
  jitterMean : float;
  jitterMarginOfError : float
}.

(** Lines 121-137: the three metrics in the source's order, each from its
    own vector. *)
Definition process_point (b : float) (samples : MetricSamples) : ProcessedPoint :=
  let delayMean := CalculateMean (delaySamples samples) in
  let delayStdDev := CalculateStdDev (delaySamples samples) delayMean in
  let delayMarginOfError :=
    CalculateMarginOfError delayStdDev (int_of_size (size (delaySamples samples))) in
  let jitterMean := CalculateMean (jitterSamples samples) in
  let jitterStdDev := CalculateStdDev (jitterSamples samples) jitterMean in
  let jitterMarginOfError :=
    CalculateMarginOfError jitterStdDev (int_of_size (size (jitterSamples samples))) in
  let lossMean := CalculateMean (lossSamples samples) in
  let lossStdDev := CalculateStdDev (lossSamples samples) lossMean in
  let lossMarginOfError :=
    CalculateMarginOfError lossStdDev (int_of_size (size (lossSamples samples))) in
  {| bitrate := b; lossMean := lossMean; lossMarginOfError := lossMarginOfError;
     delayMean := delayMean; delayMarginOfError := delayMarginOfError;
     jitterMean := jitterMean; jitterMarginOfError := jitterMarginOfError |}.

Abbreviation ProcessedMap := (list (Z * list ProcessedPoint)).

(** [processedDataByUserCount[users].push_back(p_point)] *)
Definition push_point (users : Z) (p : ProcessedPoint) (m : ProcessedMap) : ProcessedMap :=
  StdMap.update users [] (fun v => v <+ p) m.

(** Lines 116-141: the two nested loops over the store. *)
Definition process_tier (m : ProcessedMap) (users : Z) (bitrateData : BitrateMap) : ProcessedMap :=
  fold_left (fun m e => push_point users (process_point (fst e) (snd e)) m) bitrateData m.

Definition process_all (d : DataMap) : ProcessedMap :=
  fold_left (fun m e => process_tier m (fst e) (snd e)) d [].

(** The comparator of [std::sort]: [a.bitrate < b.bitrate]. *)
Definition bitrate_lt (a b : ProcessedPoint) : bool := (bitrate a <? bitrate b)%float.

Fixpoint insert_point (p : ProcessedPoint) (l : list ProcessedPoint) : list ProcessedPoint :=
  match l with
  | [] => [p]
  | q :: l' => if bitrate_lt q p then q :: insert_point p l' else p :: l
  end.

Definition sort_by_bitrate (l : list ProcessedPoint) : list ProcessedPoint :=
  fold_right insert_point [] l.

(** Lines 150-165: sort every tier and track [minBitrate] (from [1e9]) and
    [maxBitrate] (from [0]) over the tiers' first and last points. *)
Fixpoint sort_tiers (m : ProcessedMap) (minBitrate maxBitrate : float) : ProcessedMap * float * float :=
  match m with
  | [] => ([], minBitrate, maxBitrate)
  | (users, pts) :: rest =>
      let pts := sort_by_bitrate pts in
      let '(minBitrate, maxBitrate) :=
        match pts with
        | [] => (minBitrate, maxBitrate)
        | front :: _ =>
            let back := last pts front in
            ((if (bitrate front <? minBitrate)%float then bitrate front else minBitrate),
             (if (maxBitrate <? bitrate back)%float then bitrate back else maxBitrate))
        end in
      let '(rest, mn, mx) := sort_tiers rest minBitrate maxBitrate in
      ((users, pts) :: rest, mn, mx)
  end.

(** The errors of the run. *)
Inductive AggregateError := EmptyDataset.

(** Lines 143-165: the emptiness check, then sorting with the range. *)
Definition aggregate (d : DataMap) : ProcessedMap * float * float + AggregateError :=
  match process_all d with
  | [] => inr EmptyDataset
  | m => inl (sort_tiers m 1e9%float 0%float)
  end.

(** ** Lemmas *)

(** The points of one tier, from its buckets in order. *)
Definition points_of (bm : BitrateMap) : list ProcessedPoint :=
  map (fun e => process_point (fst e) (snd e)) bm.

Definition tiers_of (d : DataMap) : ProcessedMap := map (fun e => (fst e, points_of (snd e))) d.

Definition bitrate_nn (p : ProcessedPoint) : bool := negb (PrimFloat.is_nan (bitrate p)).

(** What the aggregation guarantees of a tier: non-NaN bitrates, strictly
    ascending. *)
Definition tier_ok (l : list ProcessedPoint) : Prop :=
  Forall (fun p => bitrate_nn p = true) l /\ StronglySorted (fun a b => bitrate_lt a b = true) l.

(** [x] is not above [y]: the order [!(y < x)] of non-NaN doubles, through
    their rank. *)
Definition below_eq (x y : float) : Prop := ~ lex_lt (frank y) (frank x).

(** Run the aggregation of a concrete input: name its result and make the
    tiers concrete. *)
Ltac run_aggregate Ha :=
  match goal with |- context [aggregate ?d] =>
    let Hc := fresh in
    destruct (aggregate d) as [[[?m ?mn] ?mx]|] eqn:Ha;
    pose proof Ha as Hc; vm_compute in Hc; [|discriminate]; injection Hc as <- <- <-
  end.

(** Trials whose bitrates are all above [1e9]: the range's lower end stays
    at [1e9]. *)
Definition fast_trials : list RawSample :=
  [ {| numUsers := 10; tempBitrate := 2e9; tempLoss := 0; tempDelay := 1; tempJitter := 1 |};
    {| numUsers := 20; tempBitrate := 3e9; tempLoss := 0; tempDelay := 2; tempJitter := 1 |} ]%float.

Lemma process_tier_cons m u e bm :
  process_tier m u (e :: bm) = StdMap.update u [] (fun v => v ++ points_of (e :: bm)) m.
Proof.
  revert m e. induction bm as [|e' bm IH]; intros m e; [reflexivity|].
  change (process_tier m u (e :: e' :: bm))
    with (process_tier (push_point u (process_point (fst e) (snd e)) m) u (e' :: bm)).
  rewrite IH. unfold push_point. rewrite StdMap.update_update.
  apply StdMap.update_ext. intros v. unfold push_back. now rewrite <- app_assoc.
Qed.

Lemma process_all_fold d acc :
  StronglySorted StdMap.key_before d -> Forall (fun e => snd e <> []) d ->
  (forall x y, In x (StdMap.keys acc) -> In y (StdMap.keys d) -> (x < y)%Z) ->
  fold_left (fun m e => process_tier m (fst e) (snd e)) d acc = acc ++ tiers_of d.
Proof.
  revert acc. induction d as [|[u bm] d IH]; intros acc Hs Hne Hlt; simpl; [now rewrite app_nil_r|].
  apply StronglySorted_inv in Hs as [Hs Hf]. inversion Hne as [|? ? Hbm Hne']; subst.
  destruct bm as [|e bm]; [contradiction|]. rewrite process_tier_cons.
  rewrite StdMap.update_above; [|reflexivity|].
  - rewrite IH; auto. { simpl. now rewrite <- app_assoc. }
    intros x y Hx Hy. unfold StdMap.keys in Hx. rewrite map_app, in_app_iff in Hx.
    rewrite Forall_forall in Hf.
    destruct Hx as [Hx|[<-|[]]].
    + apply Hlt; simpl; auto.
    + apply in_map_iff in Hy as ([y' w] & <- & Hy). apply Z.ltb_lt, (Hf (y', w) Hy).
  - apply Forall_forall. intros [x w] Hx. split; [reflexivity|].
    apply Z.ltb_lt, Hlt; [apply in_map with (f := fst) in Hx; exact Hx|left; reflexivity].
Qed.

Lemma process_all_spec d :
  StdMap.wf d -> inner_nonempty d -> process_all d = tiers_of d.
Proof.
  intros [_ Hs] Hne. unfold process_all. rewrite process_all_fold; auto. intros x y [].
Qed.

(** *** Sorting a tier *)

Lemma bitrate_lt_asym p q :
  bitrate_nn p = true -> bitrate_nn q = true -> bitrate_lt p q = true -> bitrate_lt q p = false.
Proof.
  unfold bitrate_nn, bitrate_lt. intros Hp Hq H. apply negb_true_iff in Hp, Hq.
  destruct (bitrate q <? bitrate p)%float eqn:E; auto.
  pose proof (ltb_trans _ _ _ Hp Hq Hp H E) as T. now rewrite ltb_irrefl in T.
Qed.

Lemma insert_point_least p l :
  bitrate_nn p = true -> Forall (fun q => bitrate_nn q = true /\ bitrate_lt p q = true) l ->
  insert_point p l = p :: l.
Proof.
  intros Hp Hl. destruct l as [|q l]; simpl; auto.
  inversion Hl as [|? ? [Hq Hpq] _]; subst. now rewrite bitrate_lt_asym.
Qed.

(** [std::sort] leaves a tier that is already strictly ascending as it is. *)
Lemma sort_by_bitrate_id l : tier_ok l -> sort_by_bitrate l = l.
Proof.
  intros [Hnn Hs]. induction Hs as [|p l Hs IH Hf]; simpl; auto.
  inversion Hnn as [|? ? Hp Hnn']; subst.
  rewrite IH by auto. apply insert_point_least; auto.
  rewrite Forall_forall in *. auto.
Qed.

Lemma sort_tiers_fst m mn mx :
  Forall (fun e => tier_ok (snd e)) m -> fst (fst (sort_tiers m mn mx)) = m.
Proof.
  revert mn mx. induction m as [|[u pts] m IH]; intros mn mx Hm; simpl; auto.
  inversion Hm as [|? ? Ht Hm']; subst. simpl in Ht.
  rewrite sort_by_bitrate_id by auto.
  destruct pts as [|p pts]; simpl;
    match goal with |- context [sort_tiers m ?a ?b] =>
      pose proof (IH a b Hm') as R; destruct (sort_tiers m a b) as [[m' x] y]; simpl in *; now subst
    end.
Qed.

(** The tier built from a well-formed inner map is strictly ascending. *)
Lemma points_of_tier_ok bm : StdMap.wf bm -> tier_ok (points_of bm).
Proof.
  intros [Hok Hs]. split.
  - unfold points_of. rewrite Forall_map. revert Hok. apply Forall_impl. now intros [b ms].
  - apply StronglySorted_map. revert Hs. apply StronglySorted_impl. now intros [b1 m1] [b2 m2].
Qed.

Lemma tiers_of_wf d : StdMap.wf d -> StdMap.wf (tiers_of d).
Proof.
  intros [Hok Hs]. unfold tiers_of. split.
  - rewrite Forall_map. revert Hok. apply Forall_impl. now intros [u bm].
  - apply StronglySorted_map. revert Hs. apply StronglySorted_impl. now intros [u1 b1] [u2 b2].
Qed.

Lemma tiers_of_ok d : store_wf d -> Forall (fun e => tier_ok (snd e)) (tiers_of d).
Proof.
  intros [_ Hin]. unfold tiers_of. rewrite Forall_map. revert Hin.
  apply Forall_impl. intros [u bm] H. now apply points_of_tier_ok.
Qed.

(** *** Margins of one point *)

Lemma process_point_not_neg b ms :
  (lossMarginOfError (process_point b ms) <? 0)%float = false /\
  (delayMarginOfError (process_point b ms) <? 0)%float = false /\
  (jitterMarginOfError (process_point b ms) <? 0)%float = false.
Proof.
  simpl. repeat split; apply margin_of_error_not_neg, std_dev_not_neg.
Qed.

Lemma int_of_size_map {A B} (f : A -> B) (l : list A) :
  (Z.of_nat (length l) < 2 ^ 31)%Z -> int_of_size (size (map f l)) = Z.of_nat (length l).
Proof.
  intros Hl. unfold int_of_size, size. rewrite length_map, nat_N_Z.
  apply int32_wrap_small. lia.
Qed.

Lemma process_point_few_samples b rs :
  (length rs < 2)%nat ->
  lossMarginOfError (process_point b (samples_of rs)) = 0%float /\
  delayMarginOfError (process_point b (samples_of rs)) = 0%float /\
  jitterMarginOfError (process_point b (samples_of rs)) = 0%float.
Proof.
  intros Hl. simpl. unfold CalculateMarginOfError.
  rewrite !int_of_size_map by (simpl; lia).
  destruct (Z.ltb_spec (Z.of_nat (length rs)) 2); [auto|lia].
Qed.

Lemma aggregate_spec d :
  store_wf d -> inner_nonempty d ->
  aggregate d = match d with [] => inr EmptyDataset | _ => inl (sort_tiers (tiers_of d) 1e9 0) end.
Proof. intros [Hw _] Hne. unfold aggregate. rewrite process_all_spec by auto. now destruct d. Qed.

Lemma aggregate_inl d r :
  store_wf d -> inner_nonempty d -> aggregate d = inl r -> sort_tiers (tiers_of d) 1e9 0 = r.
Proof.
  intros Hw Hne Ha. rewrite aggregate_spec in Ha by auto. destruct d; [discriminate|congruence].
Qed.

(** A [sort_tiers] run that never meets a front below its start keeps it. *)
(** The run reads no record exactly when the first extraction fails. *)
Lemma aggregate_read_empty input :
  input_ok input ->
  aggregate (read_loop input []) = inr EmptyDataset <-> read_loop input [] = [].
Proof.
  intros Hi. destruct (read_loop_store input Hi) as [Hw Hne]. rewrite aggregate_spec by auto.
  destruct (read_loop input []) as [|e d]; simpl; [tauto|]. split; discriminate.
Qed.

Lemma read_loop_empty_iff input :
  read_loop input [] = [] <-> match input with Some _ :: _ => False | _ => True end.
Proof.
  destruct input as [|[r|] input]; simpl; try tauto.
  assert (Hnn : read_loop input (record_sample r []) <> []).
  { apply read_loop_not_nil. unfold record_sample, at_bucket. apply update_nonempty. }
  tauto.
Qed.

Lemma sort_tiers_min_kept m mn0 mx0 :
  Forall (fun e => tier_ok (snd e)) m ->
  Forall (fun e => Forall (fun p => (bitrate p <? mn0)%float = false) (snd e)) m ->
  snd (fst (sort_tiers m mn0 mx0)) = mn0.
Proof.
  revert mx0. induction m as [|[u pts] m IH]; intros mx0 Ht Hb; simpl; auto.
  inversion Ht as [|? ? Ht0 Ht']; inversion Hb as [|? ? Hb0 Hb']; subst. simpl in Ht0, Hb0.
  rewrite sort_by_bitrate_id by auto.
  destruct pts as [|front l]; simpl;
    [pose proof (IH mx0 Ht' Hb') as R; destruct (sort_tiers m mn0 mx0) as [[? ?] ?]; exact R|].
  inversion Hb0 as [|? ? Hf _]; subst. rewrite Hf.
  match goal with |- context [sort_tiers m mn0 ?b] =>
    pose proof (IH b Ht' Hb') as R; destruct (sort_tiers m mn0 b) as [[? ?] ?]; exact R end.
Qed.

Lemma input_ok_records rs : Forall (fun r => bitrate_ok r = true) rs -> input_ok (map Some rs).
Proof. intros H. unfold input_ok. now rewrite Forall_map. Qed.

(** *** The tracked bitrate range *)

Lemma ltb_false_below_eq x y : nn x -> nn y -> (y <? x)%float = false <-> below_eq x y.
Proof.
  intros Hx Hy. unfold below_eq. rewrite <- ltb_rank by assumption.
  destruct (y <? x)%float; split; congruence.
Qed.

Lemma below_eq_refl x : below_eq x x.
Proof. apply lex_lt_irrefl. Qed.

Lemma below_eq_trans x y z : below_eq x y -> below_eq y z -> below_eq x z.
Proof. unfold below_eq. intros. eapply lex_not_lt_trans; eauto. Qed.

Lemma lt_below_eq p q : bitrate_nn p = true -> bitrate_nn q = true ->
  bitrate_lt p q = true -> below_eq (bitrate p) (bitrate q).
Proof.
  unfold bitrate_nn, bitrate_lt. rewrite !negb_true_iff. intros Hp Hq H.
  apply ltb_false_below_eq; auto. apply (bitrate_lt_asym p q); auto; now apply negb_true_iff.
Qed.

(** Every point of a tier lies between its first and its last point. *)
Lemma tier_bounds l front p :
  tier_ok (front :: l) -> In p (front :: l) ->
  below_eq (bitrate front) (bitrate p) /\ below_eq (bitrate p) (bitrate (last (front :: l) front)).
Proof.
  revert front p. induction l as [|a l IH]; intros front p [Hnn Hs] Hin.
  - destruct Hin as [<-|[]]. split; apply below_eq_refl.
  - inversion Hnn as [|? ? Hf Hnn']; subst. apply StronglySorted_inv in Hs as [Hs Hlt].
    inversion Hlt as [|? ? Hfa Hlt']; subst.
    assert (Hok : tier_ok (a :: l)) by (split; auto).
    change (last (front :: a :: l) front) with (last (a :: l) front).
    rewrite (last_indep (a :: l) front a) by discriminate.
    inversion Hnn' as [|? ? Ha _]; subst.
    destruct Hin as [<-|Hin].
    + split; [apply below_eq_refl|].
      apply (below_eq_trans _ (bitrate a)); [now apply lt_below_eq|].
      apply (IH a a Hok (in_eq _ _)).
    + destruct (IH a p Hok Hin) as [H1 H2]. split; auto.
      apply (below_eq_trans _ (bitrate a)); auto. now apply lt_below_eq.
Qed.

Lemma min_step f m : nn f -> nn m ->
  below_eq (if (f <? m)%float then f else m) f /\ below_eq (if (f <? m)%float then f else m) m.
Proof.
  intros Hf Hm. destruct (f <? m)%float eqn:E.
  - split; [apply below_eq_refl|]. apply ltb_false_below_eq; auto.
    destruct (m <? f)%float eqn:E'; auto. pose proof (ltb_trans _ _ _ Hf Hm Hf E E') as T.
    now rewrite ltb_irrefl in T.
  - split; [now apply ltb_false_below_eq|apply below_eq_refl].
Qed.

Lemma max_step b m : nn b -> nn m ->
  below_eq b (if (m <? b)%float then b else m) /\ below_eq m (if (m <? b)%float then b else m).
Proof.
  intros Hb Hm. destruct (m <? b)%float eqn:E.
  - split; [apply below_eq_refl|]. apply ltb_false_below_eq; auto.
    destruct (b <? m)%float eqn:E'; auto. pose proof (ltb_trans _ _ _ Hm Hb Hm E E') as T.
    now rewrite ltb_irrefl in T.
  - split; [now apply ltb_false_below_eq|apply below_eq_refl].
Qed.

Lemma if_nn (c : bool) x y : nn x -> nn y -> nn (if c then x else y).
Proof. now destruct c. Qed.

(** The range [sort_tiers] tracks bounds every bitrate of the tiers it
    returns, and only moves outwards from its start. *)
Lemma sort_tiers_range m mn0 mx0 :
  Forall (fun e => tier_ok (snd e)) m -> nn mn0 -> nn mx0 ->
  let '(m', mn, mx) := sort_tiers m mn0 mx0 in
  nn mn /\ nn mx /\ below_eq mn mn0 /\ below_eq mx0 mx /\
  forall e p, In e m' -> In p (snd e) -> below_eq mn (bitrate p) /\ below_eq (bitrate p) mx.
Proof.
  revert mn0 mx0. induction m as [|[u pts] m IH]; intros mn0 mx0 Hm Hmn Hmx; simpl.
  { refine (conj _ (conj _ (conj _ (conj _ _)))); auto using below_eq_refl. intros e p []. }
  inversion Hm as [|? ? Ht Hm']; subst. simpl in Ht. rewrite sort_by_bitrate_id by auto.
  destruct pts as [|front l].
  - specialize (IH mn0 mx0 Hm' Hmn Hmx). destruct (sort_tiers m mn0 mx0) as [[m' mn] mx].
    destruct IH as (H1 & H2 & H3 & H4 & H5). refine (conj _ (conj _ (conj _ (conj _ _)))); auto.
    intros e p [<-|He] Hp; [destruct Hp|now apply H5 with e].
  - assert (Hnn : forall p, In p (front :: l) -> nn (bitrate p)).
    { intros p Hp. destruct Ht as [Hn _]. rewrite Forall_forall in Hn.
      apply negb_true_iff, Hn, Hp. }
    pose proof (Hnn _ (in_eq _ _)) as Hf. pose proof (Hnn _ (last_cons_In front l)) as Hb.
    destruct (min_step _ _ Hf Hmn) as [A1 A2]. destruct (max_step _ _ Hb Hmx) as [B1 B2].
    specialize (IH _ _ Hm' (if_nn (bitrate front <? mn0)%float _ _ Hf Hmn)
                           (if_nn (mx0 <? bitrate (last (front :: l) front))%float _ _ Hb Hmx)).
    destruct (sort_tiers m _ _) as [[m' mn] mx].
    destruct IH as (H1 & H2 & H3 & H4 & H5).
    refine (conj H1 (conj H2 (conj (below_eq_trans _ _ _ H3 A2) (conj (below_eq_trans _ _ _ B2 H4) _)))).
    intros e p [<-|He] Hp; [|now apply H5 with e].
    destruct (tier_bounds l front p Ht Hp) as [C1 C2]. split.
    + exact (below_eq_trans _ _ _ H3 (below_eq_trans _ _ _ A1 C1)).
    + exact (below_eq_trans _ _ _ C2 (below_eq_trans _ _ _ B1 H4)).
Qed.

(** ** Theorems *)

(** C7: the run stops with [EmptyDataset] exactly when the first record of
    the stream fails to extract (an empty or malformed file start). *)
Theorem aggregate_empty input :
  input_ok input ->
  aggregate (read_loop input []) = inr EmptyDataset <->
  match input with Some _ :: _ => False | _ => True end.
Proof.
  intros Hi. rewrite aggregate_read_empty by assumption. apply read_loop_empty_iff.
Qed.

Lemma aggregate_sorted_tiers input m mn mx :
  input_ok input -> aggregate (read_loop input []) = inl (m, mn, mx) ->
  m = tiers_of (read_loop input []) /\ Forall (fun e => tier_ok (snd e)) m.
Proof.
  intros Hi Ha. destruct (read_loop_store input Hi) as [Hw Hne].
  remember (read_loop input []) as d eqn:E. clear E.
  rewrite aggregate_spec in Ha by auto. destruct d as [|e d]; [discriminate|].
  assert (Hs : sort_tiers (tiers_of (e :: d)) 1e9 0 = (m, mn, mx)) by congruence.
  pose proof (tiers_of_ok _ Hw) as Ht.
  pose proof (sort_tiers_fst _ 1e9%float 0%float Ht) as F. rewrite Hs in F. simpl in F. now subst.
Qed.

(** C3: on success, the tiers are one per user count of the store, each the
    processed points of its buckets in the map's order, and each strictly
    ascending in bitrate: [std::sort] has nothing to reorder. *)
Theorem aggregate_tiers input m mn mx :
  input_ok input -> aggregate (read_loop input []) = inl (m, mn, mx) ->
  m = tiers_of (read_loop input []) /\ Forall (fun e => tier_ok (snd e)) m.
Proof. exact (aggregate_sorted_tiers input m mn mx). Qed.

(** The aggregation's result has the shape its consumers rely on: a
    well-formed [std::map<int, std::vector<ProcessedPoint>>] (user counts
    strictly ascending), whose every vector is non-empty, free of NaN
    bitrates and strictly ascending in bitrate. *)
Theorem aggregate_result_wf input m mn mx :
  input_ok input -> aggregate (read_loop input []) = inl (m, mn, mx) ->
  StdMap.wf m /\ Forall (fun e => snd e <> [] /\ tier_ok (snd e)) m.
Proof.
  intros Hi Ha. destruct (aggregate_sorted_tiers input m mn mx Hi Ha) as [-> Ht].
  destruct (read_loop_store input Hi) as [[Hw _] Hne]. split; [now apply tiers_of_wf|].
  apply Forall_and; [|exact Ht]. unfold tiers_of. rewrite Forall_map. revert Hne.
  apply Forall_impl. intros [u bm] H. unfold points_of. simpl in *. now destruct bm.
Qed.

Lemma aggregate_point_records rs m mn mx u pts p :
  Forall (fun r => bitrate_ok r = true) rs ->
  aggregate (read_loop (map Some rs) []) = inl (m, mn, mx) ->
  StdMap.find u m = Some pts -> In p pts ->
  filter (matches u (bitrate p)) rs <> [] /\
  p = process_point (bitrate p) (samples_of (filter (matches u (bitrate p)) rs)).
Proof.
  intros Hrs Ha Hf Hp. pose proof (input_ok_records rs Hrs) as Hi.
  destruct (aggregate_sorted_tiers _ _ _ _ Hi Ha) as [-> _].
  destruct (read_loop_store _ Hi) as [Hw _]. pose proof (store_inner_wf _ u Hw) as Hbm.
  unfold tiers_of in Hf. rewrite StdMap.find_map_values in Hf.
  destruct (StdMap.find u (read_loop (map Some rs) [])) as [bm|] eqn:Eu; [|discriminate].
  injection Hf as <-. simpl in Hbm.
  unfold points_of in Hp. apply in_map_iff in Hp as ([b ms] & <- & Hin). simpl.
  assert (Hbk : bucket (read_loop (map Some rs) []) u b = Some ms)
    by (unfold bucket; rewrite Eu; now apply StdMap.In_find).
  rewrite read_loop_bucket_records in Hbk by (auto; apply (StdMap.wf_key_ok _ _ Hbm Hin)).
  destruct (filter (matches u b) rs); [discriminate|]. injection Hbk as <-.
  split; [discriminate|reflexivity].
Qed.

(** C2: every point of the output is the statistics of exactly the records
    of its bucket: the records with the tier's user count and a bitrate
    equivalent to the point's, of which there is at least one. *)
Theorem aggregate_points rs m mn mx u pts p :
  Forall (fun r => bitrate_ok r = true) rs ->
  aggregate (read_loop (map Some rs) []) = inl (m, mn, mx) ->
  StdMap.find u m = Some pts -> In p pts ->
  filter (matches u (bitrate p)) rs <> [] /\
  p = process_point (bitrate p) (samples_of (filter (matches u (bitrate p)) rs)).
Proof. exact (aggregate_point_records rs m mn mx u pts p). Qed.

(** C12: the invariant of the spec's data model on every output point: no
    margin of error is negative, and all three are [0.0] when the bucket
    had fewer than two records. *)
Theorem aggregate_margins rs m mn mx u pts p :
  Forall (fun r => bitrate_ok r = true) rs ->
  aggregate (read_loop (map Some rs) []) = inl (m, mn, mx) ->
  StdMap.find u m = Some pts -> In p pts ->
  ((lossMarginOfError p <? 0)%float = false /\ (delayMarginOfError p <? 0)%float = false /\
   (jitterMarginOfError p <? 0)%float = false) /\
  ((length (filter (matches u (bitrate p)) rs) < 2)%nat ->
   lossMarginOfError p = 0%float /\ delayMarginOfError p = 0%float /\ jitterMarginOfError p = 0%float).
Proof.
  intros Hrs Ha Hf Hp. destruct (aggregate_point_records rs m mn mx u pts p Hrs Ha Hf Hp) as [_ E].
  rewrite E. split; [apply process_point_not_neg|apply process_point_few_samples].
Qed.

(** Every point of every output tier lies in the tracked range. *)
Lemma aggregate_point_range input m mn mx e p :
  input_ok input -> aggregate (read_loop input []) = inl (m, mn, mx) ->
  In e m -> In p (snd e) ->
  (bitrate p <? mn)%float = false /\ (mx <? bitrate p)%float = false.
Proof.
  intros Hi Ha Hin Hp. destruct (read_loop_store input Hi) as [Hw Hne].
  destruct (aggregate_sorted_tiers _ _ _ _ Hi Ha) as [Hm Ht].
  pose proof (aggregate_inl _ _ Hw Hne Ha) as Hs. rewrite <- Hm in Hs.
  pose proof (sort_tiers_range m 1e9 0 Ht eq_refl eq_refl) as R. rewrite Hs in R.
  destruct R as (Hmn & Hmx & _ & _ & R).
  destruct (R _ p Hin Hp) as [B1 B2].
  rewrite Forall_forall in Ht. destruct (Ht _ Hin) as [Hnn _]. rewrite Forall_forall in Hnn.
  pose proof (proj1 (negb_true_iff _) (Hnn p Hp)) as Hb.
  split; now apply ltb_false_below_eq.
Qed.

(** C24: the range the renderers use covers every output point: no
    bitrate is below [minBitrate] nor above [maxBitrate]. *)
Theorem aggregate_range input m mn mx u pts p :
  input_ok input -> aggregate (read_loop input []) = inl (m, mn, mx) ->
  StdMap.find u m = Some pts -> In p pts ->
  (bitrate p <? mn)%float = false /\ (mx <? bitrate p)%float = false.
Proof.
  intros Hi Ha Hf Hp. apply StdMap.find_In in Hf as (u' & Hin & _).
  exact (aggregate_point_range input m mn mx _ p Hi Ha Hin Hp).
Qed.

(** C25: [minBitrate] starts at [1e9]: when every record's bitrate is above
    [1e9] Mbps it stays [1e9], a value that is no measured bitrate, and the
    threshold lines start there. *)
Theorem aggregate_min_sentinel rs m mn mx :
  Forall (fun r => bitrate_ok r = true /\ (1e9 <? tempBitrate r)%float = true) rs ->
  aggregate (read_loop (map Some rs) []) = inl (m, mn, mx) -> mn = 1e9%float.
Proof.
  intros Hrs Ha. assert (Hok : Forall (fun r => bitrate_ok r = true) rs)
    by (revert Hrs; apply Forall_impl; tauto).
  pose proof (input_ok_records rs Hok) as Hi. destruct (read_loop_store _ Hi) as [Hw Hne].
  destruct (aggregate_sorted_tiers _ _ _ _ Hi Ha) as [Hm Ht].
  pose proof (aggregate_inl _ _ Hw Hne Ha) as Hs. rewrite <- Hm in Hs.
  pose proof (sort_tiers_min_kept m 1e9 0 Ht) as K. rewrite Hs in K. apply K.
  apply Forall_forall. intros [u pts] Hin. apply Forall_forall. intros p Hp.
  assert (Hf : StdMap.find u m = Some pts).
  { rewrite Hm. apply StdMap.In_find; [apply tiers_of_wf, Hw|now rewrite <- Hm]. }
  rewrite Forall_forall in Ht. destruct (Ht _ Hin) as [Hnn _]. rewrite Forall_forall in Hnn.
  pose proof (Hnn p Hp) as Hpn. unfold bitrate_nn in Hpn.
  destruct (aggregate_point_records rs m mn mx u pts p Hok Ha Hf Hp) as [Hne' _].
  destruct (filter (matches u (bitrate p)) rs) as [|r l] eqn:E; [congruence|].
  assert (Hr : In r (filter (matches u (bitrate p)) rs)) by (rewrite E; left; reflexivity).
  apply filter_In in Hr as [Hr Hmr]. rewrite Forall_forall in Hrs. destruct (Hrs r Hr) as [Hb Hgt].
  unfold matches in Hmr. apply andb_true_iff in Hmr as [_ Heq].
  assert (Hk : key_ok (tempBitrate r) = true) by exact Hb.
  assert (Hk' : key_ok (bitrate p) = true) by exact Hpn.
  destruct (StdMap.equiv_lt (tempBitrate r) (bitrate p) 1e9%float Hk Hk' eq_refl Heq) as [_ E1].
  simpl in E1. rewrite Hgt in E1. apply negb_true_iff in Hpn.
  destruct (bitrate p <? 1e9)%float eqn:E2; auto.
  pose proof (ltb_trans (bitrate p) 1e9 (bitrate p) Hpn eq_refl Hpn E2 (eq_sym E1)) as T.
  now rewrite ltb_irrefl in T.
Qed.

(** ** Witnesses, on the trials of [SampleStore.trials] *)

Lemma trials_ok : Forall (fun r => bitrate_ok r = true) trials.
Proof. repeat constructor. Qed.

(** A malformed first record: the run has no data. *)
Lemma aggregate_empty_witness :
  input_ok (None :: map Some trials) /\
  aggregate (read_loop (None :: map Some trials) []) = inr EmptyDataset.
Proof.
  assert (Hi : input_ok (None :: map Some trials)) by repeat constructor.
  split; [exact Hi|]. now apply (aggregate_empty _ Hi).
Defined.

Lemma aggregate_tiers_witness :
  exists m mn mx, input_ok (map Some trials) /\
    aggregate (read_loop (map Some trials) []) = inl (m, mn, mx) /\
    m = tiers_of (read_loop (map Some trials) []) /\ Forall (fun e => tier_ok (snd e)) m.
Proof.
  pose proof (input_ok_records _ trials_ok) as Hi. run_aggregate Ha.
  do 3 eexists. split; [exact Hi|split; [exact Ha|exact (aggregate_tiers _ _ _ _ Hi Ha)]].
Defined.

Lemma aggregate_result_wf_witness :
  exists m mn mx, input_ok (map Some trials) /\
    aggregate (read_loop (map Some trials) []) = inl (m, mn, mx) /\
    StdMap.wf m /\ Forall (fun e => snd e <> [] /\ tier_ok (snd e)) m.
Proof.
  pose proof (input_ok_records _ trials_ok) as Hi. run_aggregate Ha.
  do 3 eexists. split; [exact Hi|split; [exact Ha|exact (aggregate_result_wf _ _ _ _ Hi Ha)]].
Defined.

Lemma aggregate_points_witness :
  exists m mn mx pts p,
    aggregate (read_loop (map Some trials) []) = inl (m, mn, mx) /\
    StdMap.find 100%Z m = Some pts /\ In p pts /\
    filter (matches 100 (bitrate p)) trials <> [] /\
    p = process_point (bitrate p) (samples_of (filter (matches 100 (bitrate p)) trials)).
Proof.
  run_aggregate Ha.
  do 5 eexists. split; [exact Ha|split; [reflexivity|split; [left; reflexivity|]]].
  exact (aggregate_points trials _ _ _ 100 _ _ trials_ok Ha eq_refl (or_introl eq_refl)).
Defined.

(** The 10 Mbps bucket has one record: its margins are [0.0]. *)
Lemma aggregate_margins_witness :
  exists m mn mx pts p,
    aggregate (read_loop (map Some trials) []) = inl (m, mn, mx) /\
    StdMap.find 100%Z m = Some pts /\ In p pts /\ bitrate p = 10%float /\
    (length (filter (matches 100 (bitrate p)) trials) < 2)%nat /\
    lossMarginOfError p = 0%float /\ delayMarginOfError p = 0%float /\
    jitterMarginOfError p = 0%float.
Proof.
  run_aggregate Ha.
  do 5 eexists. split; [exact Ha|split; [reflexivity|split; [right; left; reflexivity|]]].
  split; [reflexivity|]. assert (Hl : (length (filter (matches 100 10%float) trials) < 2)%nat)
    by (vm_compute; repeat constructor).
  split; [exact Hl|].
  exact (proj2 (aggregate_margins trials _ _ _ 100 _ _ trials_ok Ha eq_refl
                  (or_intror (or_introl eq_refl))) Hl).
Defined.

Lemma aggregate_range_witness :
  exists m mn mx pts p,
    input_ok (map Some trials) /\
    aggregate (read_loop (map Some trials) []) = inl (m, mn, mx) /\
    StdMap.find 100%Z m = Some pts /\ In p pts /\
    (bitrate p <? mn)%float = false /\ (mx <? bitrate p)%float = false.
Proof.
  pose proof (input_ok_records _ trials_ok) as Hi. run_aggregate Ha.
  do 5 eexists. split; [exact Hi|split; [exact Ha|split; [reflexivity|split; [left; reflexivity|]]]].
  exact (aggregate_range _ _ _ _ 100 _ _ Hi Ha eq_refl (or_introl eq_refl)).
Defined.

Lemma aggregate_min_sentinel_witness :
  exists m mn mx,
    Forall (fun r => bitrate_ok r = true /\ (1e9 <? tempBitrate r)%float = true) fast_trials /\
    aggregate (read_loop (map Some fast_trials) []) = inl (m, mn, mx) /\ mn = 1e9%float.
Proof.
  assert (H : Forall (fun r => bitrate_ok r = true /\ (1e9 <? tempBitrate r)%float = true) fast_trials)
    by (repeat constructor).
  run_aggregate Ha.
  do 3 eexists. split; [exact H|split; [exact Ha|exact (aggregate_min_sentinel _ _ _ _ H Ha)]].
Defined.

End Aggregator.
