(* ===== verification/Selector.v ===== *)
(** * BitrateSelector: the first qualifying point of each tier

    [src/src/plot-results.cc] lines 85-88 (the thresholds), 167-182 (the
    scan of each sorted tier, with [ProcessedPoint bestPoint = {-1, ...}]
    as the "none" value) and 380-398 (the summary, which tells a selected
    point from the sentinel by [result.second.bitrate > 0]).

    The spec's contract is a tagged result, [SelectionResult]: the first
    point of the tier meeting the three thresholds, or an explicit
    "unqualified" carrying the user count.  [select_spec] states it;
    [decode_select] shows the sentinel encoding implements it exactly when
    the qualifying point's bitrate is positive, and [sentinel_conflation]
    that a qualifying point of bitrate [0] is reported as unqualified. *)

From Stdlib Require Import List ZArith Lia Bool Floats Sorted.
From S2P Require Import Prelude Double StdMap Statistics SampleStore Aggregator.
Import ListNotations.
Import Aggregator.

Module BitrateSelector.

(** The QoS thresholds of [main], lines 86-88. *)
Record Thresholds := {
  MAX_DELAY_MS : float;
  MAX_JITTER_MS : float;
  MAX_LOSS_PERCENT : float
}.

Definition main_thresholds : Thresholds :=
  {| MAX_DELAY_MS := 20.0; MAX_JITTER_MS := 8.0; MAX_LOSS_PERCENT := 0.5 |}%float.

(** The condition of line 174. *)
Definition qualifies (th : Thresholds) (point : ProcessedPoint) : bool :=
  (delayMean point <=? MAX_DELAY_MS th)%float &&
  (jitterMean point <=? MAX_JITTER_MS th)%float &&
  (lossMean point <=? MAX_LOSS_PERCENT th)%float.

(** [ProcessedPoint bestPoint = {-1, -1, -1, -1, -1, -1, -1};] *)
Definition sentinel : ProcessedPoint :=
  {| bitrate := -1; lossMean := -1; lossMarginOfError := -1; delayMean := -1;
     delayMarginOfError := -1; jitterMean := -1; jitterMarginOfError := -1 |}%float.

(** Lines 172-180: [bestPoint = point; break;] at the first qualifying point. *)
Fixpoint scan (th : Thresholds) (bestPoint : ProcessedPoint) (points : list ProcessedPoint) : ProcessedPoint :=
  match points with
  | [] => bestPoint
  | point :: rest => if qualifies th point then point else scan th bestPoint rest
  end.

Definition select_tier (th : Thresholds) (points : list ProcessedPoint) : ProcessedPoint :=
  scan th sentinel points.

(** Lines 168-182: [finalResults.push_back({users, bestPoint})] per tier. *)
Definition finalResults (th : Thresholds) (m : ProcessedMap) : list (Z * ProcessedPoint) :=
  fold_left (fun acc e => acc <+ (fst e, select_tier th (snd e))) m [].

(** The spec's tagged result. *)
Inductive SelectionResult :=
| Selected (p : ProcessedPoint)
| Unqualified (users : Z).

(** Specification: the first point meeting the thresholds, if any. *)
Definition select_spec (th : Thresholds) (users : Z) (points : list ProcessedPoint) : SelectionResult :=
  match find (qualifies th) points with
  | Some p => Selected p
  | None => Unqualified users
  end.

(** Line 382: how the summary reads a result. *)
Definition decode (result : Z * ProcessedPoint) : SelectionResult :=
  if (0 <? bitrate (snd result))%float then Selected (snd result) else Unqualified (fst result).

(** ** Lemmas *)

(** Metrics that do not get worse from [a] to [b]. *)
Definition no_worse (a b : ProcessedPoint) : bool :=
  (delayMean b <=? delayMean a)%float && (jitterMean b <=? jitterMean a)%float &&
  (lossMean b <=? lossMean a)%float.

Definition means_nn (p : ProcessedPoint) : Prop :=
  nn (delayMean p) /\ nn (jitterMean p) /\ nn (lossMean p).

Definition thresholds_nn (th : Thresholds) : Prop :=
  nn (MAX_DELAY_MS th) /\ nn (MAX_JITTER_MS th) /\ nn (MAX_LOSS_PERCENT th).

Definition point (b l d j : float) : ProcessedPoint :=
  {| bitrate := b; lossMean := l; lossMarginOfError := 0; delayMean := d;
     delayMarginOfError := 0; jitterMean := j; jitterMarginOfError := 0 |}%float.

(** Spec scenario A: delay 25 ms at 5 Mbps, 15 ms at 10 Mbps. *)
Definition tierA : list ProcessedPoint := [point 5 0.1 25 6; point 10 0.1 15 4]%float.
(** Spec scenario B: every point loses 1%. *)
Definition tierB : list ProcessedPoint := [point 5 1.0 10 2; point 10 1.0 9 2]%float.

Lemma scan_find th best points :
  scan th best points = match find (qualifies th) points with Some p => p | None => best end.
Proof.
  induction points as [|q points IH]; simpl; auto. now destruct (qualifies th q).
Qed.

Lemma finalResults_map th m :
  finalResults th m = map (fun e => (fst e, select_tier th (snd e))) m.
Proof.
  unfold finalResults. change (map (fun e => (fst e, select_tier th (snd e))) m)
    with ([] ++ map (fun e => (fst e, select_tier th (snd e))) m).
  generalize (@nil (Z * ProcessedPoint)). induction m as [|e m IH]; intros acc; simpl.
  - now rewrite app_nil_r.
  - rewrite IH. unfold push_back. now rewrite <- app_assoc.
Qed.

Lemma find_In_qualifies th points p :
  find (qualifies th) points = Some p -> In p points /\ qualifies th p = true.
Proof.
  intros H. destruct (find_first _ _ _ H) as (pre & post & -> & Hq & _).
  split; auto. apply in_or_app. right. left. reflexivity.
Qed.

(** A result of the scan that is not the sentinel is the first qualifying point. *)
Lemma select_tier_found th points p :
  select_tier th points = p -> (0 <? bitrate p)%float = true ->
  find (qualifies th) points = Some p.
Proof.
  unfold select_tier. rewrite scan_find. intros Hs Hp.
  destruct (find (qualifies th) points); [now subst|subst; discriminate].
Qed.

(** ** Theorems *)

(** C5: refinement of the tagged contract.  On a tier whose bitrates are
    all positive, the sentinel encoding as the summary reads it is exactly
    [select_spec]: the first qualifying point, or "unqualified". *)
Theorem decode_select th users points :
  Forall (fun p => (0 <? bitrate p)%float = true) points ->
  decode (users, select_tier th points) = select_spec th users points.
Proof.
  intros Hpos. unfold decode, select_tier, select_spec. simpl. rewrite scan_find.
  destruct (find (qualifies th) points) as [p|] eqn:E; [|reflexivity].
  apply find_In_qualifies in E as [Hin _]. rewrite Forall_forall in Hpos. now rewrite Hpos.
Qed.

(** C6: the selected point is the minimum qualifying bitrate of a strictly
    ascending tier: it is in the tier, meets the thresholds, and no
    qualifying point of the tier has a smaller bitrate. *)
Theorem select_minimal th points p :
  tier_ok points -> select_tier th points = p -> (0 <? bitrate p)%float = true ->
  In p points /\ qualifies th p = true /\
  forall q, In q points -> qualifies th q = true -> (bitrate q <? bitrate p)%float = false.
Proof.
  intros [Hnn Hs] Hsel Hpos. pose proof (select_tier_found _ _ _ Hsel Hpos) as E.
  destruct (find_first _ _ _ E) as (pre & post & -> & Hq & Hpre).
  split; [apply in_or_app; right; left; reflexivity|split; [exact Hq|]].
  intros q Hin Hqq. apply StronglySorted_app_inv in Hs as (_ & Hs & Hcross).
  apply in_app_or in Hin as [Hin|[<-|Hin]].
  - rewrite Forall_forall in Hpre. specialize (Hpre q Hin). congruence.
  - apply ltb_irrefl.
  - apply StronglySorted_inv in Hs as [_ Hf]. rewrite Forall_forall in Hf, Hnn.
    apply bitrate_lt_asym; auto using in_or_app, in_eq, in_cons.
Qed.

(** C13: the sentinel conflates: when the first qualifying point of a tier
    has a bitrate that is not positive (a measured [0] Mbps, or a negative
    value the input format accepts), the summary reports the tier as having
    no qualifying bitrate, although [select_spec] selects that point. *)
Theorem sentinel_conflation th users points p :
  select_spec th users points = Selected p -> (0 <? bitrate p)%float = false ->
  decode (users, select_tier th points) = Unqualified users.
Proof.
  unfold select_spec, decode, select_tier. simpl. rewrite scan_find. intros Hsel Hp.
  destruct (find (qualifies th) points); [injection Hsel as <-; now rewrite Hp|discriminate].
Qed.

Lemma qualifies_no_worse th a b :
  thresholds_nn th -> means_nn a -> means_nn b ->
  no_worse a b = true -> qualifies th a = true -> qualifies th b = true.
Proof.
  intros (Hd & Hj & Hl) (Ad & Aj & Al) (Bd & Bj & Bl) Hab Ha.
  unfold no_worse, qualifies in *. bool_simpl.
  - apply (leb_trans _ (delayMean a)); auto.
  - apply (leb_trans _ (jitterMean a)); auto.
  - apply (leb_trans _ (lossMean a)); auto.
Qed.

(** The spec's open question on monotonicity, answered for the code:
    when every metric is non-increasing along the tier, the first-match
    scan splits the tier into failing points before the selected one and
    qualifying points from it on. *)
Theorem select_monotone th points p :
  thresholds_nn th -> Forall means_nn points ->
  StronglySorted (fun a b => no_worse a b = true) points ->
  select_tier th points = p -> (0 <? bitrate p)%float = true ->
  exists pre post, points = pre ++ p :: post /\
    Forall (fun q => qualifies th q = false) pre /\ Forall (fun q => qualifies th q = true) post.
Proof.
  intros Hth Hnn Hs Hsel Hpos. pose proof (select_tier_found _ _ _ Hsel Hpos) as E.
  destruct (find_first _ _ _ E) as (pre & post & -> & Hq & Hpre).
  exists pre, post. split; [reflexivity|split; [exact Hpre|]].
  apply StronglySorted_app_inv in Hs as (_ & Hs & _). apply StronglySorted_inv in Hs as [_ Hf].
  rewrite Forall_forall in *. intros q Hin.
  apply (qualifies_no_worse th p q); auto using in_or_app, in_eq, in_cons.
Qed.

(** ** Witnesses *)

Lemma decode_select_witness :
  Forall (fun p => (0 <? bitrate p)%float = true) tierA /\
  Forall (fun p => (0 <? bitrate p)%float = true) tierB /\
  decode (100%Z, select_tier main_thresholds tierA) = Selected (point 10 0.1 15 4)%float /\
  decode (200%Z, select_tier main_thresholds tierB) = Unqualified 200%Z.
Proof.
  assert (HA : Forall (fun p => (0 <? bitrate p)%float = true) tierA) by repeat constructor.
  assert (HB : Forall (fun p => (0 <? bitrate p)%float = true) tierB) by repeat constructor.
  split; [exact HA|split; [exact HB|split]].
  - rewrite (decode_select _ _ _ HA). reflexivity.
  - rewrite (decode_select _ _ _ HB). reflexivity.
Defined.

Lemma select_minimal_witness :
  tier_ok tierA /\ select_tier main_thresholds tierA = (point 10 0.1 15 4)%float /\
  (0 <? bitrate (point 10 0.1 15 4))%float = true /\
  In (point 10 0.1 15 4)%float tierA /\ qualifies main_thresholds (point 10 0.1 15 4)%float = true /\
  forall q, In q tierA -> qualifies main_thresholds q = true ->
    (bitrate q <? bitrate (point 10 0.1 15 4))%float = false.
Proof.
  assert (Ht : tier_ok tierA) by (split; repeat constructor).
  assert (Hs : select_tier main_thresholds tierA = (point 10 0.1 15 4)%float) by reflexivity.
  assert (Hp : (0 <? bitrate (point 10 0.1 15 4))%float = true) by reflexivity.
  split; [exact Ht|split; [exact Hs|split; [exact Hp|exact (select_minimal _ _ _ Ht Hs Hp)]]].
Defined.

(** A tier measured at 0 Mbps that meets every threshold. *)
Lemma sentinel_conflation_witness :
  select_spec main_thresholds 100%Z [point 0 0 1 1]%float = Selected (point 0 0 1 1)%float /\
  (0 <? bitrate (point 0 0 1 1))%float = false /\
  decode (100%Z, select_tier main_thresholds [point 0 0 1 1]%float) = Unqualified 100%Z.
Proof.
  assert (Hs : select_spec main_thresholds 100%Z [point 0 0 1 1]%float = Selected (point 0 0 1 1)%float)
    by reflexivity.
  assert (Hz : (0 <? bitrate (point 0 0 1 1))%float = false) by reflexivity.
  split; [exact Hs|split; [exact Hz|exact (sentinel_conflation _ _ _ _ Hs Hz)]].
Defined.

Lemma select_monotone_witness :
  thresholds_nn main_thresholds /\ Forall means_nn tierA /\
  StronglySorted (fun a b => no_worse a b = true) tierA /\
  select_tier main_thresholds tierA = (point 10 0.1 15 4)%float /\
  (0 <? bitrate (point 10 0.1 15 4))%float = true /\
  exists pre post, tierA = pre ++ point 10 0.1 15 4 :: post /\
    Forall (fun q => qualifies main_thresholds q = false) pre /\
    Forall (fun q => qualifies main_thresholds q = true) post.
Proof.
  assert (H1 : thresholds_nn main_thresholds) by (repeat split).
  assert (H2 : Forall means_nn tierA) by (repeat constructor).
  assert (H3 : StronglySorted (fun a b => no_worse a b = true) tierA) by (repeat constructor).
  assert (H4 : select_tier main_thresholds tierA = (point 10 0.1 15 4)%float) by reflexivity.
  assert (H5 : (0 <? bitrate (point 10 0.1 15 4))%float = true) by reflexivity.
  split; [exact H1|split; [exact H2|split; [exact H3|split; [exact H4|split; [exact H5|]]]]].
  exact (select_monotone _ _ _ H1 H2 H3 H4 H5).
Defined.

End BitrateSelector.
