(* ===== verification/Exporter.v ===== *)
(** * ResultExporter: the statistics table and the decision summary

    [src/src/plot-results.cc] lines 184-200 write [sim_precision.dat]: a
    header and one comma-separated row per processed point of every tier,
    in the map's order.  Lines 372-424 print the decision summary: per
    result of [finalResults], either the minimum bitrate with its latency
    (and a point of the final plot) or a warning, then the final plot only
    when some tier had a qualifying bitrate.

    The text of a number is libstdc++'s [operator<<]; it is a parameter
    here ([show_int], [show_double] under the stream's floating format),
    so the theorems hold for any formatter with the stated properties.
    [std::fixed << std::setprecision(2)] changes the state of [std::cout]
    for the rest of the run; the summary threads that state. *)

From Stdlib Require Import List ZArith Lia Bool Floats String Ascii.
From S2P Require Import Prelude Double StdMap Statistics SampleStore Aggregator Selector.
Import ListNotations.
Import Aggregator BitrateSelector.
Local Open Scope string_scope.

Module ResultExporter.

(** The floating-point format flags of an output stream. *)
Inductive FloatFormat :=
| DefaultFloat   (** the initial flags: 6 significant digits *)
| Fixed2         (** after [std::fixed << std::setprecision(2)] *)
| Fixed1.        (** after [std::fixed << std::setprecision(1)] (line 285) *)

Definition nl : string := String (ascii_of_nat 10) EmptyString.
Definition comma : string := ",".

(** *** A concrete formatter *)

(** A formatter whose text names the format it was printed in, enough to
    see which flags the stream had. *)
Definition tag_int (z : Z) : string := if (z <? 0)%Z then "-n" else "n".
Definition tag_double (f : FloatFormat) (x : float) : string :=
  match f with DefaultFloat => "g" | Fixed2 => "f2" | Fixed1 => "f1" end.

Definition sample_point (b : float) : ProcessedPoint :=
  {| bitrate := b; lossMean := 0; lossMarginOfError := 0; delayMean := 40;
     delayMarginOfError := 1; jitterMean := 3; jitterMarginOfError := 0.5 |}.

Section Exporter.

Variable show_int : Z -> string.
Variable show_double : FloatFormat -> float -> string.

(** Line 186-187. *)
Definition header : string :=
  "Usuarios,Bitrate,LatenciaMedia,LatenciaError95,JitterMedio,JitterError95,PerdidaMedia,PerdidaError95" ++ nl.

(** Lines 192-195: the columns in the order the source writes them. *)
Definition row_fields (users : Z) (p : ProcessedPoint) : list string :=
  [show_int users; show_double DefaultFloat (bitrate p);
   show_double DefaultFloat (delayMean p); show_double DefaultFloat (delayMarginOfError p);
   show_double DefaultFloat (jitterMean p); show_double DefaultFloat (jitterMarginOfError p);
   show_double DefaultFloat (lossMean p); show_double DefaultFloat (lossMarginOfError p)].

Fixpoint join (sep : string) (l : list string) : string :=
  match l with
  | [] => ""
  | [x] => x
  | x :: l' => x ++ sep ++ join sep l'
  end.

Definition csv_row (users : Z) (p : ProcessedPoint) : string := join comma (row_fields users p) ++ nl.

(** Lines 185-198: the whole file. *)
Definition summary_file (m : ProcessedMap) : string :=
  header ++ concat "" (map (fun e => concat "" (map (csv_row (fst e)) (snd e))) m).

(** *** The console summary *)

Inductive SummaryLine :=
| LineMin (users : Z) (bitrate_txt delay_txt margin_txt : string)  (** "Para U usuarios, Bitrate Min: ..." *)
| LineNone (users : Z).                                            (** "Aviso: Para U usuarios, ..." *)

Record SummaryState := {
  finalDataset : list (Z * float);
  validResultsCount : Z;
  coutFormat : FloatFormat;
  coutLines : list SummaryLine
}.

(** Lines 380-398: one iteration; the bitrate is printed under the stream's
    current format, then [std::fixed << std::setprecision(2)] takes effect
    for the latency and stays. *)
Definition summary_step (st : SummaryState) (result : Z * ProcessedPoint) : SummaryState :=
  let '(users, p) := result in
  if (0 <? bitrate p)%float then
    {| finalDataset := finalDataset st <+ (users, bitrate p);
       validResultsCount := validResultsCount st + 1;
       coutFormat := Fixed2;
       coutLines := coutLines st <+ LineMin users (show_double (coutFormat st) (bitrate p))
                      (show_double Fixed2 (delayMean p)) (show_double Fixed2 (delayMarginOfError p)) |}
  else
    {| finalDataset := finalDataset st; validResultsCount := validResultsCount st;
       coutFormat := coutFormat st; coutLines := coutLines st <+ LineNone users |}.

Definition summary (results : list (Z * ProcessedPoint)) : SummaryState :=
  fold_left summary_step results
    {| finalDataset := []; validResultsCount := 0; coutFormat := DefaultFloat; coutLines := [] |}.

(** Line 401: the final plot is generated only with a valid result. *)
Definition final_plot_generated (st : SummaryState) : bool := (0 <? validResultsCount st)%Z.

(** The summary as the spec's decision table reads it, with the format of
    the stream: [fmt] until the first valid line, [Fixed2] after it. *)
Fixpoint lines_ref (fmt : FloatFormat) (rs : list (Z * ProcessedPoint)) : list SummaryLine :=
  match rs with
  | [] => []
  | r :: rs' =>
      match decode r with
      | Selected p =>
          LineMin (fst r) (show_double fmt (bitrate p)) (show_double Fixed2 (delayMean p))
            (show_double Fixed2 (delayMarginOfError p)) :: lines_ref Fixed2 rs'
      | Unqualified u => LineNone u :: lines_ref fmt rs'
      end
  end.

(** A result the summary reports as a selected point (line 382). *)
Definition valid (r : Z * ProcessedPoint) : bool := (0 <? bitrate (snd r))%float.

(** *** Reading the table back *)

Fixpoint has_char (c : ascii) (s : string) : bool :=
  match s with
  | EmptyString => false
  | String a s' => Ascii.eqb a c || has_char c s'
  end.

(** Split at every [c]; a string without [c] is one field. *)
Fixpoint split_on (c : ascii) (s : string) : list string :=
  match s with
  | EmptyString => [""]
  | String a s' =>
      if Ascii.eqb a c then "" :: split_on c s'
      else match split_on c s' with
           | [] => [String a ""]
           | x :: r => String a x :: r
           end
  end.

Definition nl_char : ascii := ascii_of_nat 10.

(** The records of a file whose lines all end with a newline, split into fields. *)
Definition parse_table (s : string) : list (list string) :=
  map (split_on ","%char) (removelast (split_on nl_char s)).

Definition header_fields : list string :=
  ["Usuarios"; "Bitrate"; "LatenciaMedia"; "LatenciaError95"; "JitterMedio"; "JitterError95";
   "PerdidaMedia"; "PerdidaError95"].

(** A formatter whose texts hold no comma and no newline. *)
Definition plain (t : string) : Prop := has_char ","%char t = false /\ has_char nl_char t = false.

(** The rows of the file, without their newlines. *)
Definition rows_text (m : ProcessedMap) : list string :=
  List.concat (map (fun e => map (fun p => join comma (row_fields (fst e) p)) (snd e)) m).

Lemma string_app_nil_r (s : string) : s ++ "" = s.
Proof. induction s as [|a s IH]; simpl; congruence. Qed.

Lemma string_app_assoc (x y z : string) : (x ++ y) ++ z = x ++ (y ++ z).
Proof. induction x as [|a x IH]; simpl; congruence. Qed.

Lemma has_char_app c x y : has_char c (x ++ y) = has_char c x || has_char c y.
Proof. induction x as [|a x IH]; simpl; auto. now rewrite IH, orb_assoc. Qed.

Lemma split_on_not_nil c s : split_on c s <> [].
Proof.
  induction s as [|a s IH]; simpl; [discriminate|].
  destruct (Ascii.eqb a c); [discriminate|]. destruct (split_on c s); discriminate.
Qed.

Lemma split_on_app c x y :
  has_char c x = false ->
  split_on c (x ++ y) = match split_on c y with h :: t => (x ++ h) :: t | [] => [] end.
Proof.
  induction x as [|a x IH]; simpl; intros Hx.
  - destruct (split_on c y); reflexivity.
  - apply orb_false_iff in Hx as [Ha Hx]. rewrite Ha, IH by exact Hx.
    destruct (split_on c y) as [|h t] eqn:E; [now apply split_on_not_nil in E|reflexivity].
Qed.

Lemma split_on_sep c x y :
  has_char c x = false -> split_on c (x ++ String c y) = x :: split_on c y.
Proof.
  intros Hx. rewrite split_on_app by exact Hx. simpl. rewrite Ascii.eqb_refl.
  now rewrite string_app_nil_r.
Qed.

Lemma split_on_free c x : has_char c x = false -> split_on c x = [x].
Proof. intros Hx. rewrite <- (string_app_nil_r x), split_on_app by exact Hx. reflexivity. Qed.

Lemma join_split c fields :
  Forall (fun f => has_char c f = false) fields -> fields <> [] ->
  split_on c (join (String c "") fields) = fields.
Proof.
  induction fields as [|x [|y l] IH]; intros Hf Hne; [congruence| |].
  - inv Hf. now apply split_on_free.
  - inv Hf. change (join (String c "") (x :: y :: l)) with (x ++ String c "" ++ join (String c "") (y :: l)).
    simpl. rewrite split_on_sep by assumption. f_equal. apply IH; auto. discriminate.
Qed.

Lemma has_char_join c sep l :
  has_char c sep = false -> Forall (fun f => has_char c f = false) l -> has_char c (join sep l) = false.
Proof.
  intros Hs. induction 1 as [|x l Hx Hl IH]; simpl; auto.
  destruct l; auto. rewrite !has_char_app, Hx, Hs, IH. reflexivity.
Qed.

Lemma concat_empty_cons (a : string) l : String.concat "" (a :: l) = a ++ String.concat "" l.
Proof. destruct l; simpl; [now rewrite string_app_nil_r|reflexivity]. Qed.

Lemma concat_empty_app (l1 l2 : list string) :
  String.concat "" (l1 ++ l2) = String.concat "" l1 ++ String.concat "" l2.
Proof.
  induction l1 as [|a l1 IH]; [reflexivity|].
  rewrite <- app_comm_cons, !concat_empty_cons, IH. symmetry. apply string_app_assoc.
Qed.

(** Lines that hold no newline, each written with its newline, read back. *)
Lemma split_lines ls :
  Forall (fun x => has_char nl_char x = false) ls ->
  split_on nl_char (String.concat "" (map (fun x => x ++ nl) ls)) = (ls ++ [""])%list.
Proof.
  induction 1 as [|x ls Hx Hls IH]; [reflexivity|].
  simpl map. rewrite concat_empty_cons, string_app_assoc.
  change (nl ++ ?y) with (String nl_char y).
  rewrite split_on_sep by exact Hx. now rewrite IH.
Qed.

(** The file is its header and then its rows, each with its newline. *)
Lemma summary_file_lines m :
  summary_file m = String.concat "" (map (fun x => x ++ nl) (join comma header_fields :: rows_text m)).
Proof.
  unfold summary_file, rows_text. simpl map. rewrite concat_empty_cons. f_equal.
  induction m as [|[u pts] m IH]; [reflexivity|]. cbn [map List.concat fst snd].
  rewrite concat_empty_cons, map_app, concat_empty_app, IH, map_map. reflexivity.
Qed.

Lemma row_fields_plain u p :
  (forall z, plain (show_int z)) -> (forall f x, plain (show_double f x)) ->
  Forall plain (row_fields u p).
Proof. intros Hi Hd. repeat constructor; apply Hi || apply Hd. Qed.

(** C27: the statistics table reads back: split into lines and at the
    commas, [sim_precision.dat] is the header's eight column names and
    then, for every tier in the map's order and every point of it in
    order, the user count and the seven numbers in the header's order
    (bitrate, delay, jitter, loss, each mean before its margin). *)
Theorem csv_roundtrip m :
  (forall z, plain (show_int z)) -> (forall f x, plain (show_double f x)) ->
  parse_table (summary_file m) =
    header_fields :: List.concat (map (fun e => map (row_fields (fst e)) (snd e)) m).
Proof.
  intros Hi Hd. unfold parse_table. rewrite summary_file_lines, split_lines.
  - rewrite removelast_last. cbn [map]. f_equal. unfold rows_text.
    rewrite concat_map, map_map. f_equal. apply map_ext. intros [u pts]. cbn [fst snd].
    rewrite map_map. apply map_ext. intros p. apply join_split; [|discriminate].
    generalize (row_fields_plain u p Hi Hd). apply Forall_impl. now intros t [Hc _].
  - constructor; [reflexivity|]. unfold rows_text. apply Forall_forall. intros x Hx.
    apply in_concat in Hx as (l & Hl & Hx). apply in_map_iff in Hl as ([u pts] & <- & _).
    apply in_map_iff in Hx as (p & <- & _). apply has_char_join; [reflexivity|].
    generalize (row_fields_plain u p Hi Hd). apply Forall_impl. now intros t [_ Hn].
Qed.

(** *** The console summary *)

Lemma summary_fold_lines rs st :
  coutLines (fold_left summary_step rs st) = (coutLines st ++ lines_ref (coutFormat st) rs)%list.
Proof.
  revert st. induction rs as [|[u p] rs IH]; intros st; simpl; [now rewrite app_nil_r|].
  rewrite IH. unfold decode. simpl. destruct (0 <? bitrate p)%float; simpl;
    unfold push_back; now rewrite <- app_assoc.
Qed.

(** C28: the summary prints, per tier in order, the minimum bitrate line
    exactly when the decoded result is a selected point and the warning
    otherwise; the bitrate of the first such line is printed in the
    stream's default format and every later one under the [std::fixed]
    and [setprecision(2)] the first line left on [std::cout]. *)
Theorem summary_lines rs : coutLines (summary rs) = lines_ref DefaultFloat rs.
Proof. unfold summary. now rewrite summary_fold_lines. Qed.

Lemma summary_fold_count rs st :
  finalDataset (fold_left summary_step rs st) =
    (finalDataset st ++ map (fun r => (fst r, bitrate (snd r))) (filter valid rs))%list /\
  validResultsCount (fold_left summary_step rs st) =
    (validResultsCount st + Z.of_nat (List.length (filter valid rs)))%Z.
Proof.
  revert st. induction rs as [|[u p] rs IH]; intros st; simpl; [split; [now rewrite app_nil_r|lia]|].
  destruct (valid (u, p)) eqn:V; unfold valid in V; simpl in V; rewrite V;
    rewrite (proj1 (IH _)), (proj2 (IH _)); simpl.
  - unfold push_back. rewrite <- app_assoc. split; [reflexivity|lia].
  - auto.
Qed.

Lemma existsb_filter_length {A} (f : A -> bool) l :
  existsb f l = (0 <? List.length (filter f l))%nat.
Proof. induction l as [|a l IH]; simpl; [reflexivity|]. destruct (f a); simpl; auto. Qed.

(** The final plot holds one point [(users, bitrate)] per tier whose
    result has a positive bitrate, in order; [validResultsCount] is their
    number, and the final plot is generated exactly when there is one. *)
Theorem summary_count rs :
  finalDataset (summary rs) = map (fun r => (fst r, bitrate (snd r))) (filter valid rs) /\
  validResultsCount (summary rs) = Z.of_nat (List.length (filter valid rs)) /\
  final_plot_generated (summary rs) = existsb valid rs.
Proof.
  unfold summary, final_plot_generated. destruct (summary_fold_count rs
    {| finalDataset := []; validResultsCount := 0; coutFormat := DefaultFloat; coutLines := [] |})
    as [-> ->]. split; [reflexivity|split; [reflexivity|]]. simpl.
  rewrite existsb_filter_length. now destruct (List.length (filter valid rs)).
Qed.

End Exporter.

Lemma csv_roundtrip_witness :
  (forall z, plain (tag_int z)) /\ (forall f x, plain (tag_double f x)) /\
  parse_table (summary_file tag_int tag_double [(100%Z, [sample_point 8e6; sample_point 1e7])]) =
    header_fields :: List.concat (map (fun e => map (row_fields tag_int tag_double (fst e)) (snd e))
                                      [(100%Z, [sample_point 8e6; sample_point 1e7])]).
Proof.
  assert (Hi : forall z, plain (tag_int z))
    by (intros z; unfold plain, tag_int; destruct (z <? 0)%Z; split; reflexivity).
  assert (Hd : forall f x, plain (tag_double f x)) by (intros [] x; split; reflexivity).
  refine (conj Hi (conj Hd _)). apply (csv_roundtrip tag_int tag_double _ Hi Hd).
Defined.

(** Two valid tiers: the second bitrate is printed with two decimals, the
    first with the stream's default format. *)
Example summary_format_leak :
  coutLines (summary tag_double [(100%Z, sample_point 8e6); (150%Z, sample_point 1e7)]) =
    [LineMin 100 "g" "f2" "f2"; LineMin 150 "f2" "f2" "f2"].
Proof. reflexivity. Qed.

End ResultExporter.
