(* ===== verification/Simulation.v ===== *)
(** * OnOffRouting: the arithmetic of one simulation run

    [src/src/onoffRouting.cc] builds an ns-3 network for [num_usuarios]
    users and appends one record to [results.dat].  The network itself
    (nodes, links, routing, applications, the simulator) is ns-3's and is
    not modelled; what the program computes around it is:
    - the split of the users into two regions and three video classes,
      [uint32_t numValFHD = num_usuarios * 0.7 * 0.7;] and five more
      (lines 70-75): a [uint32_t] converted to [double], two products
      rounded to binary64, and the conversion back to [uint32_t], which
      truncates toward zero and is undefined when the result does not fit;
    - the three source loops per region,
      [for (uint32_t i = 0; i < (numValFHD * 0.4); ++i, ++user_idx)]
      (lines 170-172 and 181-183), each creating one source towards the
      user address [GetAddress(user_idx + 1)], with on-time distribution
      [onTimeList[i % 2]] and the class's constant rate;
    - the summary of the flow monitor's statistics (lines 196-206) and the
      record written to [results.dat] (lines 208-210).
    The loops run over a [double] bound, so their termination and their
    number of iterations are theorems about binary64 rounding; the
    statements for every user count are checked exhaustively up to
    [max_users] by evaluation. *)

From Stdlib Require Import String Ascii List ZArith Lia Bool Floats SpecFloat.
From S2P Require Import Prelude Double SampleStore.
Import ListNotations.
Import SampleStore.

Module OnOffRouting.

(** ** Integer conversions of the simulation *)

Definition UINT32_MOD : Z := 4294967296. (* 2^32 *)

(** Unsigned arithmetic wraps modulo 2^32. *)
Definition uint32_wrap (z : Z) : Z := z mod UINT32_MOD.

(** [uint32_t] to [double]: exact, every [uint32_t] is a binary64 value. *)
Definition double_of_uint32 (n : Z) : float := PrimFloat.of_uint63 (Uint63.of_Z n).

(** The integer part of a finite double, truncated toward zero. *)
Definition trunc (x : float) : option Z :=
  match Prim2SF x with
  | S754_zero _ => Some 0%Z
  | S754_finite s m e =>
      let a := if (0 <=? e)%Z then Z.shiftl (Zpos m) e else Z.shiftr (Zpos m) (- e) in
      Some (if s then (- a)%Z else a)
  | _ => None
  end.

(** [double] to [uint32_t] ([conv.fpint]): truncation, undefined (here
    [None]) when the truncated value is not in [0, 2^32). *)
Definition uint32_of_double (x : float) : option Z :=
  match trunc x with
  | Some z => if ((0 <=? z) && (z <? UINT32_MOD))%Z then Some z else None
  | None => None
  end.

(** ** The user split, lines 70-75 *)

Record UserSplit := {
  numValFHD : Z; numValHD : Z; numValSD : Z;
  numBalFHD : Z; numBalHD : Z; numBalSD : Z
}.

Definition user_split (num_usuarios : Z) : option UserSplit :=
  let u := double_of_uint32 num_usuarios in
  match uint32_of_double (u * 0.7 * 0.7)%float, uint32_of_double (u * 0.2 * 0.7)%float,
        uint32_of_double (u * 0.1 * 0.7)%float, uint32_of_double (u * 0.7 * 0.3)%float,
        uint32_of_double (u * 0.2 * 0.3)%float, uint32_of_double (u * 0.1 * 0.3)%float with
  | Some vf, Some vh, Some vs, Some bf, Some bh, Some bs =>
      Some {| numValFHD := vf; numValHD := vh; numValSD := vs;
              numBalFHD := bf; numBalHD := bh; numBalSD := bs |}
  | _, _, _, _, _, _ => None
  end.

(** Lines 76-77. *)
Definition num_usuarios_valencia (s : UserSplit) : Z :=
  uint32_wrap (numValFHD s + numValHD s + numValSD s).
Definition num_usuarios_baleares (s : UserSplit) : Z :=
  uint32_wrap (numBalFHD s + numBalHD s + numBalSD s).

(** The split of the spec's proportions (70/20/10 and 70/30) on the
    integers: what the products mean, rounded down exactly. *)
Definition exact_split (n : Z) : UserSplit :=
  {| numValFHD := n * 49 / 100; numValHD := n * 14 / 100; numValSD := n * 7 / 100;
     numBalFHD := n * 21 / 100; numBalHD := n * 6 / 100; numBalSD := n * 3 / 100 |}.

Definition simulated_users (s : UserSplit) : Z :=
  num_usuarios_valencia s + num_usuarios_baleares s.

(** Every class of [s] is at least 0 and at most that of [e]. *)
Definition split_le (s e : UserSplit) : Prop :=
  (0 <= numValFHD s <= numValFHD e /\ 0 <= numValHD s <= numValHD e /\
   0 <= numValSD s <= numValSD e /\ 0 <= numBalFHD s <= numBalFHD e /\
   0 <= numBalHD s <= numBalHD e /\ 0 <= numBalSD s <= numBalSD e)%Z.

(** ** The source loops, lines 164-185 *)

Inductive VideoClass := FHD | HD | SD.

(** [h.SetConstantRate(DataRate("800kb/s"))] and the like, in kb/s. *)
Definition class_rate (c : VideoClass) : Z :=
  match c with FHD => 800 | HD => 500 | SD => 200 end.

(** One [OnOffHelper] installed on the server: the index of the user
    address it sends to ([GetAddress(user_idx + 1)]), the port, the index
    into [onTimeList] ([i % 2]) and the rate. *)
Record Source := {
  dest_index : Z;
  dest_port : Z;
  on_time : Z;
  rate_kbps : Z
}.

(** [(numValFHD * 0.4)]: the loop bound, a [double]. *)
Definition loop_bound (c : Z) : float := (double_of_uint32 c * 0.4)%float.

(** [for (uint32_t i = i0; i < bound; ++i, ++user_idx) { ... }], from the
    current [user_idx]; it returns the sources and the final [user_idx].
    The fuel bounds the iterations of the model only: [class_loop_count]
    shows that [S c] is enough for the bound of a class of [c] users. *)
Fixpoint class_loop (fuel : nat) (bound : float) (cls : VideoClass) (port i user_idx : Z)
  : option (list Source * Z) :=
  match fuel with
  | O => None
  | S f =>
      if (double_of_uint32 i <? bound)%float then
        let src := {| dest_index := uint32_wrap (user_idx + 1); dest_port := port;
                      on_time := i mod 2; rate_kbps := class_rate cls |} in
        match class_loop f bound cls port (uint32_wrap (i + 1)) (uint32_wrap (user_idx + 1)) with
        | Some (l, u) => Some (src :: l, u)
        | None => None
        end
      else Some ([], user_idx)
  end.

Definition loop_fuel (c : Z) : nat := S (Z.to_nat c).

(** One region (lines 164-173 for Valencia, 175-184 for Baleares): the
    three loops share [user_idx] from 0, under [if (num_usuarios_x > 0)]. *)
Definition region_sources (port n cf ch cs : Z) : option (list Source) :=
  if (0 <? n)%Z then
    match class_loop (loop_fuel cf) (loop_bound cf) FHD port 0 0 with
    | Some (l1, u1) =>
        match class_loop (loop_fuel ch) (loop_bound ch) HD port 0 u1 with
        | Some (l2, u2) =>
            match class_loop (loop_fuel cs) (loop_bound cs) SD port 0 u2 with
            | Some (l3, _) => Some (l1 ++ l2 ++ l3)
            | None => None
            end
        | None => None
        end
    | None => None
    end
  else Some [].

Definition valencia_sources (s : UserSplit) : option (list Source) :=
  region_sources 9 (num_usuarios_valencia s) (numValFHD s) (numValHD s) (numValSD s).

Definition baleares_sources (s : UserSplit) : option (list Source) :=
  region_sources 10 (num_usuarios_baleares s) (numBalFHD s) (numBalHD s) (numBalSD s).

(** The [n] sources a loop creates from [i] and [user_idx] when nothing
    wraps: consecutive addresses, alternating on-time distributions. *)
Fixpoint sources_from (cls : VideoClass) (port i u : Z) (n : nat) : list Source :=
  match n with
  | O => []
  | S n' => {| dest_index := u + 1; dest_port := port; on_time := i mod 2;
               rate_kbps := class_rate cls |} :: sources_from cls port (i + 1) (u + 1) n'
  end.

(** ** The flow statistics, lines 196-204 *)

(** The fields of ns-3's [FlowMonitor::FlowStats] the loop reads: three
    [uint32_t] counters and two [Time] sums, as [GetSeconds()] returns
    them. *)
Record FlowStats := {
  txPackets : Z;
  rxPackets : Z;
  lostPackets : Z;
  delaySum : float;
  jitterSum : float
}.

(** The state of the loop: the values given to [avgDelay.Update] and
    [avgJitter.Update], in order, and the two [double] totals. *)
Record FlowSummary := {
  delayUpdates : list float;
  jitterUpdates : list float;
  totalTxPackets : float;
  totalLostPackets : float
}.

Definition flow_summary0 : FlowSummary :=
  {| delayUpdates := []; jitterUpdates := []; totalTxPackets := 0; totalLostPackets := 0 |}.

(** [(flowStats.delaySum.GetSeconds() / flowStats.rxPackets) * 1000] *)
Definition flow_delay (f : FlowStats) : float :=
  (delaySum f / double_of_uint32 (rxPackets f) * 1000)%float.

(** [flowStats.jitterSum.GetSeconds() / (flowStats.rxPackets - 1) * 1000],
    the subtraction in [uint32_t]. *)
Definition flow_jitter (f : FlowStats) : float :=
  (jitterSum f / double_of_uint32 (uint32_wrap (rxPackets f - 1)) * 1000)%float.

(** The body of [for (auto const& [flowId, flowStats] : flowmon->GetFlowStats())]. *)
Definition flow_step (st : FlowSummary) (f : FlowStats) : FlowSummary :=
  if (10 <? txPackets f)%Z then
    {| totalTxPackets := (totalTxPackets st + double_of_uint32 (txPackets f))%float;
       totalLostPackets := (totalLostPackets st + double_of_uint32 (lostPackets f))%float;
       delayUpdates := if (0 <? rxPackets f)%Z then delayUpdates st <+ flow_delay f else delayUpdates st;
       jitterUpdates := if (1 <? rxPackets f)%Z then jitterUpdates st <+ flow_jitter f else jitterUpdates st |}
  else st.

(** The flows in the order of the monitor's [std::map<FlowId, FlowStats>]. *)
Definition flow_summary (flows : list FlowStats) : FlowSummary :=
  fold_left flow_step flows flow_summary0.

(** Line 206. *)
Definition lossRatio (st : FlowSummary) : float :=
  if (0 <? totalTxPackets st)%float then (totalLostPackets st / totalTxPackets st * 100)%float else 0%float.

Section RunRecord.

(** [ns3::Average<double>::Mean()] after the given updates: a library
    function, not modelled. *)
Variable average_mean : list float -> float.

(** Lines 208-210: the record appended to [results.dat], in the field
    order that [plot-results]'s read loop extracts. *)
Definition run_record (num_usuarios : Z) (bitrate_val : float) (flows : list FlowStats) : RawSample :=
  let st := flow_summary flows in
  {| numUsers := num_usuarios; tempBitrate := bitrate_val; tempLoss := lossRatio st;
     tempDelay := average_mean (delayUpdates st); tempJitter := average_mean (jitterUpdates st) |}.

End RunRecord.

(** ** The bitrate of the record, line 67 *)

(** [std::stod] is [strtod] on the string: leading white space, a sign,
    decimal digits with an optional fraction, an optional exponent, and the
    correctly rounded [double] of that decimal; hexadecimal, [inf] and
    [nan] forms are also accepted; no digit at all throws
    [std::invalid_argument].  The model computes the decimal forms of at
    most 15 significant digits without exponent: their digits make an
    integer below 2^53 and the power of ten is at most 10^15, both exact
    doubles, so the single division is the correctly rounded value.  The
    other accepted forms are [NotModelled]. *)
Inductive StodResult :=
| Converted (x : float)
| InvalidArgument
| NotModelled.

(** [isspace] in the C locale. *)
Definition is_space (c : ascii) : bool :=
  match nat_of_ascii c with 9 | 10 | 11 | 12 | 13 | 32 => true | _ => false end.

Definition digit_of (c : ascii) : option Z :=
  let n := nat_of_ascii c in
  if (48 <=? n)%nat && (n <=? 57)%nat then Some (Z.of_nat n - 48)%Z else None.

Fixpoint skip_spaces (s : string) : string :=
  match s with
  | String c r => if is_space c then skip_spaces r else s
  | EmptyString => s
  end.

Fixpoint take_digits (s : string) : list Z * string :=
  match s with
  | String c r =>
      match digit_of c with
      | Some d => let '(ds, r') := take_digits r in (d :: ds, r')
      | None => ([], s)
      end
  | EmptyString => ([], EmptyString)
  end.

Definition digits_value (ds : list Z) : Z := fold_left (fun acc d => acc * 10 + d)%Z ds 0%Z.

(** An exponent is consumed only when a digit follows [e], after an
    optional sign. *)
Definition starts_with_digit (s : string) : bool :=
  match s with String c _ => match digit_of c with Some _ => true | None => false end | EmptyString => false end.

Definition has_exponent (s : string) : bool :=
  match s with
  | String c r =>
      (Ascii.eqb c "e" || Ascii.eqb c "E") &&
      (starts_with_digit r ||
       match r with
       | String c2 r2 => (Ascii.eqb c2 "+" || Ascii.eqb c2 "-") && starts_with_digit r2
       | EmptyString => false
       end)
  | EmptyString => false
  end%char.

(** [0x...], [inf], [infinity], [nan]. *)
Definition special_form (s : string) : bool :=
  match s with
  | String c r =>
      Ascii.eqb c "i" || Ascii.eqb c "I" || Ascii.eqb c "n" || Ascii.eqb c "N" ||
      (Ascii.eqb c "0" && match r with
                          | String c2 _ => Ascii.eqb c2 "x" || Ascii.eqb c2 "X"
                          | EmptyString => false
                          end)
  | EmptyString => false
  end%char.

Definition double_of_Z (z : Z) : float := PrimFloat.of_uint63 (Uint63.of_Z z).

Definition take_sign (s : string) : bool * string :=
  match s with
  | String c r => if Ascii.eqb c "-"%char then (true, r)
                  else if Ascii.eqb c "+"%char then (false, r) else (false, s)
  | EmptyString => (false, s)
  end.

Definition stod (s : string) : StodResult :=
  let '(neg, s2) := take_sign (skip_spaces s) in
  if special_form s2 then NotModelled else
  let '(ip, s3) := take_digits s2 in
  let '(fp, s4) := match s3 with
                   | String c r => if Ascii.eqb c "."%char then take_digits r else ([], s3)
                   | EmptyString => ([], s3)
                   end in
  match ip, fp with
  | [], [] => InvalidArgument
  | _, _ =>
      if has_exponent s4 || (15 <? length ip + length fp)%nat then NotModelled else
      let m := double_of_Z (digits_value (ip ++ fp)) in
      let v := match fp with [] => m | _ => (m / double_of_Z (10 ^ Z.of_nat (length fp)))%float end in
      Converted (if neg then (- v)%float else v)
  end.

(** [bitrate_str.substr(0, bitrate_str.find("Mbps"))]: the text before the
    first ["Mbps"], or all of it when there is none ([npos]). *)
Definition bitrate_text (bitrate_str : string) : string :=
  match index 0 "Mbps" bitrate_str with
  | Some k => substring 0 k bitrate_str
  | None => bitrate_str
  end.

Definition bitrate_val (bitrate_str : string) : StodResult := stod (bitrate_text bitrate_str).

(** The text of a list of decimal digits. *)
Definition digit_char (d : Z) : ascii := ascii_of_nat (Z.to_nat d + 48).

Fixpoint digits_string (ds : list Z) : string :=
  match ds with
  | [] => EmptyString
  | d :: ds' => String (digit_char d) (digits_string ds')
  end.

Definition is_digit (d : Z) : Prop := (0 <= d <= 9)%Z.

(** ** Binary64 facts on the user counts, checked up to [max_users] *)

(** The statements about the conversions cover every user count up to
    [max_users]: a region's LAN is a /22 network ([255.255.252.0], lines
    124 and 128) with 1022 host addresses, and [max_users] is far above
    the user counts such a LAN holds; larger counts are not covered. *)
Definition max_users : Z := 65535.

(** [ceil(2c / 5)], the number of sources of a class of [c] users. *)
Definition class_sources (c : Z) : Z := (2 * c + 4) / 5.

(** The sources of a region with classes [cf], [ch], [cs]. *)
Definition region_count (cf ch cs : Z) : Z :=
  if (0 <? cf + ch + cs)%Z then (class_sources cf + class_sources ch + class_sources cs)%Z else 0%Z.

(** The split of a run with 100 users. *)
Definition split_100 : UserSplit :=
  {| numValFHD := 49; numValHD := 14; numValSD := 7; numBalFHD := 21; numBalHD := 6; numBalSD := 3 |}.

Definition embedding_ok (i : Z) : bool :=
  negb (PrimFloat.is_nan (double_of_uint32 i)) && negb (PrimFloat.is_nan (double_of_uint32 (i + 1))) &&
  (double_of_uint32 i <? double_of_uint32 (i + 1))%float.

Definition loop_ok (c : Z) : bool :=
  let k := class_sources c in
  negb (PrimFloat.is_nan (loop_bound c)) &&
  ((k =? 0)%Z || (double_of_uint32 (k - 1) <? loop_bound c)%float) &&
  negb (double_of_uint32 k <? loop_bound c)%float.

(** The six conversions are defined, never above the exact split, and
    lose fewer than six users in all. *)
Definition split_ok (n : Z) : bool :=
  match user_split n with
  | Some s =>
      let e := exact_split n in
      (0 <=? numValFHD s) && (numValFHD s <=? numValFHD e) &&
      (0 <=? numValHD s) && (numValHD s <=? numValHD e) &&
      (0 <=? numValSD s) && (numValSD s <=? numValSD e) &&
      (0 <=? numBalFHD s) && (numBalFHD s <=? numBalFHD e) &&
      (0 <=? numBalHD s) && (numBalHD s <=? numBalHD e) &&
      (0 <=? numBalSD s) && (numBalSD s <=? numBalSD e) &&
      (n - 6 <? simulated_users s)
  | None => false
  end%Z.

(** ** Addresses of the sources *)

(** [a, a + 1, ..., a + n - 1]. *)
Definition zseq (a : Z) (n : nat) : list Z := map (fun k => (a + Z.of_nat k)%Z) (seq 0 n).

(** ** Running a loop *)

Lemma uint32_wrap_small z : (0 <= z < UINT32_MOD)%Z -> uint32_wrap z = z.
Proof. intros. unfold uint32_wrap. now apply Z.mod_small. Qed.

(** A loop whose test holds from [i] up to [k] excluded and fails at [k]
    runs [k - i] times, given the fuel. *)
Lemma class_loop_run fuel b cls port i u k :
  (forall j, (i <= j < k)%Z -> (double_of_uint32 j <? b)%float = true) ->
  (double_of_uint32 k <? b)%float = false ->
  (0 <= i <= k)%Z -> (k < UINT32_MOD)%Z -> (0 <= u)%Z -> (u + (k - i) < UINT32_MOD)%Z ->
  (Z.to_nat (k - i) < fuel)%nat ->
  class_loop fuel b cls port i u = Some (sources_from cls port i u (Z.to_nat (k - i)), (u + (k - i))%Z).
Proof.
  revert i u. induction fuel as [|f IH]; intros i u Hlt Hk Hi HkM Hu HuM Hf; [lia|].
  simpl. destruct (Z.eq_dec i k) as [->|Hne].
  - rewrite Hk, Z.sub_diag, Z.add_0_r. reflexivity.
  - rewrite (Hlt i) by lia.
    rewrite !uint32_wrap_small by lia.
    rewrite (IH (i + 1)%Z (u + 1)%Z) by (intros; first [apply Hlt; lia | assumption | lia]).
    replace (Z.to_nat (k - i)) with (S (Z.to_nat (k - (i + 1)))) by lia.
    cbn [sources_from]. do 2 f_equal. lia.
Qed.

(** ** The bounded checks and what they give *)

Lemma embedding_check : check_range embedding_ok (Z.to_nat (max_users + 1)) 0 = true.
Proof. vm_compute. reflexivity. Qed.

Lemma loop_check : check_range loop_ok (Z.to_nat (max_users + 1)) 0 = true.
Proof. vm_compute. reflexivity. Qed.

Lemma embedding_at i : (0 <= i <= max_users)%Z -> embedding_ok i = true.
Proof. intros. apply (check_range_spec _ _ _ embedding_check). lia. Qed.

(** [uint32_t] to [double] is strictly increasing on the range. *)
Lemma double_of_uint32_lt i j :
  (0 <= i < j)%Z -> (j <= max_users + 1)%Z ->
  (double_of_uint32 i <? double_of_uint32 j)%float = true.
Proof.
  intros Hij Hj. remember (Z.to_nat (j - i - 1)) as n eqn:En.
  revert j Hij Hj En. induction n as [|n IH]; intros j Hij Hj En.
  - replace j with (i + 1)%Z by lia. pose proof (embedding_at i ltac:(lia)) as H.
    unfold embedding_ok in H. bool_simpl. assumption.
  - pose proof (embedding_at (j - 1) ltac:(lia)) as H. unfold embedding_ok in H.
    replace (j - 1 + 1)%Z with j in H by lia. bool_simpl.
    pose proof (embedding_at i ltac:(lia)) as Hi. unfold embedding_ok in Hi. bool_simpl.
    apply (ltb_trans _ (double_of_uint32 (j - 1))); auto. apply IH; lia.
Qed.

Lemma class_sources_le c : (0 <= c)%Z -> (0 <= class_sources c <= c)%Z.
Proof.
  intros Hc. unfold class_sources. split; [apply Z.div_pos; lia|].
  assert (c = 0 \/ c = 1 \/ 2 <= c)%Z as [->|[->|H2]] by lia; [reflexivity|reflexivity|].
  apply Z.div_le_upper_bound; lia.
Qed.

Lemma loop_ok_at c : (0 <= c <= max_users)%Z -> loop_ok c = true.
Proof. intros. apply (check_range_spec _ _ _ loop_check). lia. Qed.

(** The test [i < c * 0.4] holds for every [i < ceil(2c/5)] ... *)
Lemma loop_test_below c j :
  (0 <= c <= max_users)%Z -> (0 <= j < class_sources c)%Z ->
  (double_of_uint32 j <? loop_bound c)%float = true.
Proof.
  intros Hc Hj. pose proof (loop_ok_at c Hc) as H.
  pose proof (class_sources_le c ltac:(lia)) as Hk. unfold loop_ok in H. bool_simpl.
  set (k := class_sources c) in *. destruct (Z.eqb_spec k 0) as [|Hk0]; [lia|]. simpl in H0.
  destruct (Z.eq_dec j (k - 1)) as [->|Hne]; [assumption|].
  pose proof (embedding_at j ltac:(lia)) as Ej. pose proof (embedding_at (k - 1) ltac:(lia)) as Ek.
  unfold embedding_ok in Ej, Ek. bool_simpl.
  apply (ltb_trans _ (double_of_uint32 (k - 1))); auto. apply double_of_uint32_lt; lia.
Qed.

(** ... and fails at [ceil(2c/5)]. *)
Lemma loop_test_at c :
  (0 <= c <= max_users)%Z -> (double_of_uint32 (class_sources c) <? loop_bound c)%float = false.
Proof. intros Hc. pose proof (loop_ok_at c Hc) as H. unfold loop_ok in H. bool_simpl. assumption. Qed.

(** A class of [c] users gets [ceil(2c/5)] sources, towards the addresses
    that follow [u], and the fuel [S c] is enough. *)
Lemma class_loop_count c cls port u :
  (0 <= c <= max_users)%Z -> (0 <= u)%Z -> (u + class_sources c < UINT32_MOD)%Z ->
  class_loop (loop_fuel c) (loop_bound c) cls port 0 u =
    Some (sources_from cls port 0 u (Z.to_nat (class_sources c)), (u + class_sources c)%Z).
Proof.
  intros Hc Hu HuM. pose proof (class_sources_le c ltac:(lia)) as Hk.
  rewrite (class_loop_run _ _ _ _ 0 u (class_sources c)).
  - now rewrite Z.sub_0_r.
  - intros j Hj. apply loop_test_below; lia.
  - now apply loop_test_at.
  - lia.
  - unfold UINT32_MOD, max_users in *. lia.
  - lia.
  - lia.
  - unfold loop_fuel. lia.
Qed.

Lemma split_check : check_range split_ok (Z.to_nat (max_users + 1)) 0 = true.
Proof. vm_compute. reflexivity. Qed.

Lemma split_ok_at n : (0 <= n <= max_users)%Z -> split_ok n = true.
Proof. intros. apply (check_range_spec _ _ _ split_check). lia. Qed.

Lemma zseq_S a n : zseq a (S n) = a :: zseq (a + 1) n.
Proof.
  unfold zseq. simpl. f_equal; [lia|]. rewrite <- seq_shift, map_map.
  apply map_ext. intros. lia.
Qed.

Lemma zseq_app a n m : zseq a n ++ zseq (a + Z.of_nat n) m = zseq a (n + m).
Proof.
  revert a. induction n as [|n IH]; intros a.
  - simpl. now rewrite Z.add_0_r.
  - rewrite Nat.add_succ_l, !zseq_S, <- app_comm_cons, <- IH.
    do 3 f_equal. lia.
Qed.

Lemma In_zseq x a n : In x (zseq a n) <-> (a <= x < a + Z.of_nat n)%Z.
Proof.
  unfold zseq. rewrite in_map_iff. split.
  - intros (k & <- & Hk). apply in_seq in Hk. lia.
  - intros Hx. exists (Z.to_nat (x - a)). split; [lia|]. apply in_seq. lia.
Qed.

Lemma NoDup_zseq a n : NoDup (zseq a n).
Proof.
  revert a. induction n as [|n IH]; intros a; [constructor|].
  rewrite zseq_S. constructor; [|apply IH]. rewrite In_zseq. lia.
Qed.

Lemma sources_from_dests cls port i u n :
  map dest_index (sources_from cls port i u n) = zseq (u + 1) n.
Proof.
  revert i u. induction n as [|n IH]; intros i u; [reflexivity|].
  rewrite zseq_S. cbn [map sources_from dest_index]. rewrite IH. f_equal.
Qed.

Lemma sources_from_port cls port i u n src :
  In src (sources_from cls port i u n) -> dest_port src = port.
Proof.
  revert i u. induction n as [|n IH]; intros i u; simpl; [tauto|].
  intros [<-|H]; [reflexivity|eauto].
Qed.

(** The sources of a region whose three classes have at most [max_users]
    users each: the three loops one after the other, [ceil(2c/5)] sources
    per class, when the region has users. *)
Lemma region_sources_run port cf ch cs :
  (0 <= cf <= max_users)%Z -> (0 <= ch <= max_users)%Z -> (0 <= cs <= max_users)%Z ->
  region_sources port (uint32_wrap (cf + ch + cs)) cf ch cs =
    Some (if (0 <? cf + ch + cs)%Z then
            sources_from FHD port 0 0 (Z.to_nat (class_sources cf)) ++
            sources_from HD port 0 (class_sources cf) (Z.to_nat (class_sources ch)) ++
            sources_from SD port 0 (class_sources cf + class_sources ch) (Z.to_nat (class_sources cs))
          else []).
Proof.
  intros Hf Hh Hs.
  pose proof (class_sources_le cf ltac:(lia)). pose proof (class_sources_le ch ltac:(lia)).
  pose proof (class_sources_le cs ltac:(lia)).
  assert (HM : (cf + ch + cs < UINT32_MOD)%Z) by (unfold UINT32_MOD, max_users in *; lia).
  unfold region_sources. rewrite uint32_wrap_small by lia.
  destruct (0 <? cf + ch + cs)%Z; [|reflexivity].
  do 3 (rewrite class_loop_count by (unfold UINT32_MOD, max_users in *; lia); cbv beta iota).
  now rewrite Z.add_0_l.
Qed.

Lemma sources_from_on_time cls port i u n :
  map on_time (sources_from cls port i u n) = map (fun k => (i + Z.of_nat k) mod 2)%Z (seq 0 n).
Proof.
  revert i u. induction n as [|n IH]; intros i u; [reflexivity|].
  cbn [sources_from map seq]. rewrite IH, <- seq_shift, map_map. f_equal.
  - now rewrite Z.add_0_r.
  - apply map_ext. intros k. f_equal. lia.
Qed.

(** The loop from any state, in closed form. *)
Lemma flow_fold flows st :
  fold_left flow_step flows st =
    {| delayUpdates := delayUpdates st ++
         map flow_delay (filter (fun f => (10 <? txPackets f) && (0 <? rxPackets f))%Z flows);
       jitterUpdates := jitterUpdates st ++
         map flow_jitter (filter (fun f => (10 <? txPackets f) && (1 <? rxPackets f))%Z flows);
       totalTxPackets := fold_left PrimFloat.add
         (map (fun f => double_of_uint32 (txPackets f)) (filter (fun f => 10 <? txPackets f)%Z flows))
         (totalTxPackets st);
       totalLostPackets := fold_left PrimFloat.add
         (map (fun f => double_of_uint32 (lostPackets f)) (filter (fun f => 10 <? txPackets f)%Z flows))
         (totalLostPackets st) |}.
Proof.
  revert st. induction flows as [|f flows IH]; intros st.
  - destruct st. simpl. now rewrite !app_nil_r.
  - simpl. rewrite IH. unfold flow_step.
    destruct (10 <? txPackets f)%Z; simpl; [|reflexivity].
    destruct (0 <? rxPackets f)%Z, (1 <? rxPackets f)%Z; simpl; unfold push_back;
      now rewrite <- ?app_assoc.
Qed.

Lemma double_of_uint32_not_neg n : (double_of_uint32 n <? 0)%float = false.
Proof. apply ltb_zero_false_iff, sign_clear_not_neg, of_uint63_sign_clear. Qed.

Lemma fold_add_not_neg l x :
  (x <? 0)%float = false -> Forall (fun y => (y <? 0)%float = false) l ->
  (fold_left PrimFloat.add l x <? 0)%float = false.
Proof.
  revert x. induction l as [|y l IH]; intros x Hx Hl; simpl; [assumption|].
  inversion Hl; subst. apply IH; [now apply add_not_neg|assumption].
Qed.

Lemma user_split_facts n s :
  (0 <= n <= max_users)%Z -> user_split n = Some s ->
  split_le s (exact_split n) /\ (n - 6 < simulated_users s <= n)%Z.
Proof.
  intros Hn Hs. pose proof (split_ok_at n Hn) as H. unfold split_ok in H. rewrite Hs in H.
  bool_simpl.
  repeat match goal with
  | H : (_ <=? _)%Z = true |- _ => apply Z.leb_le in H
  | H : (_ <? _)%Z = true |- _ => apply Z.ltb_lt in H
  end. unfold split_le, exact_split in *. cbn [numValFHD numValHD numValSD numBalFHD numBalHD numBalSD] in *.
  assert (simulated_users s <= n)%Z; [|tauto].
  unfold simulated_users, num_usuarios_valencia, num_usuarios_baleares.
  Z.div_mod_to_equations. rewrite !uint32_wrap_small by (unfold UINT32_MOD, max_users in *; lia). lia.
Qed.

Lemma region_count_le cf ch cs :
  (0 <= cf)%Z -> (0 <= ch)%Z -> (0 <= cs)%Z -> (0 <= region_count cf ch cs <= cf + ch + cs)%Z.
Proof.
  intros. pose proof (class_sources_le cf ltac:(lia)). pose proof (class_sources_le ch ltac:(lia)).
  pose proof (class_sources_le cs ltac:(lia)). unfold region_count.
  destruct (0 <? cf + ch + cs)%Z; lia.
Qed.

Lemma region_dests port cf ch cs :
  (0 <= cf <= max_users)%Z -> (0 <= ch <= max_users)%Z -> (0 <= cs <= max_users)%Z ->
  exists l, region_sources port (uint32_wrap (cf + ch + cs)) cf ch cs = Some l /\
    map dest_index l = zseq 1 (Z.to_nat (region_count cf ch cs)) /\
    Forall (fun src => dest_port src = port) l.
Proof.
  intros Hf Hh Hs. rewrite region_sources_run by assumption. eexists. split; [reflexivity|].
  unfold region_count. destruct (0 <? cf + ch + cs)%Z; [|split; [reflexivity|constructor]].
  pose proof (class_sources_le cf ltac:(lia)). pose proof (class_sources_le ch ltac:(lia)).
  pose proof (class_sources_le cs ltac:(lia)). split.
  - rewrite !map_app, !sources_from_dests.
    replace (class_sources cf + 1)%Z with (0 + 1 + Z.of_nat (Z.to_nat (class_sources cf)))%Z by lia.
    replace (class_sources cf + class_sources ch + 1)%Z
      with (0 + 1 + Z.of_nat (Z.to_nat (class_sources cf)) + Z.of_nat (Z.to_nat (class_sources ch)))%Z by lia.
    rewrite zseq_app, zseq_app. f_equal. lia.
  - apply Forall_forall. intros src Hin.
    repeat (apply in_app_or in Hin as [Hin|Hin]); eapply sources_from_port; eauto.
Qed.

(** ** Reading the bitrate *)

Lemma digit_cases d : is_digit d ->
  d = 0%Z \/ d = 1%Z \/ d = 2%Z \/ d = 3%Z \/ d = 4%Z \/ d = 5%Z \/ d = 6%Z \/ d = 7%Z \/ d = 8%Z \/ d = 9%Z.
Proof. unfold is_digit. lia. Qed.

Lemma digit_of_char d : is_digit d -> digit_of (digit_char d) = Some d.
Proof. intros H. destruct (digit_cases d H) as [->|[->|[->|[->|[->|[->|[->|[->|[->| ->]]]]]]]]]; reflexivity. Qed.

Lemma is_space_digit d : is_digit d -> is_space (digit_char d) = false.
Proof. intros H. destruct (digit_cases d H) as [->|[->|[->|[->|[->|[->|[->|[->|[->| ->]]]]]]]]]; reflexivity. Qed.

(** A digit is no character that is not a digit. *)
Lemma digit_char_eqb d c : is_digit d -> digit_of c = None -> Ascii.eqb (digit_char d) c = false.
Proof.
  intros Hd Hc. destruct (Ascii.eqb_spec (digit_char d) c) as [<-|]; [|reflexivity].
  rewrite digit_of_char in Hc by assumption. discriminate.
Qed.

Lemma skip_spaces_digits ds : Forall is_digit ds -> skip_spaces (digits_string ds) = digits_string ds.
Proof. intros H. destruct H as [|d ds Hd _]; [reflexivity|]. simpl. now rewrite is_space_digit. Qed.

Lemma take_sign_digits ds : Forall is_digit ds -> take_sign (digits_string ds) = (false, digits_string ds).
Proof.
  intros H. destruct H as [|d ds Hd _]; [reflexivity|]. simpl.
  now rewrite !digit_char_eqb by (assumption || reflexivity).
Qed.

Lemma special_form_digits ds : Forall is_digit ds -> special_form (digits_string ds) = false.
Proof.
  intros H. destruct H as [|d ds Hd Hds]; [reflexivity|]. simpl.
  repeat (rewrite digit_char_eqb by (assumption || reflexivity)). simpl.
  destruct Hds as [|d2 ds2 Hd2 _]; [now rewrite andb_false_r|]. simpl.
  rewrite (digit_char_eqb d2 "x"), (digit_char_eqb d2 "X") by (assumption || reflexivity).
  now rewrite andb_false_r.
Qed.

Lemma take_digits_digits ds : Forall is_digit ds -> take_digits (digits_string ds) = (ds, EmptyString).
Proof.
  induction 1 as [|d ds Hd _ IH]; [reflexivity|]. simpl. rewrite digit_of_char by assumption.
  now rewrite IH.
Qed.

Lemma index_mbps ds : Forall is_digit ds ->
  index 0 "Mbps" (digits_string ds ++ "Mbps") = Some (List.length ds).
Proof.
  induction 1 as [|d ds Hd _ IH]; [reflexivity|]. cbn [index digits_string String.append prefix].
  destruct (ascii_dec "M" (digit_char d)) as [E|_].
  - exfalso. pose proof (digit_of_char d Hd) as H. rewrite <- E in H. discriminate.
  - now rewrite IH.
Qed.

Lemma substring_digits ds rest :
  substring 0 (List.length ds) (digits_string ds ++ rest) = digits_string ds.
Proof. induction ds as [|d ds IH]; simpl; [now destruct rest|]. now rewrite IH. Qed.

(** The text does not start with a digit. *)
Definition no_digit (s : string) : Prop :=
  match s with EmptyString => True | String c _ => digit_of c = None end.

Lemma take_digits_app ds s : Forall is_digit ds -> no_digit s -> take_digits (digits_string ds ++ s) = (ds, s).
Proof.
  intros Hd Hs. induction Hd as [|d ds Hd _ IH].
  - destruct s as [|c s]; simpl in *; [reflexivity|now rewrite Hs].
  - simpl. rewrite digit_of_char by assumption. now rewrite IH.
Qed.

(** A text that starts with a digit has no leading space and no sign. *)
Lemma digits_start ds s : Forall is_digit ds -> ds <> [] ->
  skip_spaces (digits_string ds ++ s) = (digits_string ds ++ s)%string /\
  take_sign (digits_string ds ++ s) = (false, (digits_string ds ++ s)%string).
Proof.
  intros Hd Hne. destruct Hd as [|d ds Hd _]; [congruence|]. simpl.
  rewrite is_space_digit by assumption. now rewrite !digit_char_eqb by (assumption || reflexivity).
Qed.

Lemma index_digits_none ds u : Forall is_digit ds -> index 0 "Mbps" u = None ->
  index 0 "Mbps" (digits_string ds ++ u) = None.
Proof.
  induction 1 as [|d ds Hd _ IH]; [trivial|]. intros Hu. cbn [index digits_string String.append prefix].
  destruct (ascii_dec "M" (digit_char d)) as [E|_].
  - exfalso. pose proof (digit_of_char d Hd) as H. rewrite <- E in H. discriminate.
  - now rewrite IH.
Qed.

Lemma prefix_app s u : prefix s (s ++ u) = true.
Proof.
  induction s as [|c s IH]; [now destruct u|]. cbn [String.append prefix].
  destruct (ascii_dec c c); [exact IH|congruence].
Qed.

(** What may follow the number in a bitrate argument without changing
    what [std::stod] reads: no digit, point, hexadecimal [x] or exponent. *)
Definition unit_ok (u : string) : bool :=
  match u with
  | String c _ => match digit_of c with Some _ => false | None => true end &&
                  negb (Ascii.eqb c "." || Ascii.eqb c "x" || Ascii.eqb c "X")%char && negb (has_exponent u)
  | EmptyString => true
  end.

Lemma special_form_digits_app ds u : Forall is_digit ds -> ds <> [] -> unit_ok u = true ->
  special_form (digits_string ds ++ u) = false.
Proof.
  intros H Hne Hu. destruct H as [|d ds Hd Hds]; [congruence|]. simpl.
  repeat (rewrite digit_char_eqb by (assumption || reflexivity)). simpl.
  destruct Hds as [|d2 ds2 Hd2 _].
  - destruct u as [|c u]; simpl; [now rewrite andb_false_r|].
    simpl in Hu. destruct (digit_of c); [discriminate|].
    destruct (Ascii.eqb c "x"), (Ascii.eqb c "X"); rewrite ?orb_true_r in Hu; try discriminate; now rewrite andb_false_r.
  - simpl. rewrite (digit_char_eqb d2 "x"), (digit_char_eqb d2 "X") by (assumption || reflexivity).
    now rewrite andb_false_r.
Qed.

Lemma unit_no_digit u : unit_ok u = true -> no_digit u.
Proof. destruct u as [|c u]; simpl; [trivial|]. now destruct (digit_of c). Qed.

Lemma unit_no_exponent u : unit_ok u = true -> has_exponent u = false.
Proof.
  destruct u as [|c u]; [reflexivity|]. unfold unit_ok. intros H.
  apply andb_prop in H as [_ H]. now apply negb_true_iff in H.
Qed.

(** [std::stod] on digits followed by a unit reads the digits. *)
Lemma stod_digits_unit ds u : Forall is_digit ds -> (1 <= List.length ds <= 15)%nat -> unit_ok u = true ->
  stod (digits_string ds ++ u) = Converted (double_of_Z (digits_value ds)).
Proof.
  intros Hds Hlen Hu. assert (Hne : ds <> []) by (destruct ds; simpl in Hlen; [lia|discriminate]).
  unfold stod. destruct (digits_start ds u Hds Hne) as [-> ->].
  rewrite special_form_digits_app, take_digits_app by auto using unit_no_digit.
  assert (Hf : (match u with String c r => if Ascii.eqb c "."%char then take_digits r else ([], u)
                | EmptyString => ([], u) end) = ([], u)).
  { destruct u as [|c u]; [reflexivity|]. simpl in Hu. destruct (digit_of c); [discriminate|].
    destruct (Ascii.eqb c "."); [discriminate|reflexivity]. }
  rewrite Hf. destruct ds as [|d ds]; [congruence|]. cbv beta iota.
  rewrite unit_no_exponent by assumption.
  replace (15 <? List.length (d :: ds) + List.length (@nil Z))%nat with false
    by (symmetry; apply Nat.ltb_ge; simpl in *; lia).
  now rewrite app_nil_r.
Qed.

(** ** Theorems *)

(** C29: for every user count up to [max_users], the six [double] to
    [uint32_t] conversions of the split are defined, no class gets more
    users than its exact share, and the two regions together have at most
    [num_usuarios] users and fewer than six less. *)
Theorem user_split_bounds n :
  (0 <= n <= max_users)%Z ->
  exists s, user_split n = Some s /\ split_le s (exact_split n) /\
    (n - 6 < simulated_users s <= n)%Z.
Proof.
  intros Hn. pose proof (split_ok_at n Hn) as H. unfold split_ok in H.
  destruct (user_split n) as [s|] eqn:Hs; [|discriminate].
  exists s. split; [reflexivity|]. now apply user_split_facts.
Qed.

(** With 500 users the binary64 products round below the exact
    share: [500 * 0.7 * 0.7] truncates to 244 instead of 245, and the run
    simulates 499 users while its record says 500. *)
Theorem user_split_500 :
  exists s, user_split 500 = Some s /\ numValFHD s = 244%Z /\ numValFHD (exact_split 500) = 245%Z /\
    simulated_users s = 499%Z.
Proof. eexists. split; [vm_compute; reflexivity|]. vm_compute. auto. Qed.

(** C30: each source loop of a class of [c] users terminates after
    [ceil(2c/5)] iterations (so [c] bounds them), creating one source per
    iteration whose on-time distribution alternates K+ and K- from K+. *)
Theorem class_loop_terminates c cls port u :
  (0 <= c <= max_users)%Z -> (0 <= u)%Z -> (u + c < UINT32_MOD)%Z ->
  exists l, class_loop (loop_fuel c) (loop_bound c) cls port 0 u = Some (l, (u + class_sources c)%Z) /\
    length l = Z.to_nat (class_sources c) /\ (class_sources c <= c)%Z /\
    map on_time l = map (fun k => Z.of_nat k mod 2)%Z (seq 0 (Z.to_nat (class_sources c))).
Proof.
  intros Hc Hu HuM. pose proof (class_sources_le c ltac:(lia)).
  rewrite class_loop_count by lia. eexists. split; [reflexivity|]. split; [|split; [lia|]].
  - rewrite <- (length_map dest_index), sources_from_dests. unfold zseq. now rewrite length_map, length_seq.
  - now rewrite sources_from_on_time.
Qed.

(** For every user count up to [max_users], every source of either
    region sends to [GetAddress(k)] of its own LAN with [1 <= k <= ] the
    region's user count (the container holds the router's address at 0
    and one per user), no two sources of a region share a user, and each
    region has [ceil(2c/5)] sources per class [c]. *)
Theorem sources_addresses n s :
  (0 <= n <= max_users)%Z -> user_split n = Some s ->
  exists lv lb, valencia_sources s = Some lv /\ baleares_sources s = Some lb /\
    map dest_index lv = zseq 1 (Z.to_nat (region_count (numValFHD s) (numValHD s) (numValSD s))) /\
    map dest_index lb = zseq 1 (Z.to_nat (region_count (numBalFHD s) (numBalHD s) (numBalSD s))) /\
    (region_count (numValFHD s) (numValHD s) (numValSD s) <= num_usuarios_valencia s)%Z /\
    (region_count (numBalFHD s) (numBalHD s) (numBalSD s) <= num_usuarios_baleares s)%Z /\
    Forall (fun src => dest_port src = 9%Z) lv /\ Forall (fun src => dest_port src = 10%Z) lb.
Proof.
  intros Hn Hs. destruct (user_split_facts n s Hn Hs) as [Hle _]. unfold split_le, exact_split in Hle.
  cbn [numValFHD numValHD numValSD numBalFHD numBalHD numBalSD] in Hle.
  Z.div_mod_to_equations.
  destruct (region_dests 9 (numValFHD s) (numValHD s) (numValSD s)) as (lv & Hv & Dv & Pv);
    try (unfold max_users in *; lia).
  destruct (region_dests 10 (numBalFHD s) (numBalHD s) (numBalSD s)) as (lb & Hb & Db & Pb);
    try (unfold max_users in *; lia).
  exists lv, lb. unfold valencia_sources, baleares_sources, num_usuarios_valencia, num_usuarios_baleares.
  rewrite Hv, Hb. do 4 (split; [reflexivity || assumption|]).
  pose proof (region_count_le (numValFHD s) (numValHD s) (numValSD s)).
  pose proof (region_count_le (numBalFHD s) (numBalHD s) (numBalSD s)).
  rewrite !uint32_wrap_small by (unfold UINT32_MOD, max_users in *; lia).
  repeat split; auto; lia.
Qed.

(** C31: the flow loop gives [avgDelay] the mean delay in ms of exactly
    the flows with more than 10 sent and some received packets, and
    [avgJitter] the mean jitter in ms of those with more than 10 sent and
    more than one received, dividing by [rxPackets - 1], which never wraps;
    the totals add the counters of the flows with more than 10 sent
    packets, in the monitor's order. *)
Theorem flow_summary_spec flows :
  Forall (fun f => 0 <= rxPackets f < UINT32_MOD)%Z flows ->
  delayUpdates (flow_summary flows) =
    map (fun f => delaySum f / double_of_uint32 (rxPackets f) * 1000)%float
      (filter (fun f => (10 <? txPackets f) && (0 <? rxPackets f))%Z flows) /\
  jitterUpdates (flow_summary flows) =
    map (fun f => jitterSum f / double_of_uint32 (rxPackets f - 1) * 1000)%float
      (filter (fun f => (10 <? txPackets f) && (1 <? rxPackets f))%Z flows) /\
  totalTxPackets (flow_summary flows) =
    fold_left PrimFloat.add
      (map (fun f => double_of_uint32 (txPackets f)) (filter (fun f => 10 <? txPackets f)%Z flows)) 0%float /\
  totalLostPackets (flow_summary flows) =
    fold_left PrimFloat.add
      (map (fun f => double_of_uint32 (lostPackets f)) (filter (fun f => 10 <? txPackets f)%Z flows)) 0%float.
Proof.
  intros Hrx. unfold flow_summary. rewrite flow_fold. cbn [delayUpdates jitterUpdates totalTxPackets
    totalLostPackets flow_summary0 app]. split; [reflexivity|]. split; [|split; reflexivity].
  apply map_ext_in. intros f Hf. apply filter_In in Hf as [Hin Hp]. bool_simpl.
  rewrite Forall_forall in Hrx. specialize (Hrx f Hin). apply Z.ltb_lt in H0.
  unfold flow_jitter. rewrite uint32_wrap_small by lia. reflexivity.
Qed.

(** C32: flows with at most 10 sent packets count for nothing, their
    losses included; with no other flow the loss ratio is [0] and the two
    averages get no update. *)
Theorem short_flows_ignored flows :
  flow_summary flows = flow_summary (filter (fun f => 10 <? txPackets f)%Z flows) /\
  (Forall (fun f => txPackets f <= 10)%Z flows ->
   lossRatio (flow_summary flows) = 0%float /\ delayUpdates (flow_summary flows) = [] /\
   jitterUpdates (flow_summary flows) = []).
Proof.
  assert (Hall : flow_summary flows = flow_summary (filter (fun f => 10 <? txPackets f)%Z flows)).
  { unfold flow_summary. apply fold_left_filter. intros st f Hf. unfold flow_step. now rewrite Hf. }
  split; [exact Hall|]. intros Hsmall. rewrite Hall, filter_none; [auto|].
  intros f Hf. apply Z.ltb_ge. rewrite Forall_forall in Hsmall. now apply Hsmall.
Qed.

(** The loss ratio written to [results.dat] never compares below 0. *)
Theorem lossRatio_not_neg flows : (lossRatio (flow_summary flows) <? 0)%float = false.
Proof.
  unfold lossRatio. destruct (0 <? totalTxPackets (flow_summary flows))%float eqn:E; [|reflexivity].
  apply mul_not_neg; [|reflexivity]. apply div_not_neg; [|now apply pos_sign_clear].
  unfold flow_summary. rewrite flow_fold. apply fold_add_not_neg; [reflexivity|].
  apply Forall_forall. intros y Hy. apply in_map_iff in Hy as (f & <- & _).
  apply double_of_uint32_not_neg.
Qed.

(** C33: for a bitrate written as up to 15 decimal digits followed by
    [Mbps], the record's bitrate is that integer, exactly. *)
Theorem bitrate_val_mbps ds :
  Forall is_digit ds -> (1 <= List.length ds <= 15)%nat ->
  bitrate_val (digits_string ds ++ "Mbps") = Converted (double_of_Z (digits_value ds)).
Proof.
  intros Hds Hlen. unfold bitrate_val, bitrate_text. rewrite index_mbps, substring_digits by assumption.
  unfold stod. rewrite skip_spaces_digits, take_sign_digits, special_form_digits, take_digits_digits
    by assumption.
  destruct ds as [|d ds]; [simpl in Hlen; lia|]. cbv beta iota.
  replace (15 <? List.length (d :: ds) + List.length (@nil Z))%nat with false
    by (symmetry; apply Nat.ltb_ge; simpl in *; lia).
  now rewrite app_nil_r.
Qed.

(** C34: [find("Mbps")] is the only unit the record understands: a
    bitrate of up to 15 digits followed by any other unit (one without
    ["Mbps"] that does not continue the number, such as ["Gbps"] or
    ["kbps"]) is recorded as that number, whatever the unit, while the
    link runs at the rate the unit gives; and an argument that starts
    with ["Mbps"] makes [std::stod] throw. *)
Theorem bitrate_val_units ds u :
  Forall is_digit ds -> (1 <= List.length ds <= 15)%nat -> index 0 "Mbps" u = None -> unit_ok u = true ->
  bitrate_val (digits_string ds ++ u) = Converted (double_of_Z (digits_value ds)) /\
  bitrate_val ("Mbps" ++ u) = InvalidArgument.
Proof.
  intros Hds Hlen Hi Hu. split.
  2:{ unfold bitrate_val, bitrate_text. change ("Mbps" ++ u)%string with (String "M" ("bps" ++ u)).
      pose proof (prefix_app "Mbps" u) as Hp. change (prefix "Mbps" (String "M" ("bps" ++ u)) = true) in Hp.
      cbn [index]. now rewrite Hp. }
  unfold bitrate_val, bitrate_text. rewrite index_digits_none by assumption. now apply stod_digits_unit.
Qed.

(** ** Witnesses *)

Lemma user_split_bounds_witness :
  (0 <= 500 <= max_users)%Z /\
  exists s, user_split 500 = Some s /\ split_le s (exact_split 500) /\ (500 - 6 < simulated_users s <= 500)%Z.
Proof.
  assert (H : (0 <= 500 <= max_users)%Z) by (unfold max_users; lia).
  exact (conj H (user_split_bounds 500 H)).
Defined.

Lemma class_loop_terminates_witness :
  exists l, class_loop (loop_fuel 49) (loop_bound 49) FHD 9 0 0 = Some (l, 20%Z) /\ length l = 20%nat.
Proof.
  destruct (class_loop_terminates 49 FHD 9 0) as (l & Hl & Hlen & _ & _);
    try (unfold max_users, UINT32_MOD; lia).
  exists l. split; assumption.
Defined.

Lemma sources_addresses_witness :
  user_split 100 = Some split_100 /\
  exists lv lb, valencia_sources split_100 = Some lv /\ baleares_sources split_100 = Some lb /\
    map dest_index lv = zseq 1 29 /\ map dest_index lb = zseq 1 14.
Proof.
  assert (Hs : user_split 100 = Some split_100) by (vm_compute; reflexivity).
  split; [exact Hs|].
  destruct (sources_addresses 100 split_100 ltac:(unfold max_users; lia) Hs)
    as (lv & lb & Hv & Hb & Dv & Db & _).
  exists lv, lb. split; [exact Hv|]. split; [exact Hb|]. split; [exact Dv|exact Db].
Defined.

Lemma bitrate_val_units_witness :
  bitrate_val (digits_string [1]%Z ++ "Gbps") = Converted (double_of_Z (digits_value [1]%Z)) /\
  bitrate_val ("Mbps" ++ "Gbps") = InvalidArgument.
Proof.
  apply bitrate_val_units; [repeat constructor; unfold is_digit; lia|simpl; lia|reflexivity|reflexivity].
Defined.

Lemma bitrate_val_mbps_witness :
  bitrate_val (digits_string [1; 0]%Z ++ "Mbps") = Converted (double_of_Z (digits_value [1; 0]%Z)).
Proof.
  apply bitrate_val_mbps; [repeat constructor; unfold is_digit; lia|simpl; lia].
Defined.

Lemma flow_summary_spec_witness :
  let flows := [{| txPackets := 100; rxPackets := 95; lostPackets := 5; delaySum := 0.95; jitterSum := 0.094 |};
                {| txPackets := 8; rxPackets := 8; lostPackets := 0; delaySum := 0.08; jitterSum := 0.007 |}] in
  Forall (fun f => 0 <= rxPackets f < UINT32_MOD)%Z flows /\
  delayUpdates (flow_summary flows) =
    map (fun f => delaySum f / double_of_uint32 (rxPackets f) * 1000)%float
      (filter (fun f => (10 <? txPackets f) && (0 <? rxPackets f))%Z flows).
Proof.
  intros flows. assert (H : Forall (fun f => 0 <= rxPackets f < UINT32_MOD)%Z flows)
    by (repeat constructor; unfold UINT32_MOD; simpl; lia).
  split; [exact H|]. exact (proj1 (flow_summary_spec flows H)).
Defined.

Lemma short_flows_ignored_witness :
  let flows := [{| txPackets := 8; rxPackets := 8; lostPackets := 3; delaySum := 0.08; jitterSum := 0.007 |}] in
  Forall (fun f => txPackets f <= 10)%Z flows /\ lossRatio (flow_summary flows) = 0%float.
Proof.
  intros flows. assert (H : Forall (fun f => txPackets f <= 10)%Z flows) by (repeat constructor; simpl; lia).
  split; [exact H|]. apply (proj2 (short_flows_ignored flows) H).
Defined.

End OnOffRouting.
