(* ===== verification/Topology.v ===== *)
(** * Topology: the network [onoffRouting.cc] builds

    [src/src/onoffRouting.cc] lines 79-131 and 164-176 configure the ns-3
    network of one run through three helper objects whose state the
    statements change one after the other:
    - [CsmaHelper backboneCsma, lanCsma]: [SetChannelAttribute("DataRate", r)]
      sets the rate the next [Install] gives its channel, and
      [Install(NodeContainer(...))] creates one CSMA channel (a shared
      bus) joining the nodes in order;
    - [Ipv4AddressHelper ipHelper]: [SetBase(network, mask)] restarts the
      host numbers at 1, and [Assign(devices)] gives the devices, in
      order, the addresses [network + 1], [network + 2], ...;
    - [PacketSinkHelper(..., port).Install(users)]: a sink on every user of
      a region (port 9 for Valencia, 10 for Baleares).
    The model keeps the channels with their rates and members, the
    interface containers with their addresses, and the sinks; what ns-3
    does with them (devices, queues, routing tables) is not modelled.

    The theorems relate this network to the sources of [Simulation]:
    only the Valencia users are behind the link whose rate is the bitrate
    under test, every source sends to a user node that has a sink on its
    port, and the /22 LANs hold their users only up to 1461 users. *)

From Stdlib Require Import String Ascii List ZArith Lia Bool Floats.
From S2P Require Import Prelude Double SampleStore Simulation.
Import ListNotations.
Import OnOffRouting.

Module Topology.

(** [serverNode.Get(0)], [routerNodes.Get(k)], [valenciaUsers.Get(i)],
    [balearesUsers.Get(i)]. *)
Inductive Node :=
| Server
| Router (k : Z)
| ValUser (i : Z)
| BalUser (i : Z).

(** A CSMA channel: its [DataRate] attribute and the nodes it joins. *)
Record Channel := {
  ch_rate : string;
  ch_nodes : list Node
}.

(** One entry of an [Ipv4InterfaceContainer]. *)
Record Iface := {
  if_node : Node;
  if_addr : Z
}.

(** The dotted quad [a.b.c.d] as a 32-bit number. *)
Definition ip (a b c d : Z) : Z := ((a * 256 + b) * 256 + c) * 256 + d.

(** The state of a [CsmaHelper] the code uses: its channel [DataRate]. *)
Record CsmaHelper := { csma_rate : string }.

Definition set_rate (r : string) (h : CsmaHelper) : CsmaHelper := {| csma_rate := r |}.

Definition install (h : CsmaHelper) (nodes : list Node) : Channel :=
  {| ch_rate := csma_rate h; ch_nodes := nodes |}.

(** The state of the [Ipv4AddressHelper]: network, mask and next host. *)
Record AddrHelper := { ah_network : Z; ah_mask : Z; ah_next : Z }.

Definition set_base (network mask : Z) : AddrHelper :=
  {| ah_network := network; ah_mask := mask; ah_next := 1 |}.

(** [Assign]: consecutive host numbers, in the order of the devices. *)
Definition assign (h : AddrHelper) (nodes : list Node) : list Iface * AddrHelper :=
  (map (fun k => {| if_node := nth k nodes Server; if_addr := ah_network h + ah_next h + Z.of_nat k |})
       (seq 0 (List.length nodes)),
   {| ah_network := ah_network h; ah_mask := ah_mask h; ah_next := ah_next h + Z.of_nat (List.length nodes) |}).

(** The [n] nodes of [valenciaUsers.Create(n)] (or Baleares'). *)
Definition users (mk : Z -> Node) (n : Z) : list Node := map (fun k => mk (Z.of_nat k)) (seq 0 (Z.to_nat n)).

Record Network := {
  link_server_r1 : Channel;
  link_r1_r2 : Channel;
  link_r1_r3 : Channel;
  lan_valencia : option Channel;
  lan_baleares : option Channel;
  serverRouter1Interfaces : list Iface;
  router1Router2Interfaces : list Iface;
  router1Router3Interfaces : list Iface;
  valenciaInterfaces : list Iface;
  balearesInterfaces : list Iface
}.

Definition MASK24 : Z := ip 255 255 255 0.
Definition MASK22 : Z := ip 255 255 252 0.

(** A region's LAN (lines 123-130): only when the region has users. *)
Definition region_lan (lan : CsmaHelper) (router : Node) (mk : Z -> Node) (n network : Z)
  : option Channel * list Iface :=
  if (0 <? n)%Z then
    let nodes := router :: users mk n in
    (Some (install lan nodes), fst (assign (set_base network MASK22) nodes))
  else (None, []).

(** Lines 104-131, statement by statement. *)
Definition build_network (bitrate_str : string) (nv nb : Z) : Network :=
  let backboneCsma := set_rate "1Gbps" {| csma_rate := "" |} in
  let lanCsma := set_rate "100Mbps" {| csma_rate := "" |} in
  let c1 := install backboneCsma [Server; Router 0] in
  let i1 := fst (assign (set_base (ip 10 1 1 0) MASK24) [Server; Router 0]) in
  let backboneCsma := set_rate bitrate_str backboneCsma in
  let c2 := install backboneCsma [Router 0; Router 1] in
  let i2 := fst (assign (set_base (ip 20 1 1 0) MASK24) [Router 0; Router 1]) in
  let backboneCsma := set_rate "1Gbps" backboneCsma in
  let c3 := install backboneCsma [Router 0; Router 2] in
  let i3 := fst (assign (set_base (ip 30 1 1 0) MASK24) [Router 0; Router 2]) in
  let '(lv, iv) := region_lan lanCsma (Router 1) ValUser nv (ip 40 1 0 0) in
  let '(lb, ib) := region_lan lanCsma (Router 2) BalUser nb (ip 50 1 0 0) in
  {| link_server_r1 := c1; link_r1_r2 := c2; link_r1_r3 := c3; lan_valencia := lv; lan_baleares := lb;
     serverRouter1Interfaces := i1; router1Router2Interfaces := i2; router1Router3Interfaces := i3;
     valenciaInterfaces := iv; balearesInterfaces := ib |}.

Definition option_list {A} (o : option A) : list A := match o with Some x => [x] | None => [] end.

Definition channels (n : Network) : list Channel :=
  [link_server_r1 n; link_r1_r2 n; link_r1_r3 n] ++ option_list (lan_valencia n) ++ option_list (lan_baleares n).

(** Every channel but the one between routers 0 and 1, whose rate is the
    bitrate under test. *)
Definition channels_without_bottleneck (n : Network) : list Channel :=
  [link_server_r1 n; link_r1_r3 n] ++ option_list (lan_valencia n) ++ option_list (lan_baleares n).

(** Lines 165 and 176: a sink on every user of a region, with its port. *)
Definition sinks (nv nb : Z) : list (Node * Z) :=
  (if (0 <? nv)%Z then map (fun u => (u, 9%Z)) (users ValUser nv) else []) ++
  (if (0 <? nb)%Z then map (fun u => (u, 10%Z)) (users BalUser nb) else []).

(** [GetAddress(k)] of an interface container. *)
Definition get_iface (ifs : list Iface) (k : Z) : option Iface :=
  if (0 <=? k)%Z then nth_error ifs (Z.to_nat k) else None.

(** Two nodes connected through the given channels (nil/cons, as
    CertiGraph's [reachable]). *)
Inductive walk (chs : list Channel) : Node -> Node -> Prop :=
| walk_nil x : walk chs x x
| walk_cons x y z c : In c chs -> In x (ch_nodes c) -> In y (ch_nodes c) -> walk chs y z -> walk chs x z.

(** The nodes a walk can reach from the server without the bottleneck:
    the server, routers 0 and 2 and the Baleares users. *)
Definition uplink_side (x : Node) : bool :=
  match x with
  | Server | BalUser _ => true
  | Router k => (k =? 0)%Z || (k =? 2)%Z
  | ValUser _ => false
  end.

(** [allNodes] (lines 85-88), on which [stack.Install(allNodes)] (line 99)
    puts the internet stack: the server, the three routers and the users
    of both regions. *)
Definition all_nodes (nv nb : Z) : list Node :=
  [Server] ++ [Router 0; Router 1; Router 2] ++ users ValUser nv ++ users BalUser nb.

(** The broadcast address of [network/mask]: every host bit set. *)
Definition broadcast (network mask : Z) : Z := Z.lor network (Z.lxor mask 4294967295).

(** A host address of [network/mask]: inside it, and neither its network
    address nor its broadcast address. *)
Definition usable (network mask a : Z) : bool :=
  ((Z.land a mask =? network) && negb (a =? network) && negb (a =? broadcast network mask))%Z.

(** The Valencia host number [h] is usable exactly from 1 to 1022. *)
Definition host_ok (h : Z) : bool :=
  Bool.eqb (usable (ip 40 1 0 0) MASK22 (ip 40 1 0 0 + h)) ((1 <=? h) && (h <=? 1022))%Z.

(** The Valencia users fit the /22 LAN ([nv + 1 <= 1022] host numbers)
    exactly when [num_usuarios <= 1461]. *)
Definition lan_fits_ok (n : Z) : bool :=
  match user_split n with
  | Some s => Bool.eqb (num_usuarios_valencia s <=? 1021) (n <=? 1461)
  | None => false
  end%Z.

(** ** Lemmas *)

Lemma In_users mk n x : In x (users mk n) <-> exists i, x = mk i /\ (0 <= i < n)%Z.
Proof.
  unfold users. rewrite in_map_iff. split.
  - intros (k & <- & Hk). apply in_seq in Hk. exists (Z.of_nat k). split; [reflexivity|lia].
  - intros (i & -> & Hi). exists (Z.to_nat i). split; [f_equal; lia|]. apply in_seq. lia.
Qed.

Lemma length_users mk n : List.length (users mk n) = Z.to_nat n.
Proof. unfold users. now rewrite length_map, length_seq. Qed.

Lemma nth_users mk n k d : (k < Z.to_nat n)%nat -> nth k (users mk n) d = mk (Z.of_nat k).
Proof.
  intros Hk. apply nth_error_nth. unfold users. rewrite nth_error_map, nth_error_seq.
  destruct (Nat.ltb_spec k (Z.to_nat n)); [reflexivity|lia].
Qed.

(** [GetAddress(k)] of a container [Assign] built. *)
Lemma get_iface_assign h nodes k :
  (0 <= k < Z.of_nat (List.length nodes))%Z ->
  get_iface (fst (assign h nodes)) k =
    Some {| if_node := nth (Z.to_nat k) nodes Server; if_addr := ah_network h + ah_next h + k |}.
Proof.
  intros Hk. unfold get_iface, assign. simpl. destruct (Z.leb_spec 0 k); [|lia].
  rewrite nth_error_map, nth_error_seq by lia. destruct (Nat.ltb_spec (Z.to_nat k) (List.length nodes)); [|lia].
  simpl. do 3 f_equal. lia.
Qed.

(** The interface [k] of a region's LAN, [1 <= k <= n], is the user
    [k - 1], with host number [k + 1]. *)
Lemma region_iface lan router mk n network k :
  (1 <= k <= n)%Z ->
  get_iface (snd (region_lan lan router mk n network)) k =
    Some {| if_node := mk (k - 1)%Z; if_addr := (network + 1 + k)%Z |}.
Proof.
  intros Hk. unfold region_lan. destruct (Z.ltb_spec 0 n); [|lia]. cbn [snd].
  rewrite get_iface_assign by (simpl; rewrite length_users; lia). simpl.
  replace (Z.to_nat k) with (S (Z.to_nat (k - 1))) by lia.
  rewrite nth_users by lia. now rewrite Z2Nat.id by lia.
Qed.

(** The interface [0] of a region's LAN is its router's, host number 1. *)
Lemma region_iface0 lan router mk n network :
  (0 < n)%Z -> get_iface (snd (region_lan lan router mk n network)) 0 =
    Some {| if_node := router; if_addr := (network + 1)%Z |}.
Proof.
  intros Hn. unfold region_lan. destruct (Z.ltb_spec 0 n); [|lia]. cbn [snd].
  rewrite get_iface_assign by (cbn [List.length]; lia).
  cbn [nth Z.to_nat set_base ah_network ah_next]. now rewrite Z.add_0_r.
Qed.

(** The channels and interface containers of [build_network], in closed form. *)
Lemma build_backbone br nv nb :
  link_server_r1 (build_network br nv nb) = {| ch_rate := "1Gbps"; ch_nodes := [Server; Router 0] |} /\
  link_r1_r2 (build_network br nv nb) = {| ch_rate := br; ch_nodes := [Router 0; Router 1] |} /\
  link_r1_r3 (build_network br nv nb) = {| ch_rate := "1Gbps"; ch_nodes := [Router 0; Router 2] |}.
Proof.
  unfold build_network. cbv beta zeta.
  destruct (region_lan _ (Router 1) ValUser nv _), (region_lan _ (Router 2) BalUser nb _).
  repeat split.
Qed.

Lemma build_backbone_ifaces br nv nb :
  serverRouter1Interfaces (build_network br nv nb) = fst (assign (set_base (ip 10 1 1 0) MASK24) [Server; Router 0]) /\
  router1Router2Interfaces (build_network br nv nb) = fst (assign (set_base (ip 20 1 1 0) MASK24) [Router 0; Router 1]) /\
  router1Router3Interfaces (build_network br nv nb) = fst (assign (set_base (ip 30 1 1 0) MASK24) [Router 0; Router 2]).
Proof.
  unfold build_network. cbv beta zeta.
  destruct (region_lan _ (Router 1) ValUser nv _), (region_lan _ (Router 2) BalUser nb _).
  repeat split.
Qed.

Lemma build_lans br nv nb :
  lan_valencia (build_network br nv nb) = fst (region_lan {| csma_rate := "100Mbps" |} (Router 1) ValUser nv (ip 40 1 0 0)) /\
  lan_baleares (build_network br nv nb) = fst (region_lan {| csma_rate := "100Mbps" |} (Router 2) BalUser nb (ip 50 1 0 0)) /\
  valenciaInterfaces (build_network br nv nb) = snd (region_lan {| csma_rate := "100Mbps" |} (Router 1) ValUser nv (ip 40 1 0 0)) /\
  balearesInterfaces (build_network br nv nb) = snd (region_lan {| csma_rate := "100Mbps" |} (Router 2) BalUser nb (ip 50 1 0 0)).
Proof.
  unfold build_network. cbv beta zeta.
  destruct (region_lan _ (Router 1) ValUser nv _), (region_lan _ (Router 2) BalUser nb _).
  repeat split.
Qed.

Lemma lan_nodes lan router mk n network c :
  In c (option_list (fst (region_lan lan router mk n network))) -> ch_nodes c = router :: users mk n.
Proof.
  unfold region_lan. destruct (0 <? n)%Z; simpl; [intros [<-|[]]; reflexivity|tauto].
Qed.

(** Every channel of [build_network] and the nodes it joins. *)
Lemma channels_cases br nv nb c :
  In c (channels (build_network br nv nb)) ->
  ch_nodes c = [Server; Router 0] \/ ch_nodes c = [Router 0; Router 1] \/ ch_nodes c = [Router 0; Router 2] \/
  ch_nodes c = Router 1 :: users ValUser nv \/ ch_nodes c = Router 2 :: users BalUser nb.
Proof.
  destruct (build_lans br nv nb) as (Hv & Hb & _). destruct (build_backbone br nv nb) as (H1 & H2 & H3).
  unfold channels. rewrite Hv, Hb, H1, H2, H3. intros Hc.
  apply in_app_or in Hc as [Hc|Hc]; [|apply in_app_or in Hc as [Hc|Hc]].
  - destruct Hc as [<-|[<-|[<-|[]]]]; auto.
  - do 3 right. left. exact (lan_nodes _ _ _ _ _ _ Hc).
  - do 4 right. exact (lan_nodes _ _ _ _ _ _ Hc).
Qed.

(** Every channel but the bottleneck joins only nodes of one side. *)
Lemma channel_sides br nv nb c :
  In c (channels_without_bottleneck (build_network br nv nb)) ->
  (forall x, In x (ch_nodes c) -> uplink_side x = true) \/
  (forall x, In x (ch_nodes c) -> uplink_side x = false).
Proof.
  destruct (build_lans br nv nb) as (Hv & Hb & _). destruct (build_backbone br nv nb) as (H1 & _ & H3).
  unfold channels_without_bottleneck. rewrite Hv, Hb, H1, H3. intros Hc. apply in_app_or in Hc as [Hc|Hc]; [|apply in_app_or in Hc as [Hc|Hc]].
  - left. destruct Hc as [<-|[<-|[]]]; simpl; intros x Hx;
      repeat (destruct Hx as [<-|Hx]; [reflexivity|]); contradiction.
  - right. rewrite (lan_nodes _ _ _ _ _ _ Hc). intros x [<-|Hx]; [reflexivity|].
    apply In_users in Hx as (i & -> & _). reflexivity.
  - left. rewrite (lan_nodes _ _ _ _ _ _ Hc). intros x [<-|Hx]; [reflexivity|].
    apply In_users in Hx as (i & -> & _). reflexivity.
Qed.

Lemma walk_side br nv nb x y :
  walk (channels_without_bottleneck (build_network br nv nb)) x y ->
  uplink_side x = true -> uplink_side y = true.
Proof.
  induction 1 as [x|x y z c Hc Hx Hy _ IH]; intros Hs; [exact Hs|]. apply IH.
  destruct (channel_sides br nv nb c Hc) as [H|H]; [now apply H|].
  rewrite (H x Hx) in Hs. discriminate.
Qed.


Lemma lan_some lan router mk n network :
  (0 < n)%Z -> fst (region_lan lan router mk n network) = Some (install lan (router :: users mk n)).
Proof. intros Hn. unfold region_lan. destruct (Z.ltb_spec 0 n); [reflexivity|lia]. Qed.

Lemma lan_rate lan router mk n network c :
  In c (option_list (fst (region_lan lan router mk n network))) -> ch_rate c = csma_rate lan.
Proof. unfold region_lan. destruct (0 <? n)%Z; simpl; [intros [<-|[]]; reflexivity|intros []]. Qed.

Lemma walk_one chs c x y : In c chs -> In x (ch_nodes c) -> In y (ch_nodes c) -> walk chs x y.
Proof. intros. eapply walk_cons; eauto using walk_nil. Qed.

Lemma walk_trans chs x y z : walk chs x y -> walk chs y z -> walk chs x z.
Proof. induction 1; eauto using walk_cons. Qed.

Lemma user_in_lan lan router mk n i :
  (0 <= i < n)%Z -> In (mk i) (ch_nodes (install lan (router :: users mk n))).
Proof. intros Hi. right. apply In_users. eauto. Qed.

Lemma In_sinks_val nv nb i : (0 <= i < nv)%Z -> In (ValUser i, 9%Z) (sinks nv nb).
Proof.
  intros Hi. unfold sinks. destruct (Z.ltb_spec 0 nv); [|lia]. apply in_or_app. left.
  apply in_map_iff. exists (ValUser i). split; [reflexivity|]. apply In_users. eauto.
Qed.

Lemma In_sinks_bal nv nb i : (0 <= i < nb)%Z -> In (BalUser i, 10%Z) (sinks nv nb).
Proof.
  intros Hi. unfold sinks. destruct (Z.ltb_spec 0 nb); [|lia]. apply in_or_app. right.
  apply in_map_iff. exists (BalUser i). split; [reflexivity|]. apply In_users. eauto.
Qed.

(** The sources of a region send to the users of its LAN, at the
    addresses [Assign] gave them. *)
Lemma region_targets lan router mk network port cf ch cs :
  (0 <= cf <= max_users)%Z -> (0 <= ch <= max_users)%Z -> (0 <= cs <= max_users)%Z ->
  exists l, region_sources port (uint32_wrap (cf + ch + cs)) cf ch cs = Some l /\
    Forall (fun src => dest_port src = port /\ (1 <= dest_index src <= uint32_wrap (cf + ch + cs))%Z /\
      get_iface (snd (region_lan lan router mk (uint32_wrap (cf + ch + cs)) network)) (dest_index src) =
        Some {| if_node := mk (dest_index src - 1)%Z; if_addr := (network + 1 + dest_index src)%Z |}) l.
Proof.
  intros Hf Hh Hs. destruct (region_dests port cf ch cs Hf Hh Hs) as (l & Hl & Hd & Hp).
  exists l. split; [exact Hl|]. apply Forall_forall. intros src Hin.
  pose proof (region_count_le cf ch cs ltac:(lia) ltac:(lia) ltac:(lia)).
  assert (Hi : In (dest_index src) (zseq 1 (Z.to_nat (region_count cf ch cs))))
    by (rewrite <- Hd; now apply in_map).
  apply In_zseq in Hi. rewrite Z2Nat.id in Hi by lia.
  rewrite uint32_wrap_small by (unfold UINT32_MOD, max_users in *; lia).
  assert (Hk : (1 <= dest_index src <= cf + ch + cs)%Z) by lia.
  split; [exact (proj1 (Forall_forall _ _) Hp src Hin)|split; [exact Hk|]].
  now apply region_iface.
Qed.

Lemma targets_sinks (mk : Z -> Node) port n network ifs sks l :
  (forall i, (0 <= i < n)%Z -> In (mk i, port) sks) ->
  Forall (fun src => dest_port src = port /\ (1 <= dest_index src <= n)%Z /\
    get_iface ifs (dest_index src) =
      Some {| if_node := mk (dest_index src - 1)%Z; if_addr := (network + 1 + dest_index src)%Z |}) l ->
  Forall (fun src => exists i, get_iface ifs (dest_index src) =
      Some {| if_node := mk i; if_addr := (network + 1 + dest_index src)%Z |} /\ In (mk i, dest_port src) sks) l.
Proof.
  intros Hs. apply Forall_impl. intros src (Hp & Hd & Hg).
  exists (dest_index src - 1)%Z. split; [exact Hg|]. rewrite Hp. apply Hs. lia.
Qed.

Lemma host_check : check_range host_ok (Z.to_nat 65538) 0 = true.
Proof. vm_compute. reflexivity. Qed.

Lemma host_usable h :
  (0 <= h < 65538)%Z -> usable (ip 40 1 0 0) MASK22 (ip 40 1 0 0 + h) = true <-> (1 <= h <= 1022)%Z.
Proof.
  intros Hh. pose proof (check_range_spec _ _ _ host_check h ltac:(cbn; lia)) as H.
  unfold host_ok in H. apply Bool.eqb_prop in H. rewrite H, andb_true_iff, !Z.leb_le. reflexivity.
Qed.

Lemma lan_fits_check : check_range lan_fits_ok 1468 0 = true.
Proof. vm_compute. reflexivity. Qed.

(** [num_usuarios_valencia <= 1021] exactly up to 1461 users: by the
    exhaustive check below 1468, and from 1468 on because Valencia gets
    more than [0.7 n - 6] users. *)
Lemma valencia_le_1021 n s :
  (0 <= n <= max_users)%Z -> user_split n = Some s ->
  (num_usuarios_valencia s <= 1021 <-> n <= 1461)%Z.
Proof.
  intros Hn Hs. destruct (Z.le_gt_cases n 1467) as [Hlo|Hhi].
  - pose proof (check_range_spec _ _ _ lan_fits_check n ltac:(lia)) as H.
    unfold lan_fits_ok in H. rewrite Hs in H. apply Bool.eqb_prop in H.
    rewrite <- !Z.leb_le, H. reflexivity.
  - destruct (user_split_facts n s Hn Hs) as [Hle Hsum]. unfold split_le, exact_split in Hle.
    cbn [numValFHD numValHD numValSD numBalFHD numBalHD numBalSD] in Hle.
    unfold simulated_users, num_usuarios_valencia, num_usuarios_baleares in *.
    rewrite !uint32_wrap_small in * by (unfold UINT32_MOD, max_users in *; Z.div_mod_to_equations; lia).
    Z.div_mod_to_equations. lia.
Qed.


(** The targets of the sources of both regions, shared by the network
    and the run of [main]. *)
Lemma sources_targets n s br :
  (0 <= n <= max_users)%Z -> user_split n = Some s ->
  exists lv lb, valencia_sources s = Some lv /\ baleares_sources s = Some lb /\
    Forall (fun src => exists i,
      get_iface (valenciaInterfaces (build_network br (num_usuarios_valencia s) (num_usuarios_baleares s)))
        (dest_index src) = Some {| if_node := ValUser i; if_addr := (ip 40 1 0 0 + 1 + dest_index src)%Z |} /\
      In (ValUser i, dest_port src) (sinks (num_usuarios_valencia s) (num_usuarios_baleares s))) lv /\
    Forall (fun src => exists i,
      get_iface (balearesInterfaces (build_network br (num_usuarios_valencia s) (num_usuarios_baleares s)))
        (dest_index src) = Some {| if_node := BalUser i; if_addr := (ip 50 1 0 0 + 1 + dest_index src)%Z |} /\
      In (BalUser i, dest_port src) (sinks (num_usuarios_valencia s) (num_usuarios_baleares s))) lb.
Proof.
  intros Hn Hs. destruct (user_split_facts n s Hn Hs) as [Hle _]. unfold split_le, exact_split in Hle.
  cbn [numValFHD numValHD numValSD numBalFHD numBalHD numBalSD] in Hle. Z.div_mod_to_equations.
  destruct (build_lans br (num_usuarios_valencia s) (num_usuarios_baleares s)) as (_ & _ & Hv & Hb).
  rewrite Hv, Hb. unfold valencia_sources, baleares_sources, num_usuarios_valencia, num_usuarios_baleares.
  destruct (region_targets {| csma_rate := "100Mbps" |} (Router 1) ValUser (ip 40 1 0 0) 9
    (numValFHD s) (numValHD s) (numValSD s)) as (lv & Ev & Fv); try (unfold max_users in *; lia).
  destruct (region_targets {| csma_rate := "100Mbps" |} (Router 2) BalUser (ip 50 1 0 0) 10
    (numBalFHD s) (numBalHD s) (numBalSD s)) as (lb & Eb & Fb); try (unfold max_users in *; lia).
  exists lv, lb. split; [exact Ev|split; [exact Eb|split]];
    (eapply targets_sinks; [|eassumption]); intros i Hi; [apply In_sinks_val|apply In_sinks_bal]; exact Hi.
Qed.

(** ** Theorems *)

(** C14: the link between routers 0 and 1 is the only channel whose rate
    is the bitrate under test (the other backbone links run at 1Gbps and
    the two LANs at 100Mbps), and it separates the Valencia users from
    the server: each Valencia user is reachable from the server, but not
    through the other channels, while every Baleares user is reachable
    without it. *)
Theorem bottleneck_separates br nv nb :
  ch_rate (link_r1_r2 (build_network br nv nb)) = br /\
  ch_rate (link_server_r1 (build_network br nv nb)) = "1Gbps"%string /\
  ch_rate (link_r1_r3 (build_network br nv nb)) = "1Gbps"%string /\
  (forall c, In c (option_list (lan_valencia (build_network br nv nb)) ++
                   option_list (lan_baleares (build_network br nv nb))) -> ch_rate c = "100Mbps"%string) /\
  (forall i, (0 <= i < nv)%Z ->
     walk (channels (build_network br nv nb)) Server (ValUser i) /\
     ~ walk (channels_without_bottleneck (build_network br nv nb)) Server (ValUser i)) /\
  (forall i, (0 <= i < nb)%Z -> walk (channels_without_bottleneck (build_network br nv nb)) Server (BalUser i)).
Proof.
  destruct (build_backbone br nv nb) as (H1 & H2 & H3). destruct (build_lans br nv nb) as (Hv & Hb & _).
  rewrite H1, H2, H3. do 3 (split; [reflexivity|]). split.
  { rewrite Hv, Hb. intros c Hc. apply in_app_or in Hc as [Hc|Hc]; exact (lan_rate _ _ _ _ _ c Hc). }
  split.
  - intros i Hi. split; [|intros W; pose proof (walk_side br nv nb _ _ W eq_refl) as E; discriminate E].
    unfold channels. rewrite H1, H2, H3, Hv, lan_some by lia.
    apply (walk_trans _ _ (Router 0)); [apply (walk_one _ {| ch_rate := "1Gbps"; ch_nodes := [Server; Router 0] |}); simpl; auto|].
    apply (walk_trans _ _ (Router 1)); [apply (walk_one _ {| ch_rate := br; ch_nodes := [Router 0; Router 1] |}); simpl; auto|].
    apply (walk_one _ (install {| csma_rate := "100Mbps" |} (Router 1 :: users ValUser nv)));
      [|left; reflexivity|exact (user_in_lan _ _ _ _ _ Hi)].
    apply in_or_app. right. apply in_or_app. left. left. reflexivity.
  - intros i Hi. unfold channels_without_bottleneck. rewrite H1, H3, Hb, lan_some by lia.
    apply (walk_trans _ _ (Router 0)); [apply (walk_one _ {| ch_rate := "1Gbps"; ch_nodes := [Server; Router 0] |}); simpl; auto|].
    apply (walk_trans _ _ (Router 2)); [apply (walk_one _ {| ch_rate := "1Gbps"; ch_nodes := [Router 0; Router 2] |}); simpl; auto|].
    apply (walk_one _ (install {| csma_rate := "100Mbps" |} (Router 2 :: users BalUser nb)));
      [|left; reflexivity|exact (user_in_lan _ _ _ _ _ Hi)].
    apply in_or_app. right. apply in_or_app. right. left. reflexivity.
Qed.

(** C15: composition of the sources with the network: for every user count
    the program accepts, each OnOff source of Valencia sends to
    [valenciaInterfaces.GetAddress(k)] where [k] is an interface of a
    Valencia user (never the router's, [k = 0]) with address
    [40.1.0.0 + 1 + k], and that user has the port-9 sink of the
    source's port; likewise for Baleares on [50.1.0.0] and port 10. *)
Theorem sources_reach_sinks n s br :
  (0 <= n <= max_users)%Z -> user_split n = Some s ->
  exists lv lb, valencia_sources s = Some lv /\ baleares_sources s = Some lb /\
    Forall (fun src => exists i,
      get_iface (valenciaInterfaces (build_network br (num_usuarios_valencia s) (num_usuarios_baleares s)))
        (dest_index src) = Some {| if_node := ValUser i; if_addr := (ip 40 1 0 0 + 1 + dest_index src)%Z |} /\
      In (ValUser i, dest_port src) (sinks (num_usuarios_valencia s) (num_usuarios_baleares s))) lv /\
    Forall (fun src => exists i,
      get_iface (balearesInterfaces (build_network br (num_usuarios_valencia s) (num_usuarios_baleares s)))
        (dest_index src) = Some {| if_node := BalUser i; if_addr := (ip 50 1 0 0 + 1 + dest_index src)%Z |} /\
      In (BalUser i, dest_port src) (sinks (num_usuarios_valencia s) (num_usuarios_baleares s))) lb.
Proof. exact (sources_targets n s br). Qed.

(** C19: the Valencia LAN is a /22 network, 40.1.0.0/255.255.252.0: every
    Valencia user gets a host address of it (neither the network nor the
    broadcast address) exactly when [num_usuarios <= 1461]; from 1462
    users on, [Assign] numbers a user past the broadcast address. *)
Theorem valencia_lan_capacity n s br :
  (0 <= n <= max_users)%Z -> user_split n = Some s ->
  (forall k, (1 <= k <= num_usuarios_valencia s)%Z ->
     exists a, get_iface (valenciaInterfaces (build_network br (num_usuarios_valencia s) (num_usuarios_baleares s))) k
       = Some a /\ usable (ip 40 1 0 0) MASK22 (if_addr a) = true)
  <-> (n <= 1461)%Z.
Proof.
  intros Hn Hs. rewrite <- (valencia_le_1021 n s Hn Hs).
  destruct (build_lans br (num_usuarios_valencia s) (num_usuarios_baleares s)) as (_ & _ & Hv & _).
  rewrite Hv. split.
  - intros H. destruct (Z.le_gt_cases (num_usuarios_valencia s) 1021) as [|Hgt]; [assumption|].
    destruct (H 1022%Z ltac:(lia)) as (a & Ha & Hu).
    rewrite region_iface in Ha by lia. injection Ha as <-.
    pose proof (proj1 (host_usable 1023 ltac:(lia)) Hu). lia.
  - intros Hle k Hk. eexists. split; [apply region_iface; lia|]. cbn [if_addr].
    rewrite <- Z.add_assoc. apply host_usable; lia.
Qed.

(** C20: the nodes the channels join are exactly [allNodes]: every device
    [Assign] numbers is on a node that received the internet stack, and
    no node of [allNodes] is left without a channel. *)
Theorem network_nodes br nv nb x :
  In x (all_nodes nv nb) <-> exists c, In c (channels (build_network br nv nb)) /\ In x (ch_nodes c).
Proof.
  split.
  - destruct (build_lans br nv nb) as (Hv & Hb & _). destruct (build_backbone br nv nb) as (H1 & H2 & H3).
    unfold all_nodes, channels. rewrite Hv, Hb, H1, H2, H3, !in_app_iff. cbn [In].
    intros [[<-|[]]|[[<-|[<-|[<-|[]]]]|[Hx|Hx]]].
    + eexists. split; [now left|now left].
    + eexists. split; [now left|right; now left].
    + eexists. split; [right; now left|right; now left].
    + eexists. split; [right; right; now left|right; now left].
    + pose proof Hx as Hu. apply In_users in Hu as (i & -> & Hi). rewrite (lan_some _ (Router 1)) by lia.
      eexists. split; [apply in_or_app; right; apply in_or_app; left; left; reflexivity|right; exact Hx].
    + pose proof Hx as Hu. apply In_users in Hu as (i & -> & Hi). rewrite (lan_some _ (Router 2)) by lia.
      eexists. split; [apply in_or_app; right; apply in_or_app; right; left; reflexivity|right; exact Hx].
  - intros (c & Hc & Hx). unfold all_nodes. rewrite !in_app_iff. cbn [In].
    destruct (channels_cases br nv nb c Hc) as [E|[E|[E|[E|E]]]]; rewrite E in Hx; cbn [In] in Hx; tauto.
Qed.

Lemma bottleneck_separates_witness :
  walk (channels (build_network "5Mbps" 3 2)) Server (ValUser 2) /\
  ~ walk (channels_without_bottleneck (build_network "5Mbps" 3 2)) Server (ValUser 2).
Proof.
  destruct (bottleneck_separates "5Mbps" 3 2) as (_ & _ & _ & _ & Hv & _). apply Hv. lia.
Defined.

Lemma sources_reach_sinks_witness :
  user_split 100 = Some split_100 /\
  exists lv lb, valencia_sources split_100 = Some lv /\ baleares_sources split_100 = Some lb.
Proof.
  assert (Hs : user_split 100 = Some split_100) by (vm_compute; reflexivity).
  split; [exact Hs|].
  destruct (sources_reach_sinks 100 split_100 "5Mbps" ltac:(unfold max_users; lia) Hs)
    as (lv & lb & Hv & Hb & _).
  exists lv, lb. split; [exact Hv|exact Hb].
Defined.

Lemma valencia_lan_capacity_witness :
  exists s, user_split 1461 = Some s /\
    forall k, (1 <= k <= num_usuarios_valencia s)%Z ->
      exists a, get_iface (valenciaInterfaces (build_network "5Mbps" (num_usuarios_valencia s) (num_usuarios_baleares s))) k
        = Some a /\ usable (ip 40 1 0 0) MASK22 (if_addr a) = true.
Proof.
  destruct (user_split 1461) as [s|] eqn:Hs; [|vm_compute in Hs; discriminate].
  exists s. split; [reflexivity|].
  apply (valencia_lan_capacity 1461 s "5Mbps" ltac:(unfold max_users; lia) Hs). lia.
Defined.

End Topology.
