(* ===== verification/Experiment.v ===== *)
(** * Experiment: [main] of [onoffRouting.cc], one simulation run

    [src/src/onoffRouting.cc] [main] reads four parameters (lines 40-49),
    optionally logs them (52-60), seeds the generator and sets the time
    resolution (64-65), reads the bitrate ([std::stod], line 67), splits the
    users (70-77), builds the network (79-130, [Topology]), logs the
    addresses (132-149), installs the sinks and the OnOff sources with
    their random on/off times (152-184), schedules the applications and the
    end of the simulation (186-193), runs ns-3, summarises the flow
    statistics (194-206), appends one record to [results.dat] (208-210),
    destroys the simulator and logs a summary (212-215).

    [main] is modelled as the list of its effects and its outcome.  The
    simulator is a parameter of [Section Main]: [simulate] is the flow
    statistics ns-3 returns for the experiment it is given; [average_mean]
    is [ns3::Average::Mean].  An [NS_LOG_*] line is printed when its log
    component is enabled, which [main] does only under [enableLogs] (the
    [NS_LOG] environment variable, which could enable it too, is taken as
    unset).  [std::stod] throwing [std::invalid_argument] out of [main] ends
    the run through [std::terminate]; an out-of-range [operator[]] or
    [GetAddress] is undefined behaviour, which the theorems show never
    happens. *)

From Stdlib Require Import String Ascii List ZArith Lia Bool Floats.
From S2P Require Import Prelude Double SampleStore Simulation Topology.
Import ListNotations.
Import SampleStore OnOffRouting Topology.

Module Experiment.

(** The parameters after [cmd.Parse] and their defaults (lines 40-43). *)
Record Params := {
  enableLogs : bool;
  num_usuarios : Z;
  bitrate_str : string;
  semilla : Z
}.

Definition default_params : Params :=
  {| enableLogs := false; num_usuarios := 100; bitrate_str := "8Mbps"; semilla := 1 |}.

(** [Seconds(x)] at the resolution [Time::SetResolution(Time::US)] (line
    65): a number of microseconds. *)
Definition Seconds (x : Z) : Z := x * 1000000.

(** The random variables of lines 154-162, with the attributes set on them. *)
Inductive RandomVariable :=
| Weibull (scale shape : float)
| Exponential (mean : float).

Definition onTimeKplus : RandomVariable := Weibull 300 1.1.
Definition onTimeKminus : RandomVariable := Weibull 300 0.9.
Definition onTimeList : list RandomVariable := [onTimeKplus; onTimeKminus].
Definition offTime : RandomVariable := Exponential 6000.
Definition startTime : Z := Seconds 10.

(** An application on a node: a [PacketSink] on a port, or an OnOff source
    sending to an address and port, with its on and off times and rate. *)
Inductive AppKind :=
| PacketSink (port : Z)
| OnOff (remote port : Z) (onTime offTime : RandomVariable) (rate_kbps : Z).

(** Start and stop time; [None]: never stopped before the simulator. *)
Record App := {
  app_node : Node;
  app_kind : AppKind;
  app_start : Z;
  app_stop : option Z
}.

(** [Install] creates an application that starts at 0 and has no stop. *)
Definition install_app (n : Node) (k : AppKind) : App :=
  {| app_node := n; app_kind := k; app_start := 0; app_stop := None |}.

(** [ApplicationContainer::Start(t)] and [Stop(t)] on one application. *)
Definition set_start (t : Z) (a : App) : App :=
  {| app_node := app_node a; app_kind := app_kind a; app_start := t; app_stop := app_stop a |}.
Definition set_stop (t : Z) (a : App) : App :=
  {| app_node := app_node a; app_kind := app_kind a; app_start := app_start a; app_stop := Some t |}.

(** Lines 165 and 176: [PacketSinkHelper(..., port).Install(users).Start(startTime)]. *)
Definition sink_apps (nv nb : Z) : list App :=
  map (fun '(u, port) => set_start startTime (install_app u (PacketSink port))) (sinks nv nb).

(** One iteration of a source loop (lines 170-172, 181-183):
    [OnOffHelper h(..., InetSocketAddress(ifs.GetAddress(user_idx + 1), port))],
    [OnTime] [onTimeList[i % 2]], [OffTime] [offTime], the constant rate,
    installed on the server; [None] when an index is out of range. *)
Definition source_app (ifs : list Iface) (src : Source) : option App :=
  match get_iface ifs (dest_index src), nth_error onTimeList (Z.to_nat (on_time src)) with
  | Some a, Some rv => Some (install_app Server (OnOff (if_addr a) (dest_port src) rv offTime (rate_kbps src)))
  | _, _ => None
  end.

Fixpoint map_option {A B} (f : A -> option B) (l : list A) : option (list B) :=
  match l with
  | [] => Some []
  | x :: l' => match f x, map_option f l' with Some y, Some l'' => Some (y :: l'') | _, _ => None end
  end.

(** What [Simulator::Run] is given: the network, the applications with
    their schedule, the time of [Simulator::Stop] (line 193), the seed. *)
Record Experiment := {
  exp_seed : Z;
  exp_network : Network;
  exp_sinks : list App;
  exp_sources : list App;
  exp_stop : Z
}.

(** The messages of the [NS_LOG_*] lines, with the values they print. *)
Inductive LogMessage :=
| MsgFunction                                    (* line 56 *)
| MsgStart                                       (* line 57 *)
| MsgUsers (n : Z)                               (* line 58 *)
| MsgBitrate (s : string)                        (* line 59 *)
| MsgSeed (z : Z)                                (* line 60 *)
| MsgNodes (nv nb : Z)                           (* line 91 *)
| MsgAddressesBegin                              (* line 134 *)
| MsgAddress (label : string) (addr : option Z)  (* lines 135-142 *)
| MsgAddressesEnd                                (* line 143 *)
| MsgRoutingScheduled                            (* line 145 *)
| MsgApps (port : Z) (fhd hd sd : float)         (* lines 168, 179 *)
| MsgSummary (n : Z) (bitrate : string) (delay jitter loss : float). (* line 215 *)

Inductive Effect :=
| Log (m : LogMessage)
| SetSeed (z : Z)
| SetResolutionUS
| ScheduleRoutingTables (t : Z)
| Run (e : Experiment)
| AppendResults (r : RawSample)
| Destroy.

Inductive AbortReason :=
| UncaughtInvalidArgument
| UndefinedBehaviour
| Unmodelled.

Inductive Outcome :=
| Exit (code : Z)
| Terminate (why : AbortReason).

(** [GetAddress(k)] of a container, as printed. *)
Definition addr_at (ifs : list Iface) (k : Z) : option Z := option_map if_addr (get_iface ifs k).

(** Lines 134-143. *)
Definition address_msgs (net : Network) (nv nb : Z) : list LogMessage :=
  [MsgAddressesBegin;
   MsgAddress "Servidor" (addr_at (serverRouter1Interfaces net) 0);
   MsgAddress "Router 1 (eth0)" (addr_at (serverRouter1Interfaces net) 1);
   MsgAddress "Router 1 (eth1)" (addr_at (router1Router2Interfaces net) 0);
   MsgAddress "Router 2 (eth0)" (addr_at (router1Router2Interfaces net) 1);
   MsgAddress "Router 1 (eth2)" (addr_at (router1Router3Interfaces net) 0);
   MsgAddress "Router 3 (eth0)" (addr_at (router1Router3Interfaces net) 1)] ++
  (if (0 <? nv)%Z then [MsgAddress "Router 2 (LAN Valencia)" (addr_at (valenciaInterfaces net) 0)] else []) ++
  (if (0 <? nb)%Z then [MsgAddress "Router 3 (LAN Baleares)" (addr_at (balearesInterfaces net) 0)] else []) ++
  [MsgAddressesEnd].

(** Every interface container of the network. *)
Definition interfaces (net : Network) : list Iface :=
  serverRouter1Interfaces net ++ router1Router2Interfaces net ++ router1Router3Interfaces net ++
  valenciaInterfaces net ++ balearesInterfaces net.

(** What the schedule promises a source: it runs on the server from
    10 s to 40 s, within [Simulator::Stop]; its on time is one of
    [onTimeList] and its off time [offTime]; it sends to the owner of its
    remote address, which has a sink on the source's port, started at
    10 s and never stopped. *)
Definition source_ok (e : Experiment) (a : App) : Prop :=
  app_node a = Server /\ app_start a = startTime /\ app_stop a = Some (Seconds 40) /\
  (Seconds 40 <= exp_stop e)%Z /\
  match app_kind a with
  | OnOff remote port on off _ =>
      In on onTimeList /\ off = offTime /\
      exists sk, In sk (exp_sinks e) /\ app_kind sk = PacketSink port /\
        In {| if_node := app_node sk; if_addr := remote |} (interfaces (exp_network e)) /\
        app_start sk = startTime /\ app_stop sk = None
  | PacketSink _ => False
  end.

Definition schedule_ok (e : Experiment) : Prop := Forall (source_ok e) (exp_sources e).

(** The effects that are not console output. *)
Definition quiet (ef : Effect) : bool :=
  match ef with Log _ | ScheduleRoutingTables _ => false | _ => true end.

(** The effects of the simulation proper: running it, the record, the end. *)
Definition simulating (ef : Effect) : bool :=
  match ef with Run _ | AppendResults _ | Destroy => true | _ => false end.

(** The parameters with [--enableLogs] set to [l]. *)
Definition with_logs (p : Params) (l : bool) : Params :=
  {| enableLogs := l; num_usuarios := num_usuarios p; bitrate_str := bitrate_str p; semilla := semilla p |}.

Section Main.

(** [Simulator::Run] followed by [flowmon->GetFlowStats()]: the ns-3
    execution, not modelled. *)
Variable simulate : Experiment -> list FlowStats.
Variable average_mean : list float -> float.

(** The [NS_LOG_*] lines print only when [enableLogs] enabled the component. *)
Definition logs (p : Params) (ms : list LogMessage) : list Effect :=
  if enableLogs p then map Log ms else [].

(** Lines 132-149, under [if (enableLogs)]: the addresses, the notice, and
    [PrintRoutingTableAllAt(Seconds(11.0), ...)]. *)
Definition debug_effects (p : Params) (net : Network) (nv nb : Z) : list Effect :=
  if enableLogs p then map Log (address_msgs net nv nb ++ [MsgRoutingScheduled]) ++
                       [ScheduleRoutingTables (Seconds 11)] else [].

(** Line 168 (179): the log of a region's loop bounds, under
    [if (num_usuarios_x > 0)]. *)
Definition region_log (p : Params) (port n cf ch cs : Z) : list Effect :=
  if (0 <? n)%Z then logs p [MsgApps port (loop_bound cf) (loop_bound ch) (loop_bound cs)] else [].

(** Lines 169-172 (180-183): the applications of a region's three source
    loops; [None] when an index is out of range. *)
Definition region_source_apps (port n cf ch cs : Z) (ifs : list Iface) : option (list App) :=
  match region_sources port n cf ch cs with
  | Some l => map_option (source_app ifs) l
  | None => None
  end.

(** The whole of [main], after [cmd.Parse]. *)
Definition main (p : Params) : list Effect * Outcome :=
  let pre := logs p [MsgFunction; MsgStart; MsgUsers (num_usuarios p); MsgBitrate (bitrate_str p);
                     MsgSeed (semilla p)] ++ [SetSeed (semilla p); SetResolutionUS] in
  match bitrate_val (bitrate_str p) with
  | InvalidArgument => (pre, Terminate UncaughtInvalidArgument)
  | NotModelled => (pre, Terminate Unmodelled)
  | Converted b =>
    match user_split (num_usuarios p) with
    | None => (pre, Terminate UndefinedBehaviour)
    | Some s =>
      let nv := num_usuarios_valencia s in
      let nb := num_usuarios_baleares s in
      let net := build_network (bitrate_str p) nv nb in
      let setup := logs p [MsgNodes nv nb] ++ debug_effects p net nv nb in
      let lv_log := region_log p 9 nv (numValFHD s) (numValHD s) (numValSD s) in
      let lb_log := region_log p 10 nb (numBalFHD s) (numBalHD s) (numBalSD s) in
      let av := region_source_apps 9 nv (numValFHD s) (numValHD s) (numValSD s) (valenciaInterfaces net) in
      let ab := region_source_apps 10 nb (numBalFHD s) (numBalHD s) (numBalSD s) (balearesInterfaces net) in
      match av, ab with
      | Some av, Some ab =>
        let exp := {| exp_seed := semilla p; exp_network := net; exp_sinks := sink_apps nv nb;
                      exp_sources := map (fun a => set_stop (Seconds 40) (set_start startTime a)) (av ++ ab);
                      exp_stop := Seconds 45 |} in
        let r := run_record average_mean (num_usuarios p) b (simulate exp) in
        (pre ++ setup ++ lv_log ++ lb_log ++ [Run exp; AppendResults r; Destroy] ++
           logs p [MsgSummary (num_usuarios p) (bitrate_str p) (tempDelay r) (tempJitter r) (tempLoss r)],
         Exit 0)
      | None, _ => (pre ++ setup ++ lv_log, Terminate UndefinedBehaviour)
      | Some _, None => (pre ++ setup ++ lv_log ++ lb_log, Terminate UndefinedBehaviour)
      end
    end
  end.

(** ** Lemmas *)

Lemma map_option_Forall {A B} (f : A -> option B) (P : B -> Prop) (l : list A) :
  Forall (fun x => exists y, f x = Some y /\ P y) l ->
  exists l', map_option f l = Some l' /\ Forall P l' /\ length l' = length l.
Proof.
  induction 1 as [|x l (y & Hy & Py) _ (l' & Hl & Pl & Ll)]; [now exists []|].
  exists (y :: l'). simpl. rewrite Hy, Hl. auto.
Qed.

Lemma class_loop_on_time fuel bound cls port i u l u' :
  class_loop fuel bound cls port i u = Some (l, u') -> Forall (fun src => 0 <= on_time src < 2)%Z l.
Proof.
  revert i u l u'. induction fuel as [|f IH]; simpl; intros i u l u' H; [discriminate|].
  destruct (_ <? bound)%float; [|injection H as <- _; constructor].
  destruct (class_loop f _ _ _ _ _) as [[l0 u0]|] eqn:E; [|discriminate].
  injection H as <- _. constructor; [apply Z.mod_pos_bound; lia|eauto].
Qed.

Lemma region_sources_on_time port n cf ch cs l :
  region_sources port n cf ch cs = Some l -> Forall (fun src => 0 <= on_time src < 2)%Z l.
Proof.
  unfold region_sources. destruct (0 <? n)%Z; [|intros [= <-]; constructor].
  destruct (class_loop _ _ FHD _ _ _) as [[l1 u1]|] eqn:E1; [|discriminate].
  destruct (class_loop _ _ HD _ _ _) as [[l2 u2]|] eqn:E2; [|discriminate].
  destruct (class_loop _ _ SD _ _ _) as [[l3 u3]|] eqn:E3; [|discriminate].
  intros [= <-]. apply Forall_app; split; [|apply Forall_app; split]; eapply class_loop_on_time; eassumption.
Qed.

Lemma get_iface_In ifs k a : get_iface ifs k = Some a -> In a ifs.
Proof. unfold get_iface. destruct (0 <=? k)%Z; [apply nth_error_In|discriminate]. Qed.

Lemma nth_onTimeList (k : Z) : (0 <= k < 2)%Z -> exists rv, nth_error onTimeList (Z.to_nat k) = Some rv.
Proof. intros Hk. destruct (Z.to_nat k) as [|[|]] eqn:E; [eexists; reflexivity|eexists; reflexivity|lia]. Qed.

(** The applications of a region's sources, when every source targets a
    user of the container with a sink on its port. *)
Lemma region_apps_ok (mk : Z -> Node) ifs sks network port n cf ch cs l :
  region_sources port n cf ch cs = Some l ->
  Forall (fun src => exists i, get_iface ifs (dest_index src) =
      Some {| if_node := mk i; if_addr := (network + 1 + dest_index src)%Z |} /\ In (mk i, dest_port src) sks) l ->
  exists apps, region_source_apps port n cf ch cs ifs = Some apps /\ length apps = length l /\
    Forall (fun a => app_node a = Server /\ app_start a = 0%Z /\ app_stop a = None /\
      exists remote q rv rate i, app_kind a = OnOff remote q rv offTime rate /\ In rv onTimeList /\
        In {| if_node := mk i; if_addr := remote |} ifs /\ In (mk i, q) sks) apps.
Proof.
  intros Hl Ht. unfold region_source_apps. rewrite Hl.
  destruct (map_option_Forall (source_app ifs) (fun a => app_node a = Server /\ app_start a = 0%Z /\
      app_stop a = None /\ exists remote q rv rate i, app_kind a = OnOff remote q rv offTime rate /\ In rv onTimeList /\
        In {| if_node := mk i; if_addr := remote |} ifs /\ In (mk i, q) sks) l) as (apps & Ha & Pa & La);
    [|eauto].
  pose proof (region_sources_on_time _ _ _ _ _ _ Hl) as Ho. rewrite Forall_forall in Ht, Ho |- *.
  intros src Hin. destruct (Ht src Hin) as (i & Hg & Hs). destruct (nth_onTimeList _ (Ho src Hin)) as (rv & Hrv).
  unfold source_app. rewrite Hg, Hrv. eexists. split; [reflexivity|]. cbn.
  do 3 (split; [reflexivity|]). do 5 eexists. split; [reflexivity|].
  split; [exact (nth_error_In _ _ Hrv)|]. split; [exact (get_iface_In _ _ _ Hg)|exact Hs].
Qed.

(** A source installed as the loops do, once [sourceApps.Start] and
    [Stop] have run, in an experiment that has the sink of its target. *)
Lemma scheduled_source_ok e a (u : Node) remote q rv rate :
  exp_stop e = Seconds 45 -> app_node a = Server -> app_kind a = OnOff remote q rv offTime rate ->
  In rv onTimeList ->
  In {| if_node := u; if_addr := remote |} (interfaces (exp_network e)) ->
  In (set_start startTime (install_app u (PacketSink q))) (exp_sinks e) ->
  source_ok e (set_stop (Seconds 40) (set_start startTime a)).
Proof.
  intros He Hn Hk Hrv Hi Hs. unfold source_ok. cbn [app_node app_kind app_start app_stop set_stop set_start].
  rewrite Hk, He. do 3 (split; [assumption || reflexivity|]). split; [unfold Seconds; lia|].
  split; [exact Hrv|split; [reflexivity|]]. eexists. split; [exact Hs|]. cbn. repeat split; exact Hi.
Qed.

Lemma In_sink_apps nv nb u q : In (u, q) (sinks nv nb) ->
  In (set_start startTime (install_app u (PacketSink q))) (sink_apps nv nb).
Proof. intros H. unfold sink_apps. exact (in_map (fun '(u, port) => _) _ _ H). Qed.

(** The sources of a run that reaches the simulator: both regions'
    applications exist and every one of them targets a user with a sink. *)
Lemma main_sources p s :
  (0 <= num_usuarios p <= max_users)%Z -> user_split (num_usuarios p) = Some s ->
  let net := build_network (bitrate_str p) (num_usuarios_valencia s) (num_usuarios_baleares s) in
  exists av ab,
    region_source_apps 9 (num_usuarios_valencia s) (numValFHD s) (numValHD s) (numValSD s) (valenciaInterfaces net) = Some av /\
    region_source_apps 10 (num_usuarios_baleares s) (numBalFHD s) (numBalHD s) (numBalSD s) (balearesInterfaces net) = Some ab /\
    forall e, exp_network e = net -> exp_sinks e = sink_apps (num_usuarios_valencia s) (num_usuarios_baleares s) ->
      exp_stop e = Seconds 45 ->
      Forall (source_ok e) (map (fun a => set_stop (Seconds 40) (set_start startTime a)) (av ++ ab)).
Proof.
  intros Hn Hs net.
  destruct (sources_targets (num_usuarios p) s (bitrate_str p) Hn Hs) as (lv & lb & Hv & Hb & Tv & Tb).
  destruct (region_apps_ok ValUser _ _ _ _ _ _ _ _ _ Hv Tv) as (av & Ha & _ & Pa).
  destruct (region_apps_ok BalUser _ _ _ _ _ _ _ _ _ Hb Tb) as (ab & Hb' & _ & Pb).
  exists av, ab. split; [exact Ha|split; [exact Hb'|]]. intros e Hnet Hsk Hst.
  assert (Ifs : forall x, In x (valenciaInterfaces net) \/ In x (balearesInterfaces net) ->
                          In x (interfaces (exp_network e)))
    by (intros x Hx; rewrite Hnet; unfold interfaces; rewrite !in_app_iff; tauto).
  rewrite Forall_map. apply Forall_app. split; [revert Pa|revert Pb]; apply Forall_impl;
    intros a (Hnode & _ & _ & remote & q & rv & rate & i & Hk & Hrv & Hi & Hq);
    (eapply (scheduled_source_ok e a _ remote q rv rate Hst Hnode Hk Hrv);
     [apply Ifs; first [left; exact Hi|right; exact Hi]|rewrite Hsk; now apply In_sink_apps]).
Qed.

(** The console output of [main] in pieces: only logs, or the routing
    tables' printout. *)
Lemma Forall_logs (P : Effect -> Prop) p ms : (forall m, P (Log m)) -> Forall P (logs p ms).
Proof.
  intros H. unfold logs. destruct (enableLogs p); [|constructor].
  apply Forall_forall. intros x Hx. apply in_map_iff in Hx as (m & <- & _). apply H.
Qed.

Lemma Forall_region_log (P : Effect -> Prop) p port n cf ch cs :
  (forall m, P (Log m)) -> Forall P (region_log p port n cf ch cs).
Proof. intros H. unfold region_log. destruct (0 <? n)%Z; [now apply Forall_logs|constructor]. Qed.

Lemma Forall_debug (P : Effect -> Prop) p net nv nb :
  (forall m, P (Log m)) -> (forall t, P (ScheduleRoutingTables t)) -> Forall P (debug_effects p net nv nb).
Proof.
  intros H Ht. unfold debug_effects. destruct (enableLogs p); [|constructor].
  apply Forall_app. split; [|constructor; auto]. apply Forall_forall. intros x Hx.
  apply in_map_iff in Hx as (m & <- & _). apply H.
Qed.

Lemma logs_no_record p ms r : ~ In (AppendResults r) (logs p ms).
Proof.
  intros Hr. pose proof (Forall_logs (fun ef => ef <> AppendResults r) p ms ltac:(discriminate)) as F.
  rewrite Forall_forall in F. exact (F _ Hr eq_refl).
Qed.

Lemma filter_quiet_output l : Forall (fun ef => quiet ef = false) l -> filter quiet l = [].
Proof. induction 1 as [|x l Hx _ IH]; simpl; [reflexivity|now rewrite Hx]. Qed.

Lemma filter_logs p ms : filter quiet (logs p ms) = [].
Proof. apply filter_quiet_output, Forall_logs. reflexivity. Qed.

Lemma filter_region_log p port n cf ch cs : filter quiet (region_log p port n cf ch cs) = [].
Proof. apply filter_quiet_output, Forall_region_log. reflexivity. Qed.

Lemma filter_debug p net nv nb : filter quiet (debug_effects p net nv nb) = [].
Proof. apply filter_quiet_output, Forall_debug; reflexivity. Qed.

Lemma logs_silent p ms : enableLogs p = false -> logs p ms = [].
Proof. unfold logs. now intros ->. Qed.

Lemma region_log_silent p port n cf ch cs : enableLogs p = false -> region_log p port n cf ch cs = [].
Proof. unfold region_log. intros H. destruct (0 <? n)%Z; [now apply logs_silent|reflexivity]. Qed.

Lemma debug_silent p net nv nb : enableLogs p = false -> debug_effects p net nv nb = [].
Proof. unfold debug_effects. now intros ->. Qed.

Create Rewrite HintDb experiment_rw.
#[local] Hint Rewrite filter_app filter_logs filter_region_log filter_debug : experiment_rw.

(** Split [main] on every test it makes. *)
Ltac main_cases :=
  unfold main; cbv zeta; cbn [enableLogs num_usuarios bitrate_str semilla];
  repeat match goal with |- context [match ?x with _ => _ end] => destruct x end.

(** The shape of an accepted run, shared by the theorems below. *)
Lemma main_shape p b s :
  (0 <= num_usuarios p <= max_users)%Z -> bitrate_val (bitrate_str p) = Converted b ->
  user_split (num_usuarios p) = Some s ->
  exists e pre post,
    main p = (pre ++ [Run e; AppendResults (run_record average_mean (num_usuarios p) b (simulate e)); Destroy] ++ post,
              Exit 0) /\
    Forall (fun ef => simulating ef = false) (pre ++ post) /\
    exp_network e = build_network (bitrate_str p) (num_usuarios_valencia s) (num_usuarios_baleares s) /\
    exp_seed e = semilla p /\ exp_stop e = Seconds 45 /\ schedule_ok e.
Proof.
  intros Hn Hb Hs. destruct (main_sources p s Hn Hs) as (av & ab & Ha & Hb' & Hok).
  unfold main. rewrite Hb, Hs. cbv zeta. rewrite Ha, Hb'.
  match goal with |- exists e pre post, (?l1 ++ ?l2 ++ ?l3 ++ ?l4 ++ [Run ?e0; _; _] ++ ?l5, _) = _ /\ _ =>
    exists e0, (l1 ++ l2 ++ l3 ++ l4), l5 end.
  split; [now rewrite <- !app_assoc|].
  split; [|repeat split; apply Hok; reflexivity].
  repeat (apply Forall_app; split);
    auto using Forall_logs, Forall_region_log, Forall_debug; repeat constructor.
Qed.

(** ** Theorems *)

(** C9: a run whose parameters the program accepts (a user count up to
    65535 and a bitrate that [std::stod] reads) exits 0 after exactly one
    simulation and one record: the simulator gets the network of
    [build_network], the seed, the stop at 45 s and a schedule in which
    every source, on the server from exactly 10 s to 40 s with an on time
    of [onTimeList] and [offTime] as off time, sends to the owner of its
    remote address, whose sink listens on its port from exactly 10 s and
    is never stopped ([source_ok]); the
    record appended to [results.dat] is [run_record] of the flow
    statistics of that very simulation. *)
Theorem main_run p b s :
  (0 <= num_usuarios p <= max_users)%Z -> bitrate_val (bitrate_str p) = Converted b ->
  user_split (num_usuarios p) = Some s ->
  exists e pre post,
    main p = (pre ++ [Run e; AppendResults (run_record average_mean (num_usuarios p) b (simulate e)); Destroy] ++ post,
              Exit 0) /\
    Forall (fun ef => simulating ef = false) (pre ++ post) /\
    exp_network e = build_network (bitrate_str p) (num_usuarios_valencia s) (num_usuarios_baleares s) /\
    exp_seed e = semilla p /\ exp_stop e = Seconds 45 /\ schedule_ok e.
Proof. exact (main_shape p b s). Qed.


(** C16: the error paths of a run: for every accepted user count, the run
    exits 0 exactly when [std::stod] reads the bitrate; it ends in
    [std::terminate] through an uncaught [std::invalid_argument] exactly
    when the text before ["Mbps"] has no number; and [results.dat] gets a
    record exactly when the run exits 0. *)
Theorem main_outcome p :
  (0 <= num_usuarios p <= max_users)%Z ->
  (snd (main p) = Exit 0 <-> exists b, bitrate_val (bitrate_str p) = Converted b) /\
  (snd (main p) = Terminate UncaughtInvalidArgument <-> bitrate_val (bitrate_str p) = InvalidArgument) /\
  ((exists r, In (AppendResults r) (fst (main p))) <-> snd (main p) = Exit 0).
Proof.
  intros Hn. destruct (bitrate_val (bitrate_str p)) as [b| |] eqn:Hb.
  - destruct (user_split (num_usuarios p)) as [s|] eqn:Hs;
      [|pose proof (split_ok_at _ Hn) as H; unfold split_ok in H; rewrite Hs in H; discriminate].
    destruct (main_shape p b s Hn Hb Hs) as (e & pre & post & -> & _). cbn [fst snd].
    split; [split; eauto|split; [split; discriminate|]].
    split; [reflexivity|intros _; eexists; apply in_or_app; right; right; left; reflexivity].
  - unfold main. rewrite Hb. cbn [fst snd].
    split; [split; [discriminate|intros (b & [=])]|split; [tauto|]].
    split; [|discriminate]. intros (r & Hr). apply in_app_or in Hr as [Hr|[[=]|[[=]|[]]]].
    destruct (logs_no_record _ _ _ Hr).
  - unfold main. rewrite Hb. cbn [fst snd].
    split; [split; [discriminate|intros (b & [=])]|split; [split; discriminate|]].
    split; [|discriminate]. intros (r & Hr). apply in_app_or in Hr as [Hr|[[=]|[[=]|[]]]].
    destruct (logs_no_record _ _ _ Hr).
Qed.

(** C22: logging is observationally neutral: with or without
    [--enableLogs], a run seeds, simulates the same experiment, appends
    the same record and ends the same way; only the console output
    differs. *)
Theorem main_logs_neutral p l :
  filter quiet (fst (main (with_logs p l))) = filter quiet (fst (main p)) /\
  snd (main (with_logs p l)) = snd (main p).
Proof.
  destruct p as [en n br seed]. unfold with_logs. cbn [enableLogs num_usuarios bitrate_str semilla].
  main_cases; cbn [fst snd]; autorewrite with experiment_rw; split; reflexivity.
Qed.

(** C23: without [--enableLogs] a run prints nothing, not even the final
    summary of line 215 that the comment above it says is always
    printed: [NS_LOG_INFO] prints only for an enabled log component. *)
Theorem main_silent p :
  enableLogs p = false -> Forall (fun ef => quiet ef = true) (fst (main p)).
Proof.
  intros Hq. apply Forall_forall. intros ef Hin.
  enough (E : filter quiet (fst (main p)) = fst (main p)) by
    (rewrite <- E in Hin; now apply filter_In in Hin).
  main_cases; cbn [fst]; rewrite ?logs_silent, ?region_log_silent, ?debug_silent by exact Hq; reflexivity.
Qed.

End Main.

(** The debug lines of lines 134-143, for regions with users: the label
    "Router k" prints an address of [routerNodes.Get(k - 1)], the LAN
    lines the routers' addresses in their LANs. *)
Theorem address_msgs_spec br nv nb :
  (0 < nv)%Z -> (0 < nb)%Z ->
  address_msgs (build_network br nv nb) nv nb =
  [MsgAddressesBegin; MsgAddress "Servidor" (Some (ip 10 1 1 1)); MsgAddress "Router 1 (eth0)" (Some (ip 10 1 1 2));
   MsgAddress "Router 1 (eth1)" (Some (ip 20 1 1 1)); MsgAddress "Router 2 (eth0)" (Some (ip 20 1 1 2));
   MsgAddress "Router 1 (eth2)" (Some (ip 30 1 1 1)); MsgAddress "Router 3 (eth0)" (Some (ip 30 1 1 2));
   MsgAddress "Router 2 (LAN Valencia)" (Some (ip 40 1 0 1)); MsgAddress "Router 3 (LAN Baleares)" (Some (ip 50 1 0 1));
   MsgAddressesEnd].
Proof.
  intros Hv Hb. destruct (build_backbone_ifaces br nv nb) as (I1 & I2 & I3).
  destruct (build_lans br nv nb) as (_ & _ & Iv & Ib). unfold address_msgs, addr_at.
  rewrite I1, I2, I3, Iv, Ib, !region_iface0 by assumption.
  destruct (Z.ltb_spec 0 nv), (Z.ltb_spec 0 nb); try lia. reflexivity.
Qed.

(** ** Witnesses: the default run, with a simulator that reports no flow *)

Lemma main_run_witness :
  exists e, In (Run e) (fst (main (fun _ => []) (fun _ => 0%float) default_params)) /\ schedule_ok e.
Proof.
  destruct (main_run (fun _ => []) (fun _ => 0%float) default_params (double_of_Z 8) split_100)
    as (e & pre & post & Hm & _ & _ & _ & _ & Hs);
    [cbn; unfold max_users; lia|vm_compute; reflexivity|vm_compute; reflexivity|].
  exists e. rewrite Hm. split; [apply in_or_app; right; left; reflexivity|exact Hs].
Defined.

(** [--bitrate=Mbps]: no number before the unit. *)
Lemma main_outcome_witness :
  snd (main (fun _ => []) (fun _ => 0%float)
         {| enableLogs := false; num_usuarios := 100; bitrate_str := "Mbps"; semilla := 1 |})
    = Terminate UncaughtInvalidArgument.
Proof.
  destruct (main_outcome (fun _ => []) (fun _ => 0%float)
              {| enableLogs := false; num_usuarios := 100; bitrate_str := "Mbps"; semilla := 1 |})
    as (_ & [_ H] & _); [cbn; unfold max_users; lia|].
  apply H. vm_compute. reflexivity.
Defined.

Lemma main_silent_witness :
  Forall (fun ef => quiet ef = true) (fst (main (fun _ => []) (fun _ => 0%float) default_params)).
Proof. apply main_silent. reflexivity. Defined.

End Experiment.
