(* ===== verification/ResultsFile.v ===== *)
(** * ResultsFile: the text of [results.dat] between the two programs

    [onoffRouting.cc] appends one line per run (lines 208-210):
<<
    std::ofstream outFile("results.dat", std::ios::app);
    outFile << num_usuarios << " " << bitrate_val << " " << lossRatio << " "
            << avgDelay.Mean() << " " << avgJitter.Mean() << std::endl;
>>
    and [plot-results.cc] reads the file back with
    [inFile >> numUsers >> tempBitrate >> tempLoss >> tempDelay >> tempJitter]
    (line 107).  This file models both sides at the level of characters:
    - the writer: [operator<<] of a [uint32_t] (its decimal digits) and of
      a [double] under the stream's default flags, which libstdc++ prints
      as the C conversion [%.6g]: the value rounded to 6 significant digits
      (ties to even, on the exact binary value), in fixed notation when its
      decimal exponent [X] is in [-4, 6) and as [d.ddddde+XX] otherwise,
      trailing zeros and a bare point removed; [inf], [-inf] and [nan] for
      the special values;
    - the reader: each [>>] skips white space; [num_get<int>] reads a sign
      and digits and fails on no digit or on overflow of [int];
      [num_get<double>] gathers a sign, digits, a point, digits and an
      exponent with at least one digit, and converts the decimal to the
      nearest [double] (ties to even), failing on no digit or on overflow;
      [inf] and [nan] are not numbers to it.

    The decimal-binary conversions are computed exactly on integers
    ([round6], [decimal_to_float]).  [read_file] runs the read loop's test
    until the first failed extraction, as [SampleStore.read_loop] expects
    its input.  [Section Campaign] appends the records of successive runs
    of [Experiment.main], whose simulator and [Average::Mean] stay
    parameters.

    The lemmas read every piece back ([read_show_uint], [read_numeral],
    [read_show_double], [read_record_line]); the theorems give the whole
    file ([results_roundtrip]), its silent end at an unreadable line
    ([results_stop]), the keys that survive it ([results_keys_exact]) and
    the path from the runs to the records [plot-results] reads
    ([runs_to_plot]). *)

From Stdlib Require Import String Ascii List ZArith Lia Bool Floats.
From S2P Require Import Prelude Double SampleStore Simulation Experiment.
Import ListNotations.
Import SampleStore OnOffRouting Experiment.

Module ResultsFile.

(** ** Exact decimal and binary rounding *)

(** [floor (log_b n)] for [n >= 1], by repeated division; [log2 n + 1]
    divisions are always enough. *)
Fixpoint ilog (fuel : nat) (b n : Z) : Z :=
  match fuel with
  | O => 0
  | S f => if (n <? b)%Z then 0 else (1 + ilog f b (n / b))%Z
  end.

Definition zlog (b n : Z) : Z := ilog (S (Z.to_nat (Z.log2 n))) b n.

(** [floor (log_b (N / D))] for positive [N] and [D]. *)
Definition floor_log (b N D : Z) : Z :=
  if (D <=? N)%Z then zlog b (N / D) else (- (zlog b ((D - 1) / N) + 1))%Z.

(** [num / den] rounded to the nearest integer, ties to even. *)
Definition round_half_even (num den : Z) : Z :=
  let q := (num / den)%Z in
  let r := (num mod den)%Z in
  if (den <? 2 * r)%Z || ((2 * r =? den)%Z && Z.odd q) then (q + 1)%Z else q.

(** [N / D * b ^ k] as a fraction. *)
Definition scale (N D k b : Z) : Z * Z :=
  if (0 <=? k)%Z then ((N * b ^ k)%Z, D) else (N, (D * b ^ (- k))%Z).

(** The value [m * 2 ^ e] of a finite double, as a fraction. *)
Definition ratio_of (m e : Z) : Z * Z := scale m 1 e 2.

(** [N / D] rounded to 6 significant digits: [(q, X)] with
    [10^5 <= q < 10^6], the value being [q * 10 ^ (X - 5)]. *)
Definition round6 (N D : Z) : Z * Z :=
  let X := floor_log 10 N D in
  let '(num, den) := scale N D (5 - X) 10 in
  let q := round_half_even num den in
  if (q =? 1000000)%Z then (100000%Z, (X + 1)%Z) else (q, X).

(** [strtod] of [(-1)^neg * d * 10^q], [d >= 0]: the nearest double, ties
    to even, with subnormals; [None] on overflow. *)
Definition decimal_to_float (neg : bool) (d q : Z) : option float :=
  if (d =? 0)%Z then Some (if neg then (-0)%float else 0%float) else
  let nd := (zlog 10 d + 1)%Z in
  if (310 <? q + nd)%Z then None
  else if (q + nd <? -330)%Z then Some (if neg then (-0)%float else 0%float)
  else
    let '(N, D) := scale d 1 q 10 in
    let u := Z.max (floor_log 2 N D - 52) (-1074) in
    let '(num, den) := scale N D (- u) 2 in
    let M := round_half_even num den in
    if (1024 <=? Z.log2 M + u)%Z then None
    else let v := FloatOps.Z.ldexp (PrimFloat.of_uint63 (Uint63.of_Z M)) u in
         Some (if neg then (- v)%float else v).

(** ** The writer *)

(** The decimal digits of [n >= 0], most significant first. *)
Fixpoint digits_fuel (fuel : nat) (n : Z) (acc : list Z) : list Z :=
  match fuel with
  | O => acc
  | S f => let acc' := (n mod 10)%Z :: acc in
           if (n <? 10)%Z then acc' else digits_fuel f (n / 10) acc'
  end.

Definition decimal_digits (n : Z) : list Z := digits_fuel (S (Z.to_nat (Z.log2 n))) n [].

(** A number as [operator<<] writes it: sign, integer digits, fraction
    digits (no point when there are none), exponent. *)
Record Numeral := {
  n_neg : bool;
  n_int : list Z;
  n_frac : list Z;
  n_exp : option Z
}.

Fixpoint drop_zeros (l : list Z) : list Z :=
  match l with 0%Z :: l' => drop_zeros l' | _ => l end.

(** The trailing zeros of a fraction removed. *)
Definition strip_zeros (l : list Z) : list Z := rev (drop_zeros (rev l)).

(** The exponent of [%e] has at least two digits. *)
Definition pad2 (ds : list Z) : list Z := if (List.length ds <? 2)%nat then 0%Z :: ds else ds.

Definition newline : string := String (ascii_of_nat 10) EmptyString.

Definition sign_text (neg : bool) : string := if neg then "-" else "".

(** The fraction: a point and its digits, nothing when there are none. *)
Definition frac_text (fs : list Z) : string :=
  match fs with [] => "" | _ => "." ++ digits_string fs end.

(** The exponent of [%e]: [e], its sign, at least two digits. *)
Definition exp_text (ex : option Z) : string :=
  match ex with
  | None => ""
  | Some e => "e" ++ (if (e <? 0)%Z then "-" else "+") ++ digits_string (pad2 (decimal_digits (Z.abs e)))
  end.

Definition numeral_text (n : Numeral) : string :=
  sign_text (n_neg n) ++ digits_string (n_int n) ++ frac_text (n_frac n) ++ exp_text (n_exp n).

(** [%.6g] of the finite nonzero [(-1)^neg * m * 2^e]. *)
Definition g6_numeral (neg : bool) (m e : Z) : Numeral :=
  let '(N, D) := ratio_of m e in
  let '(q, X) := round6 N D in
  let ds := decimal_digits q in
  if (-4 <=? X)%Z && (X <? 6)%Z then
    if (0 <=? X)%Z then
      {| n_neg := neg; n_int := firstn (S (Z.to_nat X)) ds;
         n_frac := strip_zeros (skipn (S (Z.to_nat X)) ds); n_exp := None |}
    else
      {| n_neg := neg; n_int := [0%Z];
         n_frac := strip_zeros (repeat 0%Z (Z.to_nat (- X - 1)) ++ ds); n_exp := None |}
  else {| n_neg := neg; n_int := firstn 1 ds; n_frac := strip_zeros (skipn 1 ds); n_exp := Some X |}.

(** The numeral of a finite double; [None] for [inf] and [nan]. *)
Definition numeral_of (x : float) : option Numeral :=
  match Prim2SF x with
  | S754_zero s => Some {| n_neg := s; n_int := [0%Z]; n_frac := []; n_exp := None |}
  | S754_finite s m e => Some (g6_numeral s (Zpos m) e)
  | _ => None
  end.

(** [operator<<(double)] with the default flags. *)
Definition show_double (x : float) : string :=
  match numeral_of x with
  | Some n => numeral_text n
  | None =>
      match Prim2SF x with
      | S754_infinity s => if s then "-inf" else "inf"
      | _ => "nan"
      end
  end.

(** [operator<<(uint32_t)]. *)
Definition show_uint (n : Z) : string := digits_string (decimal_digits n).

(** Line 209, [std::endl] included. *)
Definition record_line (r : RawSample) : string :=
  show_uint (numUsers r) ++ " " ++ show_double (tempBitrate r) ++ " " ++ show_double (tempLoss r) ++ " " ++
  show_double (tempDelay r) ++ " " ++ show_double (tempJitter r) ++ newline.

(** The text the lines of [rs] add to the file, in order ([std::ios::app]). *)
Definition results_text (rs : list RawSample) : string := fold_right (fun r s => (record_line r ++ s)%string) EmptyString rs.

(** The records a sequence of effects of [main] appends. *)
Definition appended (effs : list Effect) : list RawSample :=
  flat_map (fun ef => match ef with AppendResults r => [r] | _ => [] end) effs.

(** ** The reader *)

Definition INT_MIN : Z := -2147483648.
Definition INT_MAX : Z := 2147483647.

(** [inFile >> n] for an [int]. *)
Definition read_int (s : string) : option (Z * string) :=
  let '(neg, s1) := take_sign (skip_spaces s) in
  let '(ds, s2) := take_digits s1 in
  match ds with
  | [] => None
  | _ => let v := if neg then (- digits_value ds)%Z else digits_value ds in
         if (INT_MIN <=? v)%Z && (v <=? INT_MAX)%Z then Some (v, s2) else None
  end.

(** The exponent part [e[+-]digits] of a number, if any: [None] when an
    [e] is not followed by a digit. *)
Definition read_exponent (s : string) : option (Z * string) :=
  match s with
  | String c r =>
      if (Ascii.eqb c "e" || Ascii.eqb c "E")%char then
        let '(neg, r1) := take_sign r in
        let '(ds, r2) := take_digits r1 in
        match ds with
        | [] => None
        | _ => Some ((if neg then - digits_value ds else digits_value ds)%Z, r2)
        end
      else Some (0%Z, s)
  | EmptyString => Some (0%Z, s)
  end.

(** The fraction of a number: a point and the digits after it. *)
Definition read_frac (s : string) : list Z * string :=
  match s with
  | String c r => if Ascii.eqb c "."%char then take_digits r else ([], s)
  | EmptyString => ([], s)
  end.

(** [inFile >> x] for a [double]. *)
Definition read_double (s : string) : option (float * string) :=
  let '(neg, s1) := take_sign (skip_spaces s) in
  let '(ids, s2) := take_digits s1 in
  let '(fds, s3) := read_frac s2 in
  match ids ++ fds with
  | [] => None
  | ds =>
      match read_exponent s3 with
      | Some (e, s4) =>
          match decimal_to_float neg (digits_value ds) (e - Z.of_nat (List.length fds)) with
          | Some v => Some (v, s4)
          | None => None
          end
      | None => None
      end
  end.

(** The test of the read loop: the five extractions in order. *)
Definition read_record (s : string) : option (RawSample * string) :=
  match read_int s with
  | Some (u, s1) =>
    match read_double s1 with
    | Some (b, s2) =>
      match read_double s2 with
      | Some (l, s3) =>
        match read_double s3 with
        | Some (d, s4) =>
          match read_double s4 with
          | Some (j, s5) => Some ({| numUsers := u; tempBitrate := b; tempLoss := l;
                                     tempDelay := d; tempJitter := j |}, s5)
          | None => None
          end
        | None => None
        end
      | None => None
      end
    | None => None
    end
  | None => None
  end.

(** The stream of extractions of the read loop over a text, up to the
    first failure ([None]); each success consumes at least one character,
    so [length s + 1] tests are enough ([read_records_fuel]). *)
Fixpoint read_records (fuel : nat) (s : string) : list (option RawSample) :=
  match fuel with
  | O => []
  | S f => match read_record s with
           | Some (r, s') => Some r :: read_records f s'
           | None => [None]
           end
  end.

Definition read_file (s : string) : list (option RawSample) := read_records (S (String.length s)) s.

(** What the reader gets back for a double the writer printed. *)
Definition numeral_float (n : Numeral) : option float :=
  decimal_to_float (n_neg n) (digits_value (n_int n ++ n_frac n))
    (match n_exp n with Some e => e | None => 0 end - Z.of_nat (List.length (n_frac n)))%Z.

Definition reread (x : float) : option float :=
  match numeral_of x with Some n => numeral_float n | None => None end.

(** The record the reader gets back for one the writer printed. *)
Definition reread_record (r : RawSample) : option RawSample :=
  if (INT_MIN <=? numUsers r)%Z && (numUsers r <=? INT_MAX)%Z then
    match reread (tempBitrate r), reread (tempLoss r), reread (tempDelay r), reread (tempJitter r) with
    | Some b, Some l, Some d, Some j =>
        Some {| numUsers := numUsers r; tempBitrate := b; tempLoss := l; tempDelay := d; tempJitter := j |}
    | _, _, _, _ => None
    end
  else None.

(** ** Lemmas *)

(** *** Strings *)

Lemma str_app_assoc (a b c : string) : ((a ++ b) ++ c = a ++ b ++ c)%string.
Proof. induction a as [|x a IH]; simpl; [reflexivity|now rewrite IH]. Qed.

Lemma str_length_app (a b : string) : String.length (a ++ b) = (String.length a + String.length b)%nat.
Proof. induction a as [|x a IH]; simpl; [reflexivity|now rewrite IH]. Qed.

(** What may follow a number the writer printed: the end of the text or
    a white-space character. *)
Definition sep (s : string) : Prop :=
  match s with EmptyString => True | String c _ => is_space c = true end.

(** A white-space character is none of the characters of a number. *)
Lemma space_char c : is_space c = true ->
  digit_of c = None /\ Ascii.eqb c "." = false /\ Ascii.eqb c "e" = false /\
  Ascii.eqb c "E" = false /\ Ascii.eqb c "-" = false /\ Ascii.eqb c "+" = false.
Proof.
  destruct c as [[] [] [] [] [] [] [] []]; cbn; intros H; try discriminate H; repeat split.
Qed.

Lemma sep_no_digit s : sep s -> no_digit s.
Proof. destruct s as [|c s]; simpl; [trivial|]. intros H. apply (space_char c H). Qed.

(** *** Decimal digits *)

Lemma digits_value_app ds d : digits_value (ds ++ [d]) = (digits_value ds * 10 + d)%Z.
Proof. unfold digits_value. now rewrite fold_left_app. Qed.

Lemma digits_fuel_spec f n acc : (0 <= n < 10 ^ Z.of_nat (S f))%Z ->
  exists ds, digits_fuel (S f) n acc = ds ++ acc /\ digits_value ds = n /\ Forall is_digit ds /\ ds <> [].
Proof.
  revert n acc. induction f as [|f IH]; intros n acc Hn; simpl.
  - destruct (Z.ltb_spec n 10); [|lia]. exists [n mod 10]%Z. rewrite Z.mod_small by lia.
    repeat split; [constructor; [unfold is_digit; lia|constructor]|discriminate].
  - destruct (Z.ltb_spec n 10).
    + exists [n mod 10]%Z. rewrite Z.mod_small by lia.
      repeat split; [constructor; [unfold is_digit; lia|constructor]|discriminate].
    + destruct (IH (n / 10)%Z ((n mod 10)%Z :: acc)) as (ds & E & V & D & _).
      { split; [apply Z.div_pos; lia|]. apply Z.div_lt_upper_bound; [lia|]. rewrite Nat2Z.inj_succ in *.
        rewrite Z.pow_succ_r in Hn by lia. lia. }
      exists (ds ++ [(n mod 10)%Z]). rewrite <- app_assoc. split; [exact E|].
      rewrite digits_value_app, V. split; [pose proof (Z.div_mod n 10); lia|].
      split; [apply Forall_app; split; [exact D|constructor; [unfold is_digit; pose proof (Z.mod_pos_bound n 10); lia|constructor]]|].
      now destruct ds.
Qed.

Lemma decimal_digits_spec n : (0 <= n)%Z ->
  digits_value (decimal_digits n) = n /\ Forall is_digit (decimal_digits n) /\ decimal_digits n <> [].
Proof.
  intros Hn. unfold decimal_digits.
  destruct (digits_fuel_spec (Z.to_nat (Z.log2 n)) n [] ) as (ds & E & V & D & Ne).
  - split; [exact Hn|]. destruct (Z.eq_dec n 0) as [->|Hn0]; [apply Z.pow_pos_nonneg; lia|].
    pose proof (Z.log2_spec n ltac:(lia)) as [_ H]. rewrite Nat2Z.inj_succ, Z2Nat.id by (apply Z.log2_nonneg).
    eapply Z.lt_le_trans; [exact H|]. apply Z.pow_le_mono_l. lia.
  - rewrite E, app_nil_r. auto.
Qed.

(** *** Reading what the writer printed *)

Lemma read_show_uint n s : (0 <= n)%Z -> sep s ->
  read_int (show_uint n ++ s) = if (n <=? INT_MAX)%Z then Some (n, s) else None.
Proof.
  intros Hn Hs. unfold read_int, show_uint. destruct (decimal_digits_spec n Hn) as (V & D & Ne).
  destruct (digits_start _ s D Ne) as [H1 H2]. rewrite H1, H2, take_digits_app by auto using sep_no_digit.
  destruct (decimal_digits n) as [|d ds]; [congruence|]. rewrite V. unfold INT_MIN.
  destruct (Z.leb_spec (-2147483648) n); [|lia]. reflexivity.
Qed.

Lemma pad2_spec ds : Forall is_digit ds -> ds <> [] ->
  Forall is_digit (pad2 ds) /\ digits_value (pad2 ds) = digits_value ds /\ pad2 ds <> [].
Proof.
  intros D Ne. unfold pad2. destruct (Nat.ltb _ 2); [|auto].
  split; [constructor; [unfold is_digit; lia|exact D]|]. split; [reflexivity|discriminate].
Qed.

Lemma read_exponent_text ex s : sep s ->
  read_exponent (exp_text ex ++ s) = Some (match ex with Some e => e | None => 0%Z end, s).
Proof.
  intros Hs. destruct ex as [e|]; simpl.
  - destruct (decimal_digits_spec (Z.abs e) ltac:(lia)) as (V & D & Ne).
    destruct (pad2_spec _ D Ne) as (D' & V' & Ne').
    rewrite !str_app_assoc. destruct (Z.ltb_spec e 0); simpl;
      rewrite take_digits_app by auto using sep_no_digit;
      destruct (pad2 _) as [|d ds]; try congruence; rewrite V', V; f_equal; f_equal; lia.
  - destruct s as [|c s]; [reflexivity|]. simpl in Hs.
    destruct (space_char c Hs) as (_ & _ & He & HE & _). simpl. now rewrite He, HE.
Qed.

(** The exponent text and what follows it start with no digit and no point. *)
Lemma exp_text_start ex s : sep s ->
  no_digit (exp_text ex ++ s) /\
  match (exp_text ex ++ s)%string with String c _ => Ascii.eqb c "." = false | EmptyString => True end.
Proof.
  intros Hs. destruct ex as [e|]; simpl; [split; reflexivity|].
  destruct s as [|c s]; simpl in *; [split; trivial|]. destruct (space_char c Hs) as (H1 & H2 & _). auto.
Qed.

Lemma read_frac_text fds rest : Forall is_digit fds -> no_digit rest ->
  match rest with String c _ => Ascii.eqb c "." = false | EmptyString => True end ->
  read_frac (frac_text fds ++ rest) = (fds, rest).
Proof.
  intros D H1 H2. destruct fds as [|f fs].
  - destruct rest as [|c r]; [reflexivity|]. unfold read_frac; cbn [frac_text String.append]. now rewrite H2.
  - unfold read_frac; cbn [frac_text String.append]. now rewrite take_digits_app.
Qed.

Lemma frac_text_no_digit fds rest : no_digit rest -> no_digit (frac_text fds ++ rest).
Proof. destruct fds; simpl; [trivial|reflexivity]. Qed.

(** The reader reads back the decimal of a numeral. *)
Lemma read_numeral n s :
  Forall is_digit (n_int n) -> n_int n <> [] -> Forall is_digit (n_frac n) -> sep s ->
  read_double (numeral_text n ++ s) = option_map (fun v => (v, s)) (numeral_float n).
Proof.
  destruct n as [neg ids fds ex]. unfold numeral_text, numeral_float. cbn [n_neg n_int n_frac n_exp].
  intros Di Ne Df Hs. destruct (exp_text_start ex s Hs) as [E1 E2].
  rewrite !str_app_assoc. unfold read_double.
  assert (Hsk : take_sign (skip_spaces (sign_text neg ++ digits_string ids ++ frac_text fds ++ exp_text ex ++ s))
                = (neg, (digits_string ids ++ frac_text fds ++ exp_text ex ++ s)%string)).
  { destruct (digits_start ids (frac_text fds ++ exp_text ex ++ s) Di Ne) as [H1 H2].
    destruct neg; simpl; [reflexivity|now rewrite H1, H2]. }
  rewrite Hsk, take_digits_app by (assumption || now apply frac_text_no_digit).
  rewrite read_frac_text by assumption. rewrite read_exponent_text by assumption.
  destruct ids as [|i is0]; [congruence|]. cbn [app].
  destruct (decimal_to_float _ _ _); reflexivity.
Qed.

(** *** The numerals the writer prints are well formed *)

Definition numeral_wf (n : Numeral) : Prop :=
  Forall is_digit (n_int n) /\ n_int n <> [] /\ Forall is_digit (n_frac n).

Lemma scale_pos N D k b : (0 <= N)%Z -> (0 < D)%Z -> (0 < b)%Z ->
  (0 <= fst (scale N D k b))%Z /\ (0 < snd (scale N D k b))%Z.
Proof.
  intros HN HD Hb. unfold scale. destruct (Z.leb_spec 0 k); simpl; split; try lia.
  all: first [apply Z.mul_nonneg_nonneg; [lia|apply Z.pow_nonneg; lia]
             |apply Z.mul_pos_pos; [lia|apply Z.pow_pos_nonneg; lia]].
Qed.

Lemma round6_nonneg N D : (0 <= N)%Z -> (0 < D)%Z -> (0 <= fst (round6 N D))%Z.
Proof.
  intros HN HD. unfold round6. destruct (scale_pos N D (5 - floor_log 10 N D) 10 HN HD ltac:(lia)) as [H1 H2].
  destruct (scale N D _ 10) as [num den]. simpl in *. pose proof (Z.div_pos num den H1 H2).
  unfold round_half_even. cbv zeta.
  repeat match goal with |- context [if ?c then _ else _] => destruct c end; simpl; lia.
Qed.

Lemma drop_zeros_Forall P l : Forall P l -> Forall P (drop_zeros l).
Proof. induction 1 as [|x l Hx Hl IH]; simpl; [constructor|]. destruct x as [|p|p]; auto. Qed.

Lemma strip_zeros_Forall P l : Forall P l -> Forall P (strip_zeros l).
Proof. intros H. apply Forall_rev, drop_zeros_Forall, Forall_rev, H. Qed.

Lemma firstn_skipn_digits k ds : Forall is_digit ds ->
  Forall is_digit (firstn k ds) /\ Forall is_digit (skipn k ds).
Proof. intros H. rewrite <- (firstn_skipn k ds) in H. now apply Forall_app in H. Qed.

Lemma g6_numeral_wf neg m e : (0 < m)%Z -> numeral_wf (g6_numeral neg m e).
Proof.
  intros Hm. unfold g6_numeral, ratio_of. destruct (scale_pos m 1 e 2 ltac:(lia) ltac:(lia) ltac:(lia)) as [HN HD].
  destruct (scale m 1 e 2) as [N D]. simpl in HN, HD. pose proof (round6_nonneg N D HN HD) as Hq.
  destruct (round6 N D) as [q X]. simpl in Hq. destruct (decimal_digits_spec q Hq) as (_ & Dg & Ne).
  destruct (decimal_digits q) as [|d ds]; [congruence|].
  destruct (_ && _); [destruct (0 <=? X)%Z|]; repeat split; cbn [n_int n_frac firstn]; try discriminate.
  - exact (proj1 (firstn_skipn_digits (S (Z.to_nat X)) _ Dg)).
  - apply strip_zeros_Forall. exact (proj2 (firstn_skipn_digits (S (Z.to_nat X)) _ Dg)).
  - repeat constructor; unfold is_digit; lia.
  - apply strip_zeros_Forall, Forall_app. split; [|assumption].
    apply Forall_forall. intros x Hx. apply repeat_spec in Hx. subst. unfold is_digit. lia.
  - inversion Dg. simpl. constructor; [assumption|constructor].
  - apply strip_zeros_Forall. now inversion Dg.
Qed.

Lemma numeral_of_wf x n : numeral_of x = Some n -> numeral_wf n.
Proof.
  unfold numeral_of. destruct (Prim2SF x); intros H; inversion H; subst.
  - repeat split; [repeat constructor; unfold is_digit; lia|discriminate|constructor].
  - apply g6_numeral_wf. lia.
Qed.

(** [operator>>] reads back what [operator<<] wrote for a double: the
    value [reread x]; [inf] and [nan] are read as failures. *)
Lemma read_show_double x s : sep s ->
  read_double (show_double x ++ s) = option_map (fun v => (v, s)) (reread x).
Proof.
  intros Hs. unfold show_double, reread. destruct (numeral_of x) as [n|] eqn:E.
  - destruct (numeral_of_wf x n E) as (D & Ne & F). now apply read_numeral.
  - destruct (Prim2SF x) as [| [|] | |]; reflexivity.
Qed.

(** *** Lines and files *)

Lemma read_double_space s : read_double (" " ++ s) = read_double s.
Proof. reflexivity. Qed.

(** A line the writer printed is read back as [reread_record], up to the
    line's end. *)
Lemma read_record_line r s : (0 <= numUsers r)%Z ->
  read_record (record_line r ++ s) = option_map (fun r' => (r', (newline ++ s)%string)) (reread_record r).
Proof.
  intros Hu. unfold record_line. rewrite !str_app_assoc. unfold read_record, reread_record.
  rewrite read_show_uint by (assumption || reflexivity).
  destruct (Z.leb_spec (numUsers r) INT_MAX); [|now destruct (INT_MIN <=? numUsers r)%Z].
  rewrite (proj2 (Z.leb_le INT_MIN (numUsers r))) by (unfold INT_MIN; lia). cbv beta iota.
  rewrite read_double_space, read_show_double by reflexivity. destruct (reread (tempBitrate r)); [cbn [option_map]|reflexivity].
  rewrite read_double_space, read_show_double by reflexivity. destruct (reread (tempLoss r)); [cbn [option_map]|reflexivity].
  rewrite read_double_space, read_show_double by reflexivity. destruct (reread (tempDelay r)); [cbn [option_map]|reflexivity].
  rewrite read_double_space, read_show_double by reflexivity. destruct (reread (tempJitter r)); reflexivity.
Qed.

(** The separators between lines: nothing before the first, the end of
    the previous line before the others. *)
Definition line_start (sp : string) : Prop := sp = EmptyString \/ sp = newline.

Lemma read_record_line_start sp s : line_start sp -> read_record (sp ++ s) = read_record s.
Proof. intros [-> | ->]; reflexivity. Qed.

Lemma record_line_length r : (2 <= String.length (record_line r))%nat.
Proof. unfold record_line. rewrite !str_length_app. simpl. lia. Qed.

Section ReadBack.
(** The records a file is read back as: [rs] as written, [rs'] as read. *)
Variables (rs rs' : list RawSample).
Hypothesis read_back : Forall2 (fun r r' => reread_record r = Some r') rs rs'.
Hypothesis users_nonneg : Forall (fun r => (0 <= numUsers r)%Z) rs.

(** The lines of [rs] are read one by one, whatever follows them. *)
Lemma read_records_prefix tl f sp : line_start sp ->
  (String.length (sp ++ results_text (rs ++ tl)) < f)%nat ->
  exists sp' f', line_start sp' /\ (String.length (sp' ++ results_text tl) < f')%nat /\
    read_records f (sp ++ results_text (rs ++ tl)) = map Some rs' ++ read_records f' (sp' ++ results_text tl).
Proof.
  revert f sp. induction read_back as [|r r' l l' Hr Hl IH]; intros f sp Hsp Hf.
  - exists sp, f. auto.
  - inversion users_nonneg as [|? ? Hu Hn]; subst. destruct f as [|f]; [lia|].
    change (results_text ((r :: l) ++ tl)) with (record_line r ++ results_text (l ++ tl))%string in *.
    cbn [read_records].
    rewrite read_record_line_start, read_record_line, Hr by assumption. cbn [option_map].
    destruct (IH Hl Hn f newline (or_intror eq_refl)) as (sp' & f' & H1 & H2 & E).
    { pose proof (record_line_length r). rewrite !str_length_app in *. simpl. lia. }
    exists sp', f'. split; [assumption|]. split; [assumption|]. now rewrite E.
Qed.

End ReadBack.

Lemma read_records_end f sp : line_start sp -> (0 < f)%nat -> read_records f (sp ++ "") = [None].
Proof. intros [-> | ->] Hf; (destruct f; [lia|reflexivity]). Qed.

(** The file after all lines of [rs] are read back. *)
Lemma read_file_results rs rs' :
  Forall2 (fun r r' => reread_record r = Some r') rs rs' -> Forall (fun r => (0 <= numUsers r)%Z) rs ->
  read_file (results_text rs) = map Some rs' ++ [None].
Proof.
  intros H Hn. unfold read_file.
  destruct (read_records_prefix rs rs' H Hn [] (S (String.length (results_text rs))) EmptyString (or_introl eq_refl))
    as (sp' & f' & Hsp & Hf & E); rewrite app_nil_r in *; [simpl; lia|].
  cbn [String.append] in E. rewrite E. f_equal. apply read_records_end; [assumption|lia].
Qed.

Lemma reread_record_fields r r' : reread_record r = Some r' ->
  numUsers r' = numUsers r /\ reread (tempBitrate r) = Some (tempBitrate r').
Proof.
  unfold reread_record. destruct (_ && _); [|discriminate].
  destruct (reread (tempBitrate r)), (reread (tempLoss r)), (reread (tempDelay r)), (reread (tempJitter r));
    intros H; inversion H; subst; auto.
Qed.

Lemma appended_app l1 l2 : appended (l1 ++ l2) = appended l1 ++ appended l2.
Proof. apply flat_map_app. Qed.

Lemma appended_quiet l : Forall (fun ef => simulating ef = false) l -> appended l = [].
Proof. induction 1 as [|ef l Hef _ IH]; [reflexivity|]. destruct ef; try discriminate; exact IH. Qed.

(** *** Every extraction consumes the text *)

Lemma skip_spaces_length s : (String.length (skip_spaces s) <= String.length s)%nat.
Proof. induction s as [|c s IH]; simpl; [lia|]. destruct (is_space c); simpl; lia. Qed.

Lemma take_sign_length s : (String.length (snd (take_sign s)) <= String.length s)%nat.
Proof. destruct s as [|c s]; simpl; [lia|]. destruct (Ascii.eqb c _); [simpl; lia|]. destruct (Ascii.eqb c _); simpl; lia. Qed.

Lemma take_digits_length s :
  (String.length (snd (take_digits s)) + List.length (fst (take_digits s)) <= String.length s)%nat.
Proof.
  induction s as [|c s IH]; simpl; [lia|]. destruct (digit_of c); simpl; [|lia].
  destruct (take_digits s) as [ds r]. simpl in *. lia.
Qed.

Lemma read_frac_length s : (String.length (snd (read_frac s)) <= String.length s)%nat.
Proof.
  destruct s as [|c s]; simpl; [lia|]. destruct (Ascii.eqb c _); simpl; [|lia].
  pose proof (take_digits_length s). lia.
Qed.

Lemma read_exponent_length s e s' : read_exponent s = Some (e, s') -> (String.length s' <= String.length s)%nat.
Proof.
  destruct s as [|c s]; simpl; [intros H; inversion H; subst; simpl; lia|].
  destruct (_ || _); [|intros H; inversion H; subst; simpl; lia].
  pose proof (take_sign_length s). destruct (take_sign s) as [neg r1].
  pose proof (take_digits_length r1). destruct (take_digits r1) as [ds r2]. simpl in *.
  destruct ds; intros He; inversion He; subst; lia.
Qed.

(** The front of the text: spaces, sign, digits. *)
Lemma front_length s :
  (String.length (snd (take_digits (snd (take_sign (skip_spaces s))))) +
   List.length (fst (take_digits (snd (take_sign (skip_spaces s))))) <= String.length s)%nat.
Proof.
  pose proof (skip_spaces_length s). pose proof (take_sign_length (skip_spaces s)).
  pose proof (take_digits_length (snd (take_sign (skip_spaces s)))). lia.
Qed.

Lemma read_int_length s v s' : read_int s = Some (v, s') -> (String.length s' < String.length s)%nat.
Proof.
  unfold read_int. pose proof (front_length s).
  destruct (take_sign (skip_spaces s)) as [neg s1]. simpl in *. destruct (take_digits s1) as [ds s2]. simpl in *.
  destruct ds as [|d ds]; [discriminate|]. destruct (_ && _); intros Hs; inversion Hs; subst. simpl in *. lia.
Qed.

Lemma read_double_length s v s' : read_double s = Some (v, s') -> (String.length s' <= String.length s)%nat.
Proof.
  unfold read_double. pose proof (front_length s).
  destruct (take_sign (skip_spaces s)) as [neg s1]. simpl in *. destruct (take_digits s1) as [ids s2]. simpl in *.
  pose proof (read_frac_length s2). destruct (read_frac s2) as [fds s3]. simpl in *.
  destruct (ids ++ fds); [discriminate|].
  destruct (read_exponent s3) as [[e s4]|] eqn:He; [|discriminate]. apply read_exponent_length in He.
  destruct (decimal_to_float _ _ _); intros Hs; inversion Hs; subst. lia.
Qed.

(** Each successful test of the loop consumes at least one character. *)
Lemma read_record_length s r s' : read_record s = Some (r, s') -> (String.length s' < String.length s)%nat.
Proof.
  unfold read_record.
  destruct (read_int s) as [[u s1]|] eqn:H1; [|discriminate]. apply read_int_length in H1.
  destruct (read_double s1) as [[b s2]|] eqn:H2; [|discriminate]. apply read_double_length in H2.
  destruct (read_double s2) as [[l s3]|] eqn:H3; [|discriminate]. apply read_double_length in H3.
  destruct (read_double s3) as [[d s4]|] eqn:H4; [|discriminate]. apply read_double_length in H4.
  destruct (read_double s4) as [[j s5]|] eqn:H5; [|discriminate]. apply read_double_length in H5.
  intros H; inversion H; subst. lia.
Qed.

(** So [length s + 1] tests are enough: more fuel changes nothing. *)
Lemma read_records_fuel f g s : (String.length s < f)%nat -> (String.length s < g)%nat ->
  read_records f s = read_records g s.
Proof.
  revert g s. induction f as [|f IH]; intros g s Hf Hg; [lia|]. destruct g as [|g]; [lia|]. simpl.
  destruct (read_record s) as [[r s']|] eqn:H; [|reflexivity].
  apply read_record_length in H. f_equal. apply IH; lia.
Qed.

(** *** Integral values *)

(** [reread x] is [x] itself. *)
Definition reread_exact (x : float) : bool :=
  match reread x with Some v => PrimFloat.Leibniz.eqb v x | None => false end.

Lemma reread_exact_spec x : reread_exact x = true -> reread x = Some x.
Proof.
  unfold reread_exact. destruct (reread x) as [v|]; [|discriminate].
  intros H. now apply FloatAxioms.Leibniz.eqb_spec in H as ->.
Qed.

(** Every integral double below [10^4] survives the file: [%.6g] prints
    it in full.  Checked exhaustively. *)
Lemma integral_check : check_range (fun k => reread_exact (double_of_Z k)) (Z.to_nat 10000) 0 = true.
Proof. vm_compute. reflexivity. Qed.

Lemma reread_integral k : (0 <= k < 10000)%Z -> reread (double_of_Z k) = Some (double_of_Z k).
Proof. intros Hk. apply reread_exact_spec, (check_range_spec _ _ _ integral_check). lia. Qed.

(** ** A campaign of runs *)

Section Campaign.
Variable simulate : Experiment -> list FlowStats.
Variable average_mean : list float -> float.

(** The parameters [main] accepts and runs to the end. *)
Definition accepted (p : Params) : Prop :=
  (0 <= num_usuarios p <= max_users)%Z /\ exists b, bitrate_val (bitrate_str p) = Converted b.

(** The records a sequence of runs appends to [results.dat], in order:
    each run opens the file with [std::ios::app] (line 208). *)
Definition campaign (ps : list Params) : list RawSample :=
  appended (flat_map (fun p => fst (main simulate average_mean p)) ps).

Definition campaign_text (ps : list Params) : string := results_text (campaign ps).

(** An accepted run appends one record, that of its simulation. *)
Lemma appended_accepted p : accepted p ->
  exists b e, bitrate_val (bitrate_str p) = Converted b /\
    appended (fst (main simulate average_mean p)) = [run_record average_mean (num_usuarios p) b (simulate e)].
Proof.
  intros [Hn [b Hb]]. pose proof (split_ok_at _ Hn) as Hs. unfold split_ok in Hs.
  destruct (user_split (num_usuarios p)) as [s|] eqn:Hs'; [|discriminate].
  destruct (main_shape simulate average_mean p b s Hn Hb Hs') as (e & pre & post & -> & Hq & _).
  exists b, e. split; [assumption|]. apply Forall_app in Hq as [Hpre Hpost].
  cbn [fst]. rewrite !appended_app, (appended_quiet pre), (appended_quiet post) by assumption. reflexivity.
Qed.

Lemma campaign_records ps : Forall accepted ps ->
  Forall2 (fun p r => (0 <= numUsers r)%Z /\ numUsers r = num_usuarios p /\
                      exists b, bitrate_val (bitrate_str p) = Converted b /\ tempBitrate r = b) ps (campaign ps).
Proof.
  unfold campaign. induction 1 as [|p ps Hp _ IH]; [constructor|].
  cbn [flat_map]. rewrite appended_app. destruct (appended_accepted p Hp) as (b & e & Hb & ->).
  constructor; [|exact IH]. repeat split; [apply Hp|]. now exists b.
Qed.

End Campaign.

(** ** Theorems *)

(** C11: the round trip of [results.dat]: when every line [onoffRouting]
    wrote (user count not negative) has fields [operator>>] reads back,
    the read loop of [plot-results] extracts, in order, exactly the
    records rounded through [%.6g] ([reread_record]), and then its test
    fails at the end of the file. *)
Theorem results_roundtrip rs rs' :
  Forall2 (fun r r' => reread_record r = Some r') rs rs' -> Forall (fun r => (0 <= numUsers r)%Z) rs ->
  read_file (results_text rs) = map Some rs' ++ [None].
Proof. exact (read_file_results rs rs'). Qed.

(** C17: a line the reader cannot take back, because its user count is
    beyond [INT_MAX] or one of its metrics is [inf] or [nan], ends the read
    loop there: the records before it are read, it and every line after it
    are lost, and nothing reports it. *)
Theorem results_stop rs rs' r rest :
  Forall2 (fun r r' => reread_record r = Some r') rs rs' -> Forall (fun r => (0 <= numUsers r)%Z) rs ->
  (0 <= numUsers r)%Z -> reread_record r = None ->
  read_file (results_text (rs ++ r :: rest)) = map Some rs' ++ [None].
Proof.
  intros H Hn Hu Hr. unfold read_file.
  destruct (read_records_prefix rs rs' H Hn (r :: rest) (S (String.length (results_text (rs ++ r :: rest))))
              EmptyString (or_introl eq_refl)) as (sp' & f' & Hsp & Hf & E); [simpl; lia|].
  cbn [String.append] in E. rewrite E. f_equal.
  destruct f' as [|f']; [lia|]. change (results_text (r :: rest)) with (record_line r ++ results_text rest)%string.
  cbn [read_records]. now rewrite read_record_line_start, read_record_line, Hr.
Qed.

(** C21: the keys of the buckets survive the file: a record read back has
    the user count written, and an integral bitrate below 10000 (Mbps)
    comes back as the same double; above six significant digits distinct
    bitrates merge, 1000001 being read back as 1000000. *)
Theorem results_keys_exact :
  (forall r r' k, reread_record r = Some r' -> (0 <= k < 10000)%Z -> tempBitrate r = double_of_Z k ->
     numUsers r' = numUsers r /\ tempBitrate r' = tempBitrate r) /\
  reread (double_of_Z 1000001) = Some (double_of_Z 1000000).
Proof.
  split; [|vm_compute; reflexivity].
  intros r r' k Hr Hk Hb. destruct (reread_record_fields r r' Hr) as [Hu Hb'].
  rewrite Hb, reread_integral in Hb' by assumption. split; [assumption|]. congruence.
Qed.

(** C10: from the runs to the plots: after a campaign of accepted runs of
    [onoffRouting] (each appending to [results.dat]), when the metrics are
    readable the read loop of [plot-results] gets one record per run, in
    the order of the runs, with the run's user count and the [%.6g]
    rounding of the bitrate [std::stod] read from its argument. *)
Theorem runs_to_plot simulate average_mean ps rs' :
  Forall accepted ps -> Forall2 (fun r r' => reread_record r = Some r') (campaign simulate average_mean ps) rs' ->
  read_file (campaign_text simulate average_mean ps) = map Some rs' ++ [None] /\
  Forall2 (fun p r' => numUsers r' = num_usuarios p /\
                       exists b, bitrate_val (bitrate_str p) = Converted b /\ reread b = Some (tempBitrate r')) ps rs'.
Proof.
  intros Hp Hr. pose proof (campaign_records simulate average_mean ps Hp) as Hc. split.
  - apply read_file_results; [assumption|].
    refine (Forall2_Forall_l _ _ ps _ _ Hc). now intros p r [Hu _].
  - eapply Forall2_compose; [|exact Hc|exact Hr]. intros p r r' (_ & Hu & b & Hb & Hbr) Hrr.
    destruct (reread_record_fields r r' Hrr) as [Hu' Hb']. split; [congruence|].
    exists b. split; [assumption|]. now rewrite <- Hbr.
Qed.

(** ** Witnesses *)

Definition sample_record : RawSample :=
  {| numUsers := 100; tempBitrate := double_of_Z 8; tempLoss := 2.5; tempDelay := 0.123456789; tempJitter := 1e-7 |}.

Definition sample_record_read : RawSample :=
  {| numUsers := 100; tempBitrate := double_of_Z 8; tempLoss := 2.5; tempDelay := 0.123457; tempJitter := 1e-7 |}.

Lemma results_roundtrip_witness :
  read_file (results_text [sample_record; sample_record]) = [Some sample_record_read; Some sample_record_read; None].
Proof.
  apply (results_roundtrip [sample_record; sample_record] [sample_record_read; sample_record_read]);
    repeat constructor; vm_compute; congruence.
Defined.

Lemma results_stop_witness :
  read_file (results_text [sample_record; {| numUsers := 3000000000; tempBitrate := double_of_Z 8;
    tempLoss := 0; tempDelay := 0; tempJitter := 0 |}; sample_record]) = [Some sample_record_read; None].
Proof.
  apply (results_stop [sample_record] [sample_record_read]); repeat constructor; vm_compute; congruence.
Defined.

Lemma results_keys_exact_witness :
  numUsers sample_record_read = 100%Z /\ tempBitrate sample_record_read = double_of_Z 8.
Proof.
  exact (proj1 results_keys_exact sample_record sample_record_read 8%Z ltac:(vm_compute; reflexivity)
           ltac:(lia) eq_refl).
Defined.

Lemma runs_to_plot_witness :
  read_file (campaign_text (fun _ => []) (fun _ => 0%float) [default_params; default_params]) =
  [Some (run_record (fun _ => 0%float) 100 (double_of_Z 8) []); Some (run_record (fun _ => 0%float) 100 (double_of_Z 8) []); None].
Proof.
  refine (proj1 (runs_to_plot (fun _ => []) (fun _ => 0%float) [default_params; default_params]
    [run_record (fun _ => 0%float) 100 (double_of_Z 8) []; run_record (fun _ => 0%float) 100 (double_of_Z 8) []] _ _)).
  - assert (Ha : accepted default_params).
    { split; [cbn; unfold max_users; lia|]. exists (double_of_Z 8). vm_compute. reflexivity. }
    constructor; [exact Ha|constructor; [exact Ha|constructor]].
  - change (campaign (fun _ => []) (fun _ => 0%float) [default_params; default_params])
      with [run_record (fun _ => 0%float) 100 (double_of_Z 8) []; run_record (fun _ => 0%float) 100 (double_of_Z 8) []].
    repeat constructor; vm_compute; reflexivity.
Defined.

End ResultsFile.
