(* ===== verification/Pipeline.v ===== *)
(** * PlotResults: the whole of [main] in [plot-results.cc]

    [main] (lines 82-429) composes the components of the other files:
    it creates the two output directories, opens [results.dat] (exit 1
    when it cannot), runs the read loop, aggregates (exit 1 when nothing
    was read), selects the minimum bitrate of every tier, writes
    [sim_precision.dat], renders six plots of the tiers, prints the
    decision summary and renders the final plot when some tier qualified.

    The run is modelled as the list of its observable effects, in order,
    with its exit code: the commands given to [system()], the files
    written, the plots handed to Gnuplot and the lines printed.  A plot is
    kept as the data the program gives [ns3::Gnuplot] (output file, title
    and datasets); the [.plt] text Gnuplot's class writes and the picture
    are not modelled.  Fixed texts are kept as constructors of [Message];
    the text of a number is the formatter of [Exporter]. *)

From Stdlib Require Import String Ascii List ZArith Lia Bool Floats Sorted.
From S2P Require Import Prelude Double StdMap Statistics SampleStore Aggregator Selector Exporter.
Import ListNotations.
Import SampleStore Aggregator BitrateSelector ResultExporter.

Module PlotResults.

(** ** Gnuplot data *)

Inductive Style := LINES_POINTS | LINES.

(** A [Gnuplot2dDataset]: title, style and points, in [Add] order. *)
Record Dataset := {
  ds_title : string;
  ds_style : Style;
  ds_points : list (float * float)
}.

(** A [Gnuplot]: its output picture, title and datasets, in [AddDataset]
    order. *)
Record Plot := {
  plot_png : string;
  plot_title : string;
  plot_datasets : list Dataset
}.

(** The fixed texts the program prints. *)
Inductive Message :=
| MsgCannotOpen        (** line 101 *)
| MsgNoData            (** line 145 *)
| MsgCsvWritten        (** line 199 *)
| MsgSummaryHeader     (** line 379 *)
| MsgSummaryFooter     (** line 399 *)
| MsgFinalPlot         (** line 417 *)
| MsgNoFinalPlot       (** lines 421-423 *)
| MsgDone.             (** line 426 *)

Inductive Effect :=
| Command (cmd : string)                 (** [ExecuteCommand], i.e. [system()] *)
| WriteFile (name contents : string)     (** an [std::ofstream] written and closed *)
| WritePlot (plt : string) (p : Plot)    (** [GenerateOutput] into the [.plt] file *)
| Stdout (m : Message)
| Stderr (m : Message)
| SummaryOut (l : SummaryLine).          (** one line of the decision summary *)

Section Main.

Variable show_int : Z -> string.
Variable show_double : FloatFormat -> float -> string.

Definition dir : string := "graficas".
Definition precision_dir : string := "graficas-precision".
Definition file_prefix_detailed : string := dir ++ "/grafica_ns3".
Definition precision_prefix : string := precision_dir ++ "/grafica_precision".

(** One dataset per tier, [dataset.Add(point.bitrate, <metric>)] for
    each point (lines 211-220 and the five loops like it). *)
Definition tier_dataset (metric : ProcessedPoint -> float) (e : Z * list ProcessedPoint) : Dataset :=
  {| ds_title := show_int (fst e) ++ " Usuarios"; ds_style := LINES_POINTS;
     ds_points := map (fun p => (bitrate p, metric p)) (snd e) |}.

(** The dashed threshold line from [minBitrate] to [maxBitrate]. *)
Definition threshold_dataset (title : string) (mn mx thr : float) : Dataset :=
  {| ds_title := title; ds_style := LINES; ds_points := [(mn, thr); (mx, thr)] |}.

(** [ExecuteCommand("gnuplot " + plt)] and [ExecuteCommand("rm -f " + plt)]
    after writing the [.plt] file. *)
Definition render (plt : string) (p : Plot) : list Effect :=
  [WritePlot plt p; Command ("gnuplot " ++ plt); Command ("rm -f " ++ plt)].

Definition metric_plot (png title : string) (metric : ProcessedPoint -> float) (m : ProcessedMap)
  (extra : list Dataset) : Plot :=
  {| plot_png := png; plot_title := title; plot_datasets := map (tier_dataset metric) m ++ extra |}.

(** Lines 202-297: delay, jitter and loss means, each with its threshold;
    the titles hold [std::to_string((int) MAX_DELAY_MS)] and
    [std::to_string((int) MAX_JITTER_MS)], the casts of the constants
    [20.0] and [8.0], and [MAX_LOSS_PERCENT] under
    [std::fixed << std::setprecision(1)]. *)
Definition detailed_plots (th : Thresholds) (m : ProcessedMap) (mn mx : float) : list Effect :=
  render (file_prefix_detailed ++ "_retardo_detallado.plt")
    (metric_plot (file_prefix_detailed ++ "_retardo_detallado.png") "Retardo Medio vs. Bitrate" delayMean m
       [threshold_dataset ("Umbral (" ++ show_int 20 ++ " ms)") mn mx (MAX_DELAY_MS th)]) ++
  render (file_prefix_detailed ++ "_jitter_detallado.plt")
    (metric_plot (file_prefix_detailed ++ "_jitter_detallado.png") "Jitter Medio vs. Bitrate" jitterMean m
       [threshold_dataset ("Umbral (" ++ show_int 8 ++ " ms)") mn mx (MAX_JITTER_MS th)]) ++
  render (file_prefix_detailed ++ "_perdida_detallada.plt")
    (metric_plot (file_prefix_detailed ++ "_perdida_detallada.png") "Perdida de Paquetes vs. Bitrate" lossMean m
       [threshold_dataset ("Umbral (" ++ show_double Fixed1 (MAX_LOSS_PERCENT th) ++ " porcentaje)") mn mx (MAX_LOSS_PERCENT th)]).

(** Lines 299-369: the three margins of error, without threshold. *)
Definition precision_plots (m : ProcessedMap) : list Effect :=
  render (precision_prefix ++ "_retardo.plt")
    (metric_plot (precision_prefix ++ "_retardo.png")
       "Precision del Retardo vs. Bitrate (Margen de Error 95%)" delayMarginOfError m []) ++
  render (precision_prefix ++ "_jitter.plt")
    (metric_plot (precision_prefix ++ "_jitter.png")
       "Precision del Jitter vs. Bitrate (Margen de Error 95%)" jitterMarginOfError m []) ++
  render (precision_prefix ++ "_perdida.plt")
    (metric_plot (precision_prefix ++ "_perdida.png")
       "Precision de la Perdida vs. Bitrate (Margen de Error 95)" lossMarginOfError m []).

Definition finalPlotFileName : string := dir ++ "/grafica_ns3_final_bitrate_requerido.png".

(** Lines 401-424. *)
Definition final_plot (st : SummaryState) : list Effect :=
  if final_plot_generated st then
    render (dir ++ "/final.plt")
      {| plot_png := finalPlotFileName; plot_title := "Bitrate Minimo Requerido vs. Numero de Usuarios";
         plot_datasets := [{| ds_title := "Bitrate Requerido"; ds_style := LINES_POINTS;
                              ds_points := map (fun e => (double_of_int (fst e), snd e)) (finalDataset st) |}] |} ++
    [Stdout MsgFinalPlot]
  else [Stdout MsgNoFinalPlot].

(** Lines 378-399: the header, one line per result, the footer. *)
Definition summary_effects (st : SummaryState) : list Effect :=
  [Stdout MsgSummaryHeader] ++ map SummaryOut (coutLines st) ++ [Stdout MsgSummaryFooter].

(** Lines 91-94. *)
Definition mkdirs : list Effect :=
  [Command ("mkdir -p " ++ dir); Command ("mkdir -p " ++ precision_dir)].

(** [main]: its effects and its exit code.  The input is [None] when
    [std::ifstream inFile("results.dat")] fails to open (lines 98-103),
    and otherwise the records as the extraction chain sees them. *)
Definition main (input : option (list (option RawSample))) : list Effect * Z :=
  match input with
  | None => (mkdirs ++ [Stderr MsgCannotOpen], 1%Z)
  | Some records =>
      match aggregate (read_loop records []) with
      | inr EmptyDataset => (mkdirs ++ [Stderr MsgNoData], 1%Z)
      | inl (m, mn, mx) =>
          let st := summary show_double (finalResults main_thresholds m) in
          (mkdirs ++ [WriteFile "sim_precision.dat" (summary_file show_int show_double m); Stdout MsgCsvWritten] ++
           detailed_plots main_thresholds m mn mx ++ precision_plots m ++
           summary_effects st ++ final_plot st ++ [Stdout MsgDone], 0%Z)
      end
  end.

(** ** What a successful run produces, from the components' specifications *)

(** The final plot holds the points [(users, bitrate)] of the valid
    results, and is rendered when there is one. *)
Definition final_plot_ref (rs : list (Z * ProcessedPoint)) : list Effect :=
  if existsb valid rs then
    render (dir ++ "/final.plt")
      {| plot_png := finalPlotFileName; plot_title := "Bitrate Minimo Requerido vs. Numero de Usuarios";
         plot_datasets := [{| ds_title := "Bitrate Requerido"; ds_style := LINES_POINTS;
                              ds_points := map (fun r => (double_of_int (fst r), bitrate (snd r)))
                                             (filter valid rs) |}] |} ++
    [Stdout MsgFinalPlot]
  else [Stdout MsgNoFinalPlot].

Definition outputs_ref (m : ProcessedMap) (mn mx : float) : list Effect :=
  let rs := finalResults main_thresholds m in
  mkdirs ++ [WriteFile "sim_precision.dat" (summary_file show_int show_double m); Stdout MsgCsvWritten] ++
  detailed_plots main_thresholds m mn mx ++ precision_plots m ++
  [Stdout MsgSummaryHeader] ++ map SummaryOut (lines_ref show_double DefaultFloat rs) ++
  [Stdout MsgSummaryFooter] ++ final_plot_ref rs ++ [Stdout MsgDone].

(** ** What the six plots of the tiers show, stated per metric *)

(** The plots a run hands to Gnuplot, in order. *)
Definition plots (effs : list Effect) : list Plot :=
  flat_map (fun ef => match ef with WritePlot _ p => [p] | _ => [] end) effs.

Inductive Metric := Delay | Jitter | Loss.

Definition mean_of (k : Metric) (p : ProcessedPoint) : float :=
  match k with Delay => delayMean p | Jitter => jitterMean p | Loss => lossMean p end.

Definition margin_of (k : Metric) (p : ProcessedPoint) : float :=
  match k with Delay => delayMarginOfError p | Jitter => jitterMarginOfError p | Loss => lossMarginOfError p end.

(** [MAX_DELAY_MS], [MAX_JITTER_MS], [MAX_LOSS_PERCENT] (lines 16-18). *)
Definition threshold_of (k : Metric) : float :=
  match k with Delay => 20 | Jitter => 8 | Loss => 0.5 end%float.

Definition detailed_png (k : Metric) : string :=
  match k with
  | Delay => "graficas/grafica_ns3_retardo_detallado.png"
  | Jitter => "graficas/grafica_ns3_jitter_detallado.png"
  | Loss => "graficas/grafica_ns3_perdida_detallada.png"
  end.

Definition precision_png (k : Metric) : string :=
  match k with
  | Delay => "graficas-precision/grafica_precision_retardo.png"
  | Jitter => "graficas-precision/grafica_precision_jitter.png"
  | Loss => "graficas-precision/grafica_precision_perdida.png"
  end.

(** A plot as its picture and the style and points of its datasets. *)
Definition plot_shape (p : Plot) : string * list (Style * list (float * float)) :=
  (plot_png p, map (fun d => (ds_style d, ds_points d)) (plot_datasets p)).

(** The curve of one tier: its points' bitrates against a metric. *)
Definition curve (sel : ProcessedPoint -> float) (e : Z * list ProcessedPoint) : list (float * float) :=
  map (fun p => (bitrate p, sel p)) (snd e).

(** The six plots: per metric, the means of every tier with the dashed
    threshold from [minBitrate] to [maxBitrate]; then per metric the
    margins of error of every tier. *)
Definition tier_plots_ref (m : ProcessedMap) (mn mx : float) : list (string * list (Style * list (float * float))) :=
  map (fun k => (detailed_png k, map (fun e => (LINES_POINTS, curve (mean_of k) e)) m ++
                                 [(LINES, [(mn, threshold_of k); (mx, threshold_of k)])])) [Delay; Jitter; Loss] ++
  map (fun k => (precision_png k, map (fun e => (LINES_POINTS, curve (margin_of k) e)) m)) [Delay; Jitter; Loss].

(** ** Lemmas *)

Lemma plots_app l1 l2 : plots (l1 ++ l2) = plots l1 ++ plots l2.
Proof. apply flat_map_app. Qed.

Lemma plots_summary st : plots (summary_effects st) = [].
Proof. unfold summary_effects. rewrite !plots_app. induction (coutLines st); [reflexivity|exact IHl]. Qed.

Lemma metric_plot_shape png title metric m extra :
  plot_shape (metric_plot png title metric m extra) =
  (png, map (fun e => (LINES_POINTS, curve metric e)) m ++ map (fun d => (ds_style d, ds_points d)) extra).
Proof. unfold plot_shape, metric_plot. cbn. now rewrite map_app, map_map. Qed.

(** The read loop never looks past the first failed extraction. *)
Lemma read_loop_prefix pre post d :
  read_loop (pre ++ None :: post) d = read_loop pre d.
Proof.
  revert d. induction pre as [|[r|] pre IH]; intros d; simpl; auto.
Qed.

(** ** Theorems *)

(** C8: every run first creates both output directories, and fails with
    exit code 1 exactly when [results.dat] cannot be opened or its first
    record cannot be extracted; it then has done nothing else but report
    the error on [std::cerr]. *)
Theorem main_exit_code input :
  match input with Some records => input_ok records | None => True end ->
  (exists rest, fst (main input) = mkdirs ++ rest) /\
  (snd (main input) = 1%Z <->
   match input with None => True | Some (Some _ :: _) => False | Some _ => True end) /\
  (snd (main input) = 1%Z -> exists e, fst (main input) = mkdirs ++ [Stderr e]).
Proof.
  intros Hok. destruct input as [records|]; simpl.
  - destruct (aggregate (read_loop records [])) as [[[m mn] mx]|[]] eqn:Ha; simpl.
    + assert (Hne : read_loop records [] <> []).
      { intros E. apply aggregate_read_empty in E; [congruence|assumption]. }
      rewrite <- read_loop_empty_iff. split; [eexists; reflexivity|]. split; [|discriminate].
      split; [discriminate|tauto].
    + apply aggregate_read_empty, read_loop_empty_iff in Ha; [|assumption].
      destruct records as [|[r|] records]; simpl in Ha; try contradiction;
        (split; [eexists; reflexivity|split; [tauto|eexists; reflexivity]]).
  - split; [eexists; reflexivity|split; [tauto|eexists; reflexivity]].
Qed.

(** C35: a malformed record does not by itself fail the run: the records
    after the first failed extraction have no effect at all, and the run
    is the run on the records before it (which fails only when there are
    none). *)
Theorem main_stops_at_malformed pre post :
  main (Some (pre ++ None :: post)) = main (Some pre).
Proof. unfold main. now rewrite read_loop_prefix. Qed.

(** A run that reads some record exits with 0 after writing the
    statistics table of the aggregated tiers, rendering the six plots of
    those tiers, printing the summary of their selections with the stream
    format threaded through, and rendering the final plot of the valid
    results exactly when there is one. *)
Theorem main_success records m mn mx :
  aggregate (read_loop records []) = inl (m, mn, mx) ->
  main (Some records) = (outputs_ref m mn mx, 0%Z).
Proof.
  intros Ha. unfold main. rewrite Ha. f_equal.
  set (rs := finalResults main_thresholds m).
  unfold outputs_ref, summary_effects, final_plot, final_plot_ref, final_plot_generated, summary.
  fold rs. rewrite summary_fold_lines.
  destruct (summary_fold_count show_double rs {| finalDataset := []; validResultsCount := 0;
    coutFormat := DefaultFloat; coutLines := [] |}) as [-> ->].
  rewrite existsb_filter_length. cbn [coutLines coutFormat finalDataset validResultsCount app].
  replace (0 <? 0 + Z.of_nat (List.length (filter valid rs)))%Z
    with (0 <? List.length (filter valid rs))%nat
    by (destruct (List.length (filter valid rs)); reflexivity).
  rewrite map_map, <- !app_assoc. reflexivity.
Qed.

(** In the six plots of the tiers, the curve of every tier is drawn
    left to right (strictly ascending bitrate) and lies within the
    threshold segment, which runs from [minBitrate] to [maxBitrate]. *)
Theorem tier_curves input m mn mx metric :
  input_ok input -> aggregate (read_loop input []) = inl (m, mn, mx) ->
  Forall (fun ds =>
    StronglySorted (fun a b => (fst a <? fst b)%float = true) (ds_points ds) /\
    Forall (fun xy => (fst xy <? mn)%float = false /\ (mx <? fst xy)%float = false) (ds_points ds))
    (map (tier_dataset metric) m).
Proof.
  intros Hi Ha. destruct (aggregate_sorted_tiers _ _ _ _ Hi Ha) as [_ Ht].
  apply Forall_forall. intros ds Hds. apply in_map_iff in Hds as (e & <- & He).
  unfold tier_dataset. cbn [ds_points]. split.
  - rewrite Forall_forall in Ht. destruct (Ht e He) as [_ Hs].
    apply StronglySorted_map. exact Hs.
  - apply Forall_forall. intros xy Hxy. apply in_map_iff in Hxy as (p & <- & Hp).
    exact (aggregate_point_range input m mn mx e p Hi Ha He Hp).
Qed.

(** C4: the six plots of the tiers, in the order the program renders them:
    for delay, jitter and loss, the mean of every tier against its
    bitrates, in map order, followed by the dashed threshold (20 ms, 8 ms,
    0.5 %) from [minBitrate] to [maxBitrate]; then the margins of error
    of delay, jitter and loss of every tier; at most the final plot comes
    after them. *)
Theorem tier_plots records m mn mx :
  aggregate (read_loop records []) = inl (m, mn, mx) ->
  exists effs six rest, main (Some records) = (effs, 0%Z) /\ plots effs = six ++ rest /\
    (List.length rest <= 1)%nat /\ map plot_shape six = tier_plots_ref m mn mx.
Proof.
  intros Ha. unfold main. rewrite Ha. cbv zeta.
  set (st := summary show_double (finalResults main_thresholds m)).
  exists (mkdirs ++ [WriteFile "sim_precision.dat" (summary_file show_int show_double m); Stdout MsgCsvWritten] ++
          detailed_plots main_thresholds m mn mx ++ precision_plots m ++
          summary_effects st ++ final_plot st ++ [Stdout MsgDone]),
    (plots (detailed_plots main_thresholds m mn mx ++ precision_plots m)), (plots (final_plot st)).
  split; [reflexivity|]. split; [|split].
  - rewrite !plots_app, plots_summary, app_nil_r. reflexivity.
  - unfold final_plot. destruct (final_plot_generated st); cbn; lia.
  - unfold detailed_plots, precision_plots, render. rewrite !plots_app. cbn [plots flat_map app map].
    rewrite !metric_plot_shape. cbn [map threshold_dataset ds_style ds_points]. rewrite !app_nil_r. reflexivity.
Qed.

End Main.

(** ** Witnesses, on the three trials of [SampleStore] *)

Lemma main_exit_code_witness :
  input_ok (None :: map Some trials) /\
  snd (main tag_int tag_double (Some (None :: map Some trials))) = 1%Z.
Proof.
  assert (Hi : input_ok (None :: map Some trials))
    by (constructor; [exact I|exact (input_ok_records _ trials_ok)]).
  split; [exact Hi|].
  destruct (main_exit_code tag_int tag_double (Some (None :: map Some trials)) Hi) as (_ & [_ H] & _).
  exact (H I).
Defined.

Lemma main_success_witness :
  exists m mn mx, aggregate (read_loop (map Some trials) []) = inl (m, mn, mx) /\
    main tag_int tag_double (Some (map Some trials)) = (outputs_ref tag_int tag_double m mn mx, 0%Z).
Proof.
  run_aggregate Ha. do 3 eexists. split; [exact Ha|].
  exact (main_success tag_int tag_double _ _ _ _ Ha).
Defined.

Lemma tier_plots_witness :
  exists m mn mx, aggregate (read_loop (map Some trials) []) = inl (m, mn, mx) /\
    exists effs six rest, main tag_int tag_double (Some (map Some trials)) = (effs, 0%Z) /\
      plots effs = six ++ rest /\ (List.length rest <= 1)%nat /\ map plot_shape six = tier_plots_ref m mn mx.
Proof.
  run_aggregate Ha. do 3 eexists. split; [exact Ha|].
  exact (tier_plots tag_int tag_double _ _ _ _ Ha).
Defined.

Lemma tier_curves_witness :
  exists m mn mx, input_ok (map Some trials) /\ aggregate (read_loop (map Some trials) []) = inl (m, mn, mx) /\
    Forall (fun ds =>
      StronglySorted (fun a b => (fst a <? fst b)%float = true) (ds_points ds) /\
      Forall (fun xy => (fst xy <? mn)%float = false /\ (mx <? fst xy)%float = false) (ds_points ds))
      (map (tier_dataset tag_int delayMean) m).
Proof.
  pose proof (input_ok_records _ trials_ok) as Hi. run_aggregate Ha. do 3 eexists.
  split; [exact Hi|]. split; [exact Ha|].
  exact (tier_curves tag_int _ _ _ _ delayMean Hi Ha).
Defined.

End PlotResults.
